(** * Om Services admin panel: the entity stores, the payroll calculator,
      the permission check and the remote-store gateway

    A shallow embedding of the TypeScript hooks and services:
    - [useSalary.calculateSalary]            (module [Salary]),
    - [useAuth.hasPermission]                (module [Auth]),
    - [DatabaseService.query]                (module [DatabaseService]),
    - [useCustomers], [useBuilders], [useDocuments] (modules [Customers],
      [Builders], [Documents], [DocumentNotes]),
    - [useAttendance]                        (modules [Attendance],
      [AttendanceQueries], [Leave]),
    - [useAuth.login], [logout]              (module [Session]),
    - [useSalary]: payroll and statistics    (module [SalaryStore]),
    - [DatabaseService]: statements built at run time, [initialize], and the
      [DatabaseProvider]                     (modules [DatabaseOps],
      [Connection]).

    Conventions of the embedding.
    - A TypeScript [number] that holds money or hours is a member of a type
      of class [Js.Number]; the hooks are written over the class, whose
      instance [Js.double] is the IEEE 754 arithmetic of the program
      (primitive floats).  The instance [Js.rational] is exact arithmetic; a
      theorem stated at it says so.  Counts are natural numbers and
      millisecond time stamps integers: both are exact as doubles.  A number
      that is only stored or handed to the gateway (the days of a leave, the
      month of a filter, a query parameter) is a rational.
    - [undefined] is [None]; a [Partial<T>] is a record of options.
    - A function that can [throw] returns an [Outcome].
    - A React provider is a [Section]: the state captured by the closures of
      one render is a [Variable], and [setState(prev => ...)] is a state
      transformer applied to the current state (module [Js], type [Action]).
    - The answers of the remote gateway are parameters of the connected
      branches; rows come typed, with their dates parsed.
    - One call reads the clock once: every [new Date()] and [Date.now()] of
      a call gives the same instant.
    - The [loading] flags are left out; case mapping is that of ASCII
      letters. *)

From Stdlib Require Import ZArith QArith Qround List String Ascii Bool Lia Lqa.
From Stdlib Require Import DecimalString.
From Stdlib Require DecimalNat DecimalFacts.
From Stdlib Require PrimFloat FloatOps SpecFloat.
Import ListNotations.

#[local] Set Warnings "-inexact-float".

(* ===================================================================== *)
(** * JavaScript values and control flow                                  *)
(* ===================================================================== *)

Module Js.

Local Open Scope string_scope.

(** A thrown value: an instance of [Error] (with its message) or anything
    else. *)
Inductive JsError : Type :=
| ErrorObject (message : string)
| NonError.

Inductive Outcome (A : Type) : Type :=
| Returned (a : A)
| Threw (e : JsError).
Arguments Returned {A} a.
Arguments Threw {A} e.

(** [Action S A]: a computation that updates a React state of type [S]
    through functional updaters and returns an [A] or throws.  Updates made
    before a throw are kept: there is no rollback. *)
Definition Action (S A : Type) : Type := S -> Outcome A * S.

Definition ret {S A} (a : A) : Action S A := fun s => (Returned a, s).

Definition throw {S A} (e : JsError) : Action S A := fun s => (Threw e, s).

Definition bind {S A B} (m : Action S A) (k : A -> Action S B) : Action S B :=
  fun s =>
    match m s with
    | (Returned a, s') => k a s'
    | (Threw e, s') => (Threw e, s')
    end.

(** [setState(updater)] *)
Definition setState {S} (updater : S -> S) : Action S unit :=
  fun s => (Returned tt, updater s).

(** An action on a component of the state, run on the whole state. *)
Definition zoom {S T A} (get : S -> T) (set : T -> S -> S)
  (m : Action T A) : Action S A :=
  fun s => let (r, t') := m (get s) in (r, set t' s).

(** The state and result of an action started on the state its closures
    captured (the call follows a render). *)
Definition run {S A} (m : S -> Action S A) (s : S) : Outcome A * S := m s s.

(** ** Truthiness and [||] *)

(** [s || d] on an optional string: [undefined] and [''] are falsy. *)
Definition orString (s : option string) (d : string) : string :=
  match s with
  | Some EmptyString | None => d
  | Some v => v
  end.

Definition truthyString (s : string) : bool :=
  match s with EmptyString => false | _ => true end.

(** [{ k: d, ...data }]: a key present in [data] overrides the default. *)
Definition spread {A} (data : option A) (d : A) : A :=
  match data with Some v => v | None => d end.

(** ** Strings *)

Definition upperChar (c : ascii) : ascii :=
  let n := nat_of_ascii c in
  if (97 <=? n)%nat && (n <=? 122)%nat then ascii_of_nat (n - 32) else c.

Definition lowerChar (c : ascii) : ascii :=
  let n := nat_of_ascii c in
  if (65 <=? n)%nat && (n <=? 90)%nat then ascii_of_nat (n + 32) else c.

Fixpoint mapString (f : ascii -> ascii) (s : string) : string :=
  match s with
  | EmptyString => EmptyString
  | String c r => String (f c) (mapString f r)
  end.

(** [s.toUpperCase()] and [s.toLowerCase()] on a string of ASCII characters:
    the letters A-Z and a-z are mapped, every other character is kept.  The
    case mapping of characters outside ASCII is not modelled; what is proved
    with these functions is stated for ASCII strings ([isAscii]). *)
Definition toUpperCase : string -> string := mapString upperChar.
Definition toLowerCase : string -> string := mapString lowerChar.

(** Every character of the string is an ASCII character (a code below
    128). *)
Fixpoint isAscii (s : string) : bool :=
  match s with
  | EmptyString => true
  | String c r => (nat_of_ascii c <? 128)%nat && isAscii r
  end.

Fixpoint drop (n : nat) (s : string) : string :=
  match n, s with
  | O, _ => s
  | S k, String _ r => drop k r
  | S _, EmptyString => EmptyString
  end.

(** [s.replace(pattern, replacement)] with a string pattern: only the first
    occurrence is replaced. *)
Fixpoint replace (pattern replacement s : string) : string :=
  if prefix pattern s then replacement ++ drop (length pattern) s
  else match s with
       | EmptyString => EmptyString
       | String c r => String c (replace pattern replacement r)
       end.

(** [s.includes(sub)] *)
Fixpoint includes (s sub : string) : bool :=
  prefix sub s ||
  match s with
  | EmptyString => false
  | String _ r => includes r sub
  end.

(** The first [n] characters of [fill] repeated. *)
Fixpoint fillTo (n : nat) (fill cur : string) : string :=
  match n with
  | O => EmptyString
  | S k =>
      match cur with
      | String c r => String c (fillTo k fill r)
      | EmptyString =>
          match fill with
          | String c r => String c (fillTo k fill r)
          | EmptyString => EmptyString
          end
      end
  end.

(** [s.padStart(targetLength, fill)] *)
Definition padStart (targetLength : nat) (fill s : string) : string :=
  fillTo (targetLength - length s) fill fill ++ s.

(** [n.toString()] for a count and for an integer. *)
Definition natToString (n : nat) : string :=
  NilEmpty.string_of_uint (Nat.to_uint n).

Definition intToString (z : Z) : string :=
  NilEmpty.string_of_int (Z.to_int z).

(** [xs.find(p)] *)
Definition find {A} (p : A -> bool) (xs : list A) : option A := List.find p xs.

(** [xs.includes(x)] on an array of strings *)
Definition arrayIncludes (xs : list string) (x : string) : bool :=
  existsb (String.eqb x) xs.

(** [xs[xs.length - 1]] *)
Definition lastElement {A} (xs : list A) : option A :=
  match List.rev xs with
  | [] => None
  | x :: _ => Some x
  end.

(** ** Dates *)

(** A [Date]: the instant in milliseconds since the epoch together with its
    local-time accessors.  [dayStart] is the instant of the local midnight
    that opens the calendar day. *)
Record Date : Type := mkDate {
  getTime : Z;
  getFullYear : Z;
  getMonth : Z;
  getDate : Z;
  dayStart : Z
}.

(** [new Date(d.getFullYear(), d.getMonth(), d.getDate())] *)
Definition startOfDay (d : Date) : Date :=
  {| getTime := dayStart d;
     getFullYear := getFullYear d;
     getMonth := getMonth d;
     getDate := getDate d;
     dayStart := dayStart d |}.

(** [d.toDateString()], e.g. "Mon Nov 02 2026": the week day is a function of
    the other three, so two such strings are equal exactly when year, month
    and day of the month are. *)
Definition toDateString (d : Date) : Z * Z * Z :=
  (getFullYear d, getMonth d, getDate d).

Definition sameDateString (a b : Z * Z * Z) : bool :=
  let '(y1, m1, d1) := a in
  let '(y2, m2, d2) := b in
  (y1 =? y2)%Z && (m1 =? m2)%Z && (d1 =? d2)%Z.

(** ** Numbers *)

(** A JS [number] is an IEEE 754 double.  The operations the hooks apply to
    numbers are the methods of a class, and every hook is written once, over
    the class.  The instance [double] is the arithmetic of the program; the
    instance [rational] is exact arithmetic, used where a bound is proved
    that needs the laws of an ordered field. *)
Class Number (num : Type) : Type := {
  (** an integer literal, or an integer value such as a length or a time *)
  ofInteger : Z -> num;
  num_add : num -> num -> num;
  num_sub : num -> num -> num;
  num_mul : num -> num -> num;
  num_div : num -> num -> num;
  (** [x > y] *)
  num_gt : num -> num -> bool;
  (** truthiness: [0], [-0] and [NaN] are falsy *)
  truthyNumber : num -> bool;
  Math_round : num -> num;
  Math_max : num -> num -> num;
  Math_min : num -> num -> num;
  (** the integer part, toward zero; [None] for [NaN] and the infinities *)
  toInteger : num -> option Z
}.

(** Truncation toward zero. *)
Definition truncate (q : Q) : Z :=
  if Qle_bool 0 q then Qfloor q else Qceiling q.

(** *** IEEE 754 doubles *)

Module Double.

Definition pow2 (e : Z) : Q :=
  if (0 <=? e)%Z then inject_Z (2 ^ e) else (/ inject_Z (2 ^ (- e)))%Q.

(** The real number a finite double stands for; [NaN] and the infinities
    stand for none. *)
Definition value (x : PrimFloat.float) : option Q :=
  match FloatOps.Prim2SF x with
  | SpecFloat.S754_zero _ => Some 0%Q
  | SpecFloat.S754_finite negative m e =>
      let magnitude := (inject_Z (Zpos m) * pow2 e)%Q in
      Some (if negative then (- magnitude)%Q else magnitude)
  | _ => None
  end.

(** The same as a total function, 0 standing in for [NaN] and the
    infinities. *)
Definition real (x : PrimFloat.float) : Q :=
  match value x with Some q => q | None => 0%Q end.

(** The double nearest to an integer, a tie going to the even one. *)
Definition ofInteger (z : Z) : PrimFloat.float :=
  FloatOps.SF2Prim
    (SpecFloat.binary_normalize FloatOps.prec FloatOps.emax z 0 false).

Definition truthy (x : PrimFloat.float) : bool :=
  negb (PrimFloat.is_zero x || PrimFloat.is_nan x).

(** [Math.round(x)]: the integer nearest to x, a half rounded up; [-0] for
    x in [-0.5, 0) and for [-0]; [NaN] and the infinities are returned as
    they are. *)
Definition round (x : PrimFloat.float) : PrimFloat.float :=
  match value x with
  | Some q =>
      let r := Qfloor (q + (1 # 2)) in
      if (r =? 0)%Z && PrimFloat.get_sign x then PrimFloat.neg_zero
      else ofInteger r
  | None => x
  end.

(** [Math.max(a, b)] and [Math.min(a, b)]: [NaN] when an argument is [NaN];
    [+0] is larger than [-0]. *)
Definition max (a b : PrimFloat.float) : PrimFloat.float :=
  if PrimFloat.is_nan a then a
  else if PrimFloat.is_nan b then b
  else if PrimFloat.ltb a b then b
  else if PrimFloat.ltb b a then a
  else if PrimFloat.get_sign a then b else a.

Definition min (a b : PrimFloat.float) : PrimFloat.float :=
  if PrimFloat.is_nan a then a
  else if PrimFloat.is_nan b then b
  else if PrimFloat.ltb a b then a
  else if PrimFloat.ltb b a then b
  else if PrimFloat.get_sign a then a else b.

Definition toInteger (x : PrimFloat.float) : option Z :=
  option_map truncate (value x).

End Double.

(** *** Exact arithmetic *)

Module Exact.

(** The nearest integer, a half rounded up. *)
Definition round (x : Q) : Q := inject_Z (Qfloor (x + (1 # 2))).

Definition max (a b : Q) : Q := if Qle_bool a b then b else a.

Definition min (a b : Q) : Q := if Qle_bool a b then a else b.

End Exact.

#[export] Instance rational : Number Q :=
  {| ofInteger := inject_Z;
     num_add := Qplus;
     num_sub := Qminus;
     num_mul := Qmult;
     num_div := Qdiv;
     num_gt := fun x y => negb (Qle_bool x y);
     truthyNumber := fun x => negb (Qeq_bool x 0);
     Math_round := Exact.round;
     Math_max := Exact.max;
     Math_min := Exact.min;
     toInteger := fun x => Some (truncate x) |}.

#[export] Instance double : Number PrimFloat.float :=
  {| ofInteger := Double.ofInteger;
     num_add := PrimFloat.add;
     num_sub := PrimFloat.sub;
     num_mul := PrimFloat.mul;
     num_div := PrimFloat.div;
     num_gt := fun x y => PrimFloat.ltb y x;
     truthyNumber := Double.truthy;
     Math_round := Double.round;
     Math_max := Double.max;
     Math_min := Double.min;
     toInteger := Double.toInteger |}.

(** [n || d] on an optional number: [undefined] is falsy too. *)
Definition orNumber {num} `{Number num} (n : option num) (d : num) : num :=
  match n with
  | Some v => if truthyNumber v then v else d
  | None => d
  end.

(** The time value of [new Date(t)]: a fractional instant is truncated;
    [None] stands for an invalid date. *)
Definition timeClip {num} `{Number num} (t : num) : option Z :=
  match toInteger t with
  | Some z => if (Z.abs z <=? 8640000000000000)%Z then Some z else None
  | None => None
  end.

End Js.

Declare Scope num_scope.
Delimit Scope num_scope with num.
Infix "+" := Js.num_add : num_scope.
Infix "-" := Js.num_sub : num_scope.
Infix "*" := Js.num_mul : num_scope.
Infix "/" := Js.num_div : num_scope.
Infix ">?" := Js.num_gt (at level 70, no associativity) : num_scope.

Declare Scope action_scope.
Delimit Scope action_scope with action.
Notation "x <- m ;; k" := (Js.bind m (fun x => k))
  (at level 61, m at next level, right associativity) : action_scope.
Notation "m ;;; k" := (Js.bind m (fun _ => k))
  (at level 61, right associativity) : action_scope.

(* ===================================================================== *)
(** * Payroll: [src/types/salary.ts] and [useSalary.calculateSalary]      *)
(* ===================================================================== *)

Module Salary.

Import Js.
Local Open Scope num_scope.

Inductive AllowanceType : Type :=
| house_rent | transport | medical | food | performance | special
| other_allowance.

Inductive DeductionType : Type :=
| tax | provident_fund | insurance | loan | advance | late_penalty
| other_deduction.

Inductive PaymentMethod : Type := bank_transfer | cash | cheque | upi.

Record BankDetails : Type := {
  accountNumber : string;
  bankName : string;
  ifscCode : string;
  accountHolderName : string
}.

Section Amounts.

(** The type of the amounts: JS numbers. *)
Context {num : Type}.

Record SalaryAllowance : Type := {
  allowance_id : string;
  allowance_type : AllowanceType;
  allowance_amount : num;
  allowance_description : option string
}.

Record SalaryDeduction : Type := {
  deduction_id : string;
  deduction_type : DeductionType;
  deduction_amount : num;
  deduction_description : option string
}.

Record StaffSalaryConfig : Type := {
  config_id : string;
  userId : string;
  baseSalary : num;
  allowances : list SalaryAllowance;
  deductions : list SalaryDeduction;
  overtimeRate : num;
  paymentMethod : PaymentMethod;
  bankDetails : option BankDetails;
  isActive : bool;
  effectiveFrom : Js.Date;
  createdAt : Js.Date;
  updatedAt : Js.Date
}.

Record GrossNet : Type := { gross : num; net : num }.

Context {arith : Number num}.

(** [calculateSalary(config, overtimeHours = 0, bonus = 0)] *)
Definition calculateSalary (config : StaffSalaryConfig)
  (overtimeHours bonus : option num) : GrossNet :=
  let overtimeHours := Js.spread overtimeHours (ofInteger 0) in
  let bonus := Js.spread bonus (ofInteger 0) in
  let totalAllowances :=
    fold_left (fun sum allowance => sum + allowance_amount allowance)
      (allowances config) (ofInteger 0) in
  let totalDeductions :=
    fold_left (fun sum deduction => sum + deduction_amount deduction)
      (deductions config) (ofInteger 0) in
  let overtimeAmount := overtimeHours * overtimeRate config in
  let grossSalary := baseSalary config + totalAllowances + overtimeAmount + bonus in
  let netSalary := grossSalary - totalDeductions in
  {| gross := grossSalary; net := netSalary |}.

(** The sums of the specification: the sum of the first n amounts is the sum
    of the first n - 1 with the n-th added to it, and the empty sum is 0. *)
Fixpoint sumOfFirst (n : nat) (amounts : list num) : num :=
  match n with
  | O => ofInteger 0
  | S k => sumOfFirst k amounts + nth k amounts (ofInteger 0)
  end.

Definition sigma (amounts : list num) : num :=
  sumOfFirst (List.length amounts) amounts.

End Amounts.

Arguments SalaryAllowance : clear implicits.
Arguments SalaryDeduction : clear implicits.
Arguments StaffSalaryConfig : clear implicits.
Arguments GrossNet : clear implicits.

End Salary.

(* ===================================================================== *)
(** * Session store: [useAuth.hasPermission]                              *)
(* ===================================================================== *)

Module Auth.

Local Open Scope string_scope.

Record Permission : Type := {
  permission_id : string;
  module : string;
  action : string;
  granted : bool
}.

(** [UserRole] is a union of string literals; at run time a role is a
    string. *)
Record User : Type := {
  id : string;
  email : string;
  name : string;
  role : string;
  permissions : list Permission;
  isActive : bool
}.

(** [hasPermission(module, action)]; [user] is the state of the provider,
    [null] when nobody is signed in. *)
Definition hasPermission (user : option User) (module_ action_ : string) : bool :=
  match user with
  | None => false
  | Some user =>
      if role user =? "main_admin" then true
      else
        existsb
          (fun p => (module p =? module_) && (action p =? action_) && granted p)
          (permissions user)
  end.

End Auth.

(* ===================================================================== *)
(** * Remote-store gateway: [DatabaseService.query]                       *)
(* ===================================================================== *)

Module DatabaseService.

Import Js.
Local Open Scope string_scope.
Local Open Scope action_scope.

Record DatabaseConfig : Type := {
  host : string;
  port : Z;
  database : string;
  username : string;
  password : string;
  ssl : string
}.

(** [QueryResult]; [R] is the shape of a row ([any] in the source). *)
Record QueryResult (R : Type) : Type := mkQueryResult {
  success : bool;
  data : option (list R);
  error : option string;
  affectedRows : option Z
}.
Arguments mkQueryResult {R}.
Arguments success {R}.
Arguments data {R}.
Arguments error {R}.
Arguments affectedRows {R}.

(** The private fields of the service object. *)
Record Service : Type := {
  config : option DatabaseConfig;
  isConnected : bool
}.

(** A positional SQL parameter. *)
Inductive Param : Type :=
| PString (s : string)
| PNumber (q : Q)
| PUndefined.

(** The arguments of one [fetch] call. *)
Record Request : Type := {
  url : string;
  method : string;
  body_config : DatabaseConfig;
  body_sql : string;
  body_params : list Param
}.

(** What [fetch] resolves to: the [ok] flag of the response and what reading
    its body as JSON or as text gives (either can reject). *)
Record Response (R : Type) : Type := {
  ok : bool;
  json : Outcome (QueryResult R);
  text : Outcome string
}.
Arguments ok {R}.
Arguments json {R}.
Arguments text {R}.

(** The network: every request is answered by a response or a rejection. *)
Definition Network (R : Type) : Type := Request -> Outcome (Response R).

(** [await fetch(...)]: the call is recorded in the log of network calls. *)
Definition fetch {R} (net : Network R) (req : Request)
  : Action (list Request) (Response R) :=
  fun calls => (net req, (calls ++ [req])%list).

(** [await p] for a body promise whose outcome is known. *)
Definition await {S A} (o : Outcome A) : Action S A :=
  fun s => (o, s).

(** [try { body } catch (error) { handler }] *)
Definition tryCatch {S A} (body : Action S A) (handler : JsError -> Action S A)
  : Action S A :=
  fun s =>
    match body s with
    | (Returned a, s') => (Returned a, s')
    | (Threw e, s') => handler e s'
    end.

Definition failure {R} (message : string) : QueryResult R :=
  {| success := false; data := None; error := Some message;
     affectedRows := None |}.

(** [query(sql, params = [])] *)
Definition query {R} (this : Service) (net : Network R)
  (sql : string) (params : list Param) : Action (list Request) (QueryResult R) :=
  match isConnected this, config this with
  | true, Some cfg =>
      tryCatch
        (response <- fetch net
                       {| url := "/api/db-query.php";
                          method := "POST";
                          body_config := cfg;
                          body_sql := sql;
                          body_params := params |} ;;
         if ok response then await (json response)
         else
           error <- await (text response) ;;
           ret (failure ("Query failed: " ++ error)))
        (fun error =>
           ret (failure
                  match error with
                  | ErrorObject message => message
                  | NonError => "Unknown database error"
                  end))
  | _, _ => ret (failure "Database not connected")
  end.

End DatabaseService.

(* ===================================================================== *)
(** * Customer store: [useCustomers]                                      *)
(* ===================================================================== *)

Module Customers.

Import Js.
Import DatabaseService.
Local Open Scope string_scope.
Local Open Scope action_scope.

Record Customer : Type := {
  id : string;
  name : string;
  phone : string;
  email : option string;
  address : string;
  documents : list string;
  createdAt : Date
}.

(** [Partial<Customer>] *)
Record PartialCustomer : Type := {
  p_id : option string;
  p_name : option string;
  p_phone : option string;
  p_email : option string;
  p_address : option string;
  p_documents : option (list string);
  p_createdAt : option Date
}.

(** [{ ...customer, ...data }] *)
Definition merge (customer : Customer) (data : PartialCustomer) : Customer :=
  {| id := spread (p_id data) (id customer);
     name := spread (p_name data) (name customer);
     phone := spread (p_phone data) (phone customer);
     email := match p_email data with Some e => Some e | None => email customer end;
     address := spread (p_address data) (address customer);
     documents := spread (p_documents data) (documents customer);
     createdAt := spread (p_createdAt data) (createdAt customer) |}.

(** A row of the [customers] table joined with its document numbers. *)
Record CustomerRow : Type := {
  row_id : Z;
  row_name : string;
  row_phone : string;
  row_email : option string;
  row_address : string;
  row_documents : option string;
  row_created_at : Date
}.

(** The answers of the gateway to the calls of this store. *)
Record Remote : Type := {
  db_getCustomers : QueryResult CustomerRow;
  db_createCustomer :
    string -> string -> option string -> string -> QueryResult CustomerRow;
  db_updateCustomer : string -> PartialCustomer -> QueryResult CustomerRow
}.

(** [s.split(',')] *)
Fixpoint split (sep : ascii) (s : string) : list string :=
  match s with
  | EmptyString => [EmptyString]
  | String c r =>
      if Ascii.eqb c sep then EmptyString :: split sep r
      else match split sep r with
           | piece :: pieces => String c piece :: pieces
           | [] => [String c EmptyString]
           end
  end.

(** [row.documents ? row.documents.split(',').filter(Boolean) : []] *)
Definition rowDocuments (documents : option string) : list string :=
  match documents with
  | Some (String c r) => filter truthyString (split "," (String c r))
  | _ => []
  end.

Definition rowToCustomer (row : CustomerRow) : Customer :=
  {| id := intToString (row_id row);
     name := row_name row;
     phone := row_phone row;
     email := row_email row;
     address := row_address row;
     documents := rowDocuments (row_documents row);
     createdAt := row_created_at row |}.

Section CustomerProvider.

(** The values captured by the closures of one render. *)
Variable customers : list Customer.
Variable isConnected : bool.
Variable db : Remote.
(** The clock: what [new Date()] gives during the call. *)
Variable now : Date.

Definition loadCustomersFromDatabase : Action (list Customer) unit :=
  if negb isConnected then ret tt
  else
    let result := db_getCustomers db in
    match success result, data result with
    | true, Some rows => setState (fun _ => map rowToCustomer rows)
    | _, _ => ret tt
    end.

Definition generateCustomerId : string :=
  let count := (List.length customers + 1)%nat in
  "CUST" ++ padStart 3 "0" (natToString count).

Definition createCustomer (data : PartialCustomer)
  : Action (list Customer) (option Customer) :=
  if isConnected then
    let result :=
      db_createCustomer db (orString (p_name data) "") (orString (p_phone data) "")
        (p_email data) (orString (p_address data) "") in
    if success result then
      loadCustomersFromDatabase ;;;
      ret (lastElement customers)
    else throw (ErrorObject (orString (error result) "Failed to create customer"))
  else
    let newCustomer :=
      {| id := spread (p_id data) (orString (p_id data) generateCustomerId);
         name := spread (p_name data) (orString (p_name data) "");
         phone := spread (p_phone data) (orString (p_phone data) "");
         email := p_email data;
         address := spread (p_address data) (orString (p_address data) "");
         documents := spread (p_documents data) (spread (p_documents data) []);
         createdAt := spread (p_createdAt data) now |} in
    setState (fun prev => (prev ++ [newCustomer])%list) ;;;
    ret (Some newCustomer).

Definition updateCustomer (id_ : string) (data : PartialCustomer)
  : Action (list Customer) (option Customer) :=
  if isConnected then
    let result := db_updateCustomer db id_ data in
    if success result then
      loadCustomersFromDatabase ;;;
      ret (find (fun c => id c =? id_) customers)
    else throw (ErrorObject (orString (error result) "Failed to update customer"))
  else
    setState
      (fun prev =>
         map (fun customer =>
                if id customer =? id_ then merge customer data else customer)
           prev) ;;;
    ret (find (fun c => id c =? id_) customers).

Definition deleteCustomer (id_ : string) : Action (list Customer) unit :=
  setState (fun prev => filter (fun customer => negb (id customer =? id_)) prev).

Definition getCustomer (id_ : string) : option Customer :=
  find (fun customer => id customer =? id_) customers.

Definition getCustomerByPhone (phone_ : string) : option Customer :=
  find (fun customer => phone customer =? phone_) customers.

Definition getCustomerByEmail (email_ : string) : option Customer :=
  find (fun customer =>
          match email customer with
          | Some e => e =? email_
          | None => false
          end) customers.

Definition addDocumentToCustomer (customerId documentId : string)
  : Action (list Customer) unit :=
  match getCustomer customerId with
  | Some customer =>
      if negb (arrayIncludes (documents customer) documentId) then
        updateCustomer customerId
          {| p_id := None; p_name := None; p_phone := None; p_email := None;
             p_address := None;
             p_documents := Some (documents customer ++ [documentId])%list;
             p_createdAt := None |} ;;;
        ret tt
      else ret tt
  | None => ret tt
  end.

End CustomerProvider.

End Customers.

(* ===================================================================== *)
(** * Builder store: [useBuilders]                                        *)
(* ===================================================================== *)

Module Builders.

Import Js.
Import DatabaseService.
Local Open Scope string_scope.
Local Open Scope action_scope.

Record Builder : Type := {
  id : string;
  name : string;
  contactPerson : string;
  phone : string;
  email : option string;
  address : string;
  registrationNumber : option string;
  documents : list string;
  createdAt : Date
}.

(** [Partial<Builder>] *)
Record PartialBuilder : Type := {
  p_id : option string;
  p_name : option string;
  p_contactPerson : option string;
  p_phone : option string;
  p_email : option string;
  p_address : option string;
  p_registrationNumber : option string;
  p_documents : option (list string);
  p_createdAt : option Date
}.

(** [{ ...builder, ...data }] *)
Definition merge (builder : Builder) (data : PartialBuilder) : Builder :=
  {| id := spread (p_id data) (id builder);
     name := spread (p_name data) (name builder);
     contactPerson := spread (p_contactPerson data) (contactPerson builder);
     phone := spread (p_phone data) (phone builder);
     email := match p_email data with Some e => Some e | None => email builder end;
     address := spread (p_address data) (address builder);
     registrationNumber :=
       match p_registrationNumber data with
       | Some r => Some r
       | None => registrationNumber builder
       end;
     documents := spread (p_documents data) (documents builder);
     createdAt := spread (p_createdAt data) (createdAt builder) |}.

(** A row of the [builders] table joined with its document numbers. *)
Record BuilderRow : Type := {
  row_id : Z;
  row_name : string;
  row_contact_person : string;
  row_phone : string;
  row_email : option string;
  row_address : string;
  row_registration_number : option string;
  row_documents : option string;
  row_created_at : Date
}.

(** The arguments of [databaseService.createBuilder]. *)
Record BuilderInsert : Type := {
  i_name : string;
  i_contactPerson : string;
  i_phone : string;
  i_email : option string;
  i_address : string;
  i_registrationNumber : option string
}.

(** The answers of the gateway to the calls of this store. *)
Record Remote : Type := {
  db_getBuilders : QueryResult BuilderRow;
  db_createBuilder : BuilderInsert -> QueryResult BuilderRow;
  db_updateBuilder : string -> PartialBuilder -> QueryResult BuilderRow
}.

Definition rowToBuilder (row : BuilderRow) : Builder :=
  {| id := intToString (row_id row);
     name := row_name row;
     contactPerson := row_contact_person row;
     phone := row_phone row;
     email := row_email row;
     address := row_address row;
     registrationNumber := row_registration_number row;
     documents := Customers.rowDocuments (row_documents row);
     createdAt := row_created_at row |}.

Section BuilderProvider.

Variable builders : list Builder.
Variable isConnected : bool.
Variable db : Remote.
Variable now : Date.

Definition loadBuildersFromDatabase : Action (list Builder) unit :=
  if negb isConnected then ret tt
  else
    let result := db_getBuilders db in
    match success result, data result with
    | true, Some rows => setState (fun _ => map rowToBuilder rows)
    | _, _ => ret tt
    end.

Definition generateBuilderId : string :=
  let count := (List.length builders + 1)%nat in
  "BLD" ++ padStart 3 "0" (natToString count).

Definition createBuilder (data : PartialBuilder)
  : Action (list Builder) (option Builder) :=
  if isConnected then
    let result :=
      db_createBuilder db
        {| i_name := orString (p_name data) "";
           i_contactPerson := orString (p_contactPerson data) "";
           i_phone := orString (p_phone data) "";
           i_email := p_email data;
           i_address := orString (p_address data) "";
           i_registrationNumber := p_registrationNumber data |} in
    if success result then
      loadBuildersFromDatabase ;;;
      ret (lastElement builders)
    else throw (ErrorObject (orString (error result) "Failed to create builder"))
  else
    let newBuilder :=
      {| id := spread (p_id data) (orString (p_id data) generateBuilderId);
         name := spread (p_name data) (orString (p_name data) "");
         contactPerson :=
           spread (p_contactPerson data) (orString (p_contactPerson data) "");
         phone := spread (p_phone data) (orString (p_phone data) "");
         email := p_email data;
         address := spread (p_address data) (orString (p_address data) "");
         registrationNumber := p_registrationNumber data;
         documents := spread (p_documents data) (spread (p_documents data) []);
         createdAt := spread (p_createdAt data) now |} in
    setState (fun prev => (prev ++ [newBuilder])%list) ;;;
    ret (Some newBuilder).

Definition updateBuilder (id_ : string) (data : PartialBuilder)
  : Action (list Builder) (option Builder) :=
  if isConnected then
    let result := db_updateBuilder db id_ data in
    if success result then
      loadBuildersFromDatabase ;;;
      ret (find (fun b => id b =? id_) builders)
    else throw (ErrorObject (orString (error result) "Failed to update builder"))
  else
    setState
      (fun prev =>
         map (fun builder =>
                if id builder =? id_ then merge builder data else builder)
           prev) ;;;
    ret (find (fun b => id b =? id_) builders).

Definition deleteBuilder (id_ : string) : Action (list Builder) unit :=
  setState (fun prev => filter (fun builder => negb (id builder =? id_)) prev).

Definition getBuilder (id_ : string) : option Builder :=
  find (fun builder => id builder =? id_) builders.

Definition getBuilderByName (name_ : string) : option Builder :=
  find (fun builder => includes (toLowerCase (name builder)) (toLowerCase name_))
    builders.

Definition addDocumentToBuilder (builderId documentId : string)
  : Action (list Builder) unit :=
  match getBuilder builderId with
  | Some builder =>
      if negb (arrayIncludes (documents builder) documentId) then
        updateBuilder builderId
          {| p_id := None; p_name := None; p_contactPerson := None;
             p_phone := None; p_email := None; p_address := None;
             p_registrationNumber := None;
             p_documents := Some (documents builder ++ [documentId])%list;
             p_createdAt := None |} ;;;
        ret tt
      else ret tt
  | None => ret tt
  end.

End BuilderProvider.

End Builders.

(* ===================================================================== *)
(** * Document store and customer/builder linker: [useDocuments]          *)
(* ===================================================================== *)

Module Documents.

Import Js.
Import DatabaseService.
Local Open Scope string_scope.
Local Open Scope action_scope.

(** [DocumentType] and [DocumentStatus]: the string literals of the two
    unions, as the [documents] table enumerates them. *)
Inductive DocumentType : Type :=
| agreement | lease_deed | sale_deed | mutation | partition_deed | gift_deed.

Inductive DocumentStatus : Type :=
| pending_collection | collected | data_entry_pending | data_entry_completed
| registration_pending | registered | ready_for_delivery | delivered.

(** The string a [DocumentType] is at run time. *)
Definition typeLiteral (type : DocumentType) : string :=
  match type with
  | agreement => "agreement"
  | lease_deed => "lease_deed"
  | sale_deed => "sale_deed"
  | mutation => "mutation"
  | partition_deed => "partition_deed"
  | gift_deed => "gift_deed"
  end.

(** [a === b] on two values of type [DocumentType | undefined] *)
Definition sameType (a b : option DocumentType) : bool :=
  match a, b with
  | Some x, Some y => typeLiteral x =? typeLiteral y
  | None, None => true
  | _, _ => false
  end.

Inductive FileKind : Type := photo | document.

Record DocumentFile : Type := {
  file_id : string;
  file_name : string;
  file_type : FileKind;
  file_url : string;
  uploadedBy : string;
  uploadedAt : Date
}.

(** [documentType] is optional here although the interface declares it
    required: [createDocument] stores [data.documentType!], and the assertion
    is erased at run time. *)
Record Document : Type := {
  id : string;
  documentNumber : string;
  customerName : string;
  customerPhone : string;
  customerEmail : option string;
  builderName : string;
  propertyDetails : string;
  documentType : option DocumentType;
  status : DocumentStatus;
  collectionDate : option Date;
  dataEntryDate : option Date;
  registrationDate : option Date;
  deliveryDate : option Date;
  assignedTo : option string;
  notes : list string;
  files : list DocumentFile;
  createdAt : Date;
  updatedAt : Date
}.

(** [Partial<Document>] *)
Record PartialDocument : Type := {
  p_id : option string;
  p_documentNumber : option string;
  p_customerName : option string;
  p_customerPhone : option string;
  p_customerEmail : option string;
  p_builderName : option string;
  p_propertyDetails : option string;
  p_documentType : option DocumentType;
  p_status : option DocumentStatus;
  p_collectionDate : option Date;
  p_dataEntryDate : option Date;
  p_registrationDate : option Date;
  p_deliveryDate : option Date;
  p_assignedTo : option string;
  p_notes : option (list string);
  p_files : option (list DocumentFile);
  p_createdAt : option Date;
  p_updatedAt : option Date
}.

Definition noFields : PartialDocument :=
  {| p_id := None; p_documentNumber := None; p_customerName := None;
     p_customerPhone := None; p_customerEmail := None; p_builderName := None;
     p_propertyDetails := None; p_documentType := None; p_status := None;
     p_collectionDate := None; p_dataEntryDate := None;
     p_registrationDate := None; p_deliveryDate := None; p_assignedTo := None;
     p_notes := None; p_files := None; p_createdAt := None;
     p_updatedAt := None |}.

(** A key of an optional field that is present overrides, an absent one keeps
    the value. *)
Definition over {A} (data : option A) (d : option A) : option A :=
  match data with Some v => Some v | None => d end.

(** [{ ...doc, ...data }] *)
Definition merge (doc : Document) (data : PartialDocument) : Document :=
  {| id := spread (p_id data) (id doc);
     documentNumber := spread (p_documentNumber data) (documentNumber doc);
     customerName := spread (p_customerName data) (customerName doc);
     customerPhone := spread (p_customerPhone data) (customerPhone doc);
     customerEmail := over (p_customerEmail data) (customerEmail doc);
     builderName := spread (p_builderName data) (builderName doc);
     propertyDetails := spread (p_propertyDetails data) (propertyDetails doc);
     documentType := over (p_documentType data) (documentType doc);
     status := spread (p_status data) (status doc);
     collectionDate := over (p_collectionDate data) (collectionDate doc);
     dataEntryDate := over (p_dataEntryDate data) (dataEntryDate doc);
     registrationDate := over (p_registrationDate data) (registrationDate doc);
     deliveryDate := over (p_deliveryDate data) (deliveryDate doc);
     assignedTo := over (p_assignedTo data) (assignedTo doc);
     notes := spread (p_notes data) (notes doc);
     files := spread (p_files data) (files doc);
     createdAt := spread (p_createdAt data) (createdAt doc);
     updatedAt := spread (p_updatedAt data) (updatedAt doc) |}.

(** A row of the [documents] table. *)
Record DocumentRow : Type := {
  row_id : Z;
  row_document_number : string;
  row_customer_name : string;
  row_customer_phone : string;
  row_customer_email : option string;
  row_builder_name : string;
  row_property_details : string;
  row_document_type : DocumentType;
  row_status : DocumentStatus;
  row_collection_date : option Date;
  row_data_entry_date : option Date;
  row_registration_date : option Date;
  row_delivery_date : option Date;
  row_assigned_to : option string;
  row_created_at : Date;
  row_updated_at : Date
}.

Definition rowToDocument (row : DocumentRow) : Document :=
  {| id := intToString (row_id row);
     documentNumber := row_document_number row;
     customerName := row_customer_name row;
     customerPhone := row_customer_phone row;
     customerEmail := row_customer_email row;
     builderName := row_builder_name row;
     propertyDetails := row_property_details row;
     documentType := Some (row_document_type row);
     status := row_status row;
     collectionDate := row_collection_date row;
     dataEntryDate := row_data_entry_date row;
     registrationDate := row_registration_date row;
     deliveryDate := row_delivery_date row;
     assignedTo := row_assigned_to row;
     notes := [];
     files := [];
     createdAt := row_created_at row;
     updatedAt := row_updated_at row |}.

(** The arguments of [databaseService.createDocument]. *)
Record DocumentInsert : Type := {
  i_documentNumber : string;
  i_customerName : string;
  i_customerPhone : string;
  i_customerEmail : option string;
  i_builderName : string;
  i_propertyDetails : string;
  i_documentType : option DocumentType;
  i_status : DocumentStatus;
  i_assignedTo : option string
}.

(** The answers of the gateway to the calls of this store. *)
Record Remote : Type := {
  db_getDocuments : QueryResult DocumentRow;
  db_createDocument : DocumentInsert -> QueryResult DocumentRow;
  db_updateDocument : string -> PartialDocument -> QueryResult DocumentRow
}.

(** The three React states the document provider reads and writes. *)
Record Store : Type := mkStore {
  documents : list Document;
  customers : list Customers.Customer;
  builders : list Builders.Builder
}.

Definition emptyStore : Store :=
  {| documents := []; customers := []; builders := [] |}.

Definition onDocuments {A} : Action (list Document) A -> Action Store A :=
  zoom documents
    (fun ds s => {| documents := ds; customers := customers s;
                    builders := builders s |}).

Definition onCustomers {A} : Action (list Customers.Customer) A -> Action Store A :=
  zoom customers
    (fun cs s => {| documents := documents s; customers := cs;
                    builders := builders s |}).

Definition onBuilders {A} : Action (list Builders.Builder) A -> Action Store A :=
  zoom builders
    (fun bs s => {| documents := documents s; customers := customers s;
                    builders := bs |}).

Section DocumentProvider.

(** The state captured by the closures of one render of the three
    providers, the connection flag, the gateway and the clock. *)
Variable view : Store.
Variable isConnected : bool.
Variable db : Remote.
Variable dbCustomers : Customers.Remote.
Variable dbBuilders : Builders.Remote.
Variable now : Date.

Definition loadDocumentsFromDatabase : Action (list Document) unit :=
  if negb isConnected then ret tt
  else
    let result := db_getDocuments db in
    match success result, data result with
    | true, Some rows => setState (fun _ => map rowToDocument rows)
    | _, _ => ret tt
    end.

Definition generateDocumentNumber (type : DocumentType) : string :=
  let prefix := replace "_" "" (toUpperCase (typeLiteral type)) in
  let year := getFullYear now in
  let count :=
    (List.length
       (filter (fun d => sameType (documentType d) (Some type)) (documents view))
     + 1)%nat in
  prefix ++ "/" ++ intToString year ++ "/" ++ padStart 3 "0" (natToString count).

(** [data.documentNumber || generateDocumentNumber(data.documentType!)]: with
    no number and no type, [undefined.toUpperCase()] throws a [TypeError]. *)
Definition numberFor {S} (data : PartialDocument) : Action S string :=
  match p_documentNumber data with
  | Some (String c r) => ret (String c r)
  | _ =>
      match p_documentType data with
      | Some type => ret (generateDocumentNumber type)
      | None =>
          throw (ErrorObject
                   "Cannot read properties of undefined (reading 'toUpperCase')")
      end
  end.

Definition createCustomer := Customers.createCustomer (customers view) isConnected dbCustomers now.
Definition getCustomerByPhone := Customers.getCustomerByPhone (customers view).
Definition addDocumentToCustomer :=
  Customers.addDocumentToCustomer (customers view) isConnected dbCustomers.
Definition createBuilder := Builders.createBuilder (builders view) isConnected dbBuilders now.
Definition getBuilderByName := Builders.getBuilderByName (builders view).
Definition addDocumentToBuilder :=
  Builders.addDocumentToBuilder (builders view) isConnected dbBuilders.

Definition createDocument (data : PartialDocument)
  : Action Store (option Document) :=
  if isConnected then
    documentNumber <- numberFor data ;;
    let result :=
      db_createDocument db
        {| i_documentNumber := documentNumber;
           i_customerName := orString (p_customerName data) "";
           i_customerPhone := orString (p_customerPhone data) "";
           i_customerEmail := p_customerEmail data;
           i_builderName := orString (p_builderName data) "";
           i_propertyDetails := orString (p_propertyDetails data) "";
           i_documentType := p_documentType data;
           i_status := pending_collection;
           i_assignedTo := p_assignedTo data |} in
    if success result then
      (if truthyString (orString (p_customerName data) "")
          && truthyString (orString (p_customerPhone data) "")
       then
         match getCustomerByPhone (orString (p_customerPhone data) "") with
         | None =>
             onCustomers
               (createCustomer
                  {| Customers.p_id := None;
                     Customers.p_name := p_customerName data;
                     Customers.p_phone := p_customerPhone data;
                     Customers.p_email := p_customerEmail data;
                     Customers.p_address :=
                       Some (orString (p_propertyDetails data) "");
                     Customers.p_documents := None;
                     Customers.p_createdAt := None |}) ;;;
             ret tt
         | Some _ => ret tt
         end
       else ret tt) ;;;
      (if truthyString (orString (p_builderName data) "") then
         match getBuilderByName (orString (p_builderName data) "") with
         | None =>
             onBuilders
               (createBuilder
                  {| Builders.p_id := None;
                     Builders.p_name := p_builderName data;
                     Builders.p_contactPerson := Some "Contact Person";
                     Builders.p_phone := Some "+91 0000000000";
                     Builders.p_email := None;
                     Builders.p_address := Some "Address not provided";
                     Builders.p_registrationNumber := None;
                     Builders.p_documents := None;
                     Builders.p_createdAt := None |}) ;;;
             ret tt
         | Some _ => ret tt
         end
       else ret tt) ;;;
      onDocuments loadDocumentsFromDatabase ;;;
      ret (lastElement (documents view))
    else throw (ErrorObject (orString (error result) "Failed to create document"))
  else
    documentNumber <- numberFor data ;;
    let newDocument :=
      {| id := spread (p_id data) ("DOC" ++ intToString (getTime now));
         documentNumber := spread (p_documentNumber data) documentNumber;
         customerName :=
           spread (p_customerName data) (orString (p_customerName data) "");
         customerPhone :=
           spread (p_customerPhone data) (orString (p_customerPhone data) "");
         customerEmail := p_customerEmail data;
         builderName :=
           spread (p_builderName data) (orString (p_builderName data) "");
         propertyDetails :=
           spread (p_propertyDetails data) (orString (p_propertyDetails data) "");
         documentType := p_documentType data;
         status := spread (p_status data) pending_collection;
         collectionDate := p_collectionDate data;
         dataEntryDate := p_dataEntryDate data;
         registrationDate := p_registrationDate data;
         deliveryDate := p_deliveryDate data;
         assignedTo := p_assignedTo data;
         notes := spread (p_notes data) [];
         files := spread (p_files data) [];
         createdAt := spread (p_createdAt data) now;
         updatedAt := spread (p_updatedAt data) now |} in
    (if truthyString (customerName newDocument)
        && truthyString (customerPhone newDocument)
     then
       match getCustomerByPhone (customerPhone newDocument) with
       | None =>
           onCustomers
             (createCustomer
                {| Customers.p_id := None;
                   Customers.p_name := Some (customerName newDocument);
                   Customers.p_phone := Some (customerPhone newDocument);
                   Customers.p_email := customerEmail newDocument;
                   Customers.p_address := Some (propertyDetails newDocument);
                   Customers.p_documents := Some [id newDocument];
                   Customers.p_createdAt := None |}) ;;;
           ret tt
       | Some customer =>
           onCustomers
             (addDocumentToCustomer (Customers.id customer) (id newDocument))
       end
     else ret tt) ;;;
    (if truthyString (builderName newDocument) then
       match getBuilderByName (builderName newDocument) with
       | None =>
           onBuilders
             (createBuilder
                {| Builders.p_id := None;
                   Builders.p_name := Some (builderName newDocument);
                   Builders.p_contactPerson := Some "Contact Person";
                   Builders.p_phone := Some "+91 0000000000";
                   Builders.p_email := None;
                   Builders.p_address := Some "Address not provided";
                   Builders.p_registrationNumber := None;
                   Builders.p_documents := Some [id newDocument];
                   Builders.p_createdAt := None |}) ;;;
           ret tt
       | Some builder =>
           onBuilders
             (addDocumentToBuilder (Builders.id builder) (id newDocument))
       end
     else ret tt) ;;;
    onDocuments (setState (fun prev => (prev ++ [newDocument])%list)) ;;;
    ret (Some newDocument).

Definition updateDocument (id_ : string) (data : PartialDocument)
  : Action (list Document) (option Document) :=
  if isConnected then
    let result := db_updateDocument db id_ data in
    if success result then
      loadDocumentsFromDatabase ;;;
      ret (find (fun d => id d =? id_) (documents view))
    else throw (ErrorObject (orString (error result) "Failed to update document"))
  else
    let updatedDocument :=
      {| p_id := p_id data;
         p_documentNumber := p_documentNumber data;
         p_customerName := p_customerName data;
         p_customerPhone := p_customerPhone data;
         p_customerEmail := p_customerEmail data;
         p_builderName := p_builderName data;
         p_propertyDetails := p_propertyDetails data;
         p_documentType := p_documentType data;
         p_status := p_status data;
         p_collectionDate := p_collectionDate data;
         p_dataEntryDate := p_dataEntryDate data;
         p_registrationDate := p_registrationDate data;
         p_deliveryDate := p_deliveryDate data;
         p_assignedTo := p_assignedTo data;
         p_notes := p_notes data;
         p_files := p_files data;
         p_createdAt := p_createdAt data;
         p_updatedAt := Some now |} in
    setState
      (fun prev =>
         map (fun doc => if id doc =? id_ then merge doc updatedDocument else doc)
           prev) ;;;
    ret (find (fun d => id d =? id_) (documents view)).

Definition deleteDocument (id_ : string) : Action (list Document) unit :=
  setState (fun prev => filter (fun doc => negb (id doc =? id_)) prev).

Definition getDocument (id_ : string) : option Document :=
  find (fun doc => id doc =? id_) (documents view).

Definition updateStatus (id_ : string) (status_ : DocumentStatus)
  : Action (list Document) unit :=
  updateDocument id_
    {| p_id := None; p_documentNumber := None; p_customerName := None;
       p_customerPhone := None; p_customerEmail := None; p_builderName := None;
       p_propertyDetails := None; p_documentType := None;
       p_status := Some status_;
       p_collectionDate := None; p_dataEntryDate := None;
       p_registrationDate := None; p_deliveryDate := None;
       p_assignedTo := None; p_notes := None; p_files := None;
       p_createdAt := None; p_updatedAt := None |} ;;;
  ret tt.

End DocumentProvider.

End Documents.

(* ===================================================================== *)
(** * Attendance store: [useAttendance]                                   *)
(* ===================================================================== *)

Module Attendance.

Import Js.
Import DatabaseService.
Local Open Scope string_scope.
Local Open Scope action_scope.
Local Open Scope num_scope.

(** The literals of [AttendanceStatus] the store handles. *)
Inductive AttendanceStatus : Type :=
| present | absent | late | half_day | on_leave.

(** A call of a method the imported [databaseService] does not have: class
    [DatabaseService] defines neither [clockIn] nor [clockOut], so the call
    of the [undefined] property throws a TypeError. *)
Definition notAFunction {S A} (callee : string) : Action S A :=
  throw (ErrorObject (callee ++ " is not a function")).

Section Numbers.

(** The type of JS numbers. *)
Context {num : Type}.

Record AttendanceRecord : Type := {
  id : string;
  userId : string;
  userName : string;
  userRole : string;
  date : Date;
  clockInTime : option Date;
  clockOutTime : option Date;
  breakTime : option num;
  totalHours : option num;
  overtime : option num;
  status : AttendanceStatus;
  location : option string;
  notes : option string;
  createdAt : Date;
  updatedAt : Date
}.

Record AttendanceSettings : Type := {
  workingHoursPerDay : num;
  workingDaysPerWeek : num;
  lateThresholdMinutes : num;
  halfDayThresholdHours : num;
  overtimeThresholdHours : num;
  allowEarlyClockIn : bool;
  allowLateClockOut : bool;
  requireLocationTracking : bool;
  autoClockOutTime : string
}.

Context {arith : Number num}.

Definition defaultAttendanceSettings : AttendanceSettings :=
  {| workingHoursPerDay := ofInteger 8;
     workingDaysPerWeek := ofInteger 6;
     lateThresholdMinutes := ofInteger 15;
     halfDayThresholdHours := ofInteger 4;
     overtimeThresholdHours := ofInteger 8;
     allowEarlyClockIn := true;
     allowLateClockOut := true;
     requireLocationTracking := false;
     autoClockOutTime := "20:00" |}.

(** [notes || existingRecord.notes] *)
Definition orNotes (notes_ existing : option string) : option string :=
  match notes_ with
  | Some (String c r) => Some (String c r)
  | _ => existing
  end.

(** The instant of [d.setHours(9, 0, 0, 0)] for a [d] at local midnight. *)
Definition nineOClock (d : Date) : Z := (dayStart d + 9 * 3600000)%Z.

Section AttendanceProvider.

(** The values captured by the closures of one render. *)
Variable user : option Auth.User.
Variable isConnected : bool.
Variable attendanceRecords : list AttendanceRecord.
Variable attendanceSettings : AttendanceSettings.
(** The clock: what [new Date()] gives during the call. *)
Variable now : Date.

Definition generateAttendanceId : string :=
  let count := (List.length attendanceRecords + 1)%nat in
  "ATT" ++ padStart 3 "0" (natToString count).

Definition clockIn (location_ notes_ : option string)
  : Action (list AttendanceRecord) AttendanceRecord :=
  match user with
  | None => throw (ErrorObject "User not authenticated")
  | Some user =>
      if isConnected then
        result <- notAFunction (A := QueryResult unit)
                    "databaseService.clockIn" ;;
        if success result then
          let today := startOfDay now in
          let newRecord :=
            {| id := generateAttendanceId;
               userId := Auth.id user;
               userName := Auth.name user;
               userRole := Auth.role user;
               date := today;
               clockInTime := Some now;
               clockOutTime := None;
               breakTime := None;
               totalHours := None;
               overtime := None;
               status := present;
               location := location_;
               notes := notes_;
               createdAt := now;
               updatedAt := now |} in
          setState (fun prev => (prev ++ [newRecord])%list) ;;;
          ret newRecord
        else throw (ErrorObject (orString (error result) "Failed to clock in"))
      else
        let today := startOfDay now in
        let existingRecord :=
          find (fun record =>
                  (userId record =? Auth.id user)
                  && sameDateString (toDateString (date record))
                       (toDateString today))
            attendanceRecords in
        match existingRecord with
        | Some {| clockInTime := Some _ |} =>
            throw (ErrorObject "Already clocked in today")
        | _ =>
            let expectedStartTime := nineOClock today in
            let isLate :=
              match timeClip (ofInteger expectedStartTime
                              + lateThresholdMinutes attendanceSettings
                                * ofInteger 60000) with
              | Some threshold => (threshold <? getTime now)%Z
              | None => false
              end in
            let newRecord :=
              {| id := generateAttendanceId;
                 userId := Auth.id user;
                 userName := Auth.name user;
                 userRole := Auth.role user;
                 date := today;
                 clockInTime := Some now;
                 clockOutTime := None;
                 breakTime := None;
                 totalHours := None;
                 overtime := None;
                 status := if isLate then late else present;
                 location := location_;
                 notes := notes_;
                 createdAt := now;
                 updatedAt := now |} in
            setState (fun prev => (prev ++ [newRecord])%list) ;;;
            ret newRecord
        end
  end.

(** The record [clockOut] closes: the first one of the user for today that
    has a clock-in and no clock-out. *)
Definition activeRecord (user : Auth.User) : option AttendanceRecord :=
  let today := startOfDay now in
  find (fun record =>
          (userId record =? Auth.id user)
          && sameDateString (toDateString (date record)) (toDateString today)
          && match clockInTime record with Some _ => true | None => false end
          && match clockOutTime record with Some _ => false | None => true end)
    attendanceRecords.

(** The update both branches of [clockOut] apply to the record found;
    [clockedIn] is [existingRecord.clockInTime!]. *)
Definition closeRecord (existingRecord : AttendanceRecord) (clockedIn : Date)
  (notes_ : option string) : AttendanceRecord :=
  let totalMinutes :=
    ofInteger (getTime now - getTime clockedIn) / ofInteger (1000 * 60) in
  let totalHours :=
    Math_round ((totalMinutes / ofInteger 60) * ofInteger 100)
    / ofInteger 100 in
  let breakTime_ := orNumber (breakTime existingRecord) (ofInteger 60) in
  let workingHours := totalHours - (breakTime_ / ofInteger 60) in
  let overtime_ :=
    Math_max (ofInteger 0)
      (workingHours - workingHoursPerDay attendanceSettings) in
  {| id := id existingRecord;
     userId := userId existingRecord;
     userName := userName existingRecord;
     userRole := userRole existingRecord;
     date := date existingRecord;
     clockInTime := clockInTime existingRecord;
     clockOutTime := Some now;
     breakTime := breakTime existingRecord;
     totalHours := Some workingHours;
     overtime := Some overtime_;
     status := status existingRecord;
     location := location existingRecord;
     notes := orNotes notes_ (notes existingRecord);
     createdAt := createdAt existingRecord;
     updatedAt := now |}.

Definition replaceById (target : string) (updatedRecord : AttendanceRecord)
  (prev : list AttendanceRecord) : list AttendanceRecord :=
  map (fun record => if id record =? target then updatedRecord else record) prev.

Definition clockOut (notes_ : option string)
  : Action (list AttendanceRecord) AttendanceRecord :=
  match user with
  | None => throw (ErrorObject "User not authenticated")
  | Some user =>
      if isConnected then
        result <- notAFunction (A := QueryResult unit)
                    "databaseService.clockOut" ;;
        if success result then
          match activeRecord user with
          | Some existingRecord =>
              match clockInTime existingRecord with
              | Some clockedIn =>
                  let updatedRecord := closeRecord existingRecord clockedIn notes_ in
                  setState (replaceById (id existingRecord) updatedRecord) ;;;
                  ret updatedRecord
              | None =>
                  throw (ErrorObject
                           "Cannot read properties of undefined (reading 'getTime')")
              end
          | None => throw (ErrorObject "No active clock-in found for today")
          end
        else throw (ErrorObject (orString (error result) "Failed to clock out"))
      else
        match activeRecord user with
        | None => throw (ErrorObject "No active clock-in found for today")
        | Some existingRecord =>
            match clockInTime existingRecord with
            | Some clockedIn =>
                let updatedRecord := closeRecord existingRecord clockedIn notes_ in
                setState (replaceById (id existingRecord) updatedRecord) ;;;
                ret updatedRecord
            | None =>
                throw (ErrorObject
                         "Cannot read properties of undefined (reading 'getTime')")
            end
        end
  end.

Definition markAttendance (userId_ : string) (date_ : Date)
  (status_ : AttendanceStatus) (notes_ : option string)
  : Action (list AttendanceRecord) AttendanceRecord :=
  let targetDate := startOfDay date_ in
  let existingRecord :=
    find (fun record =>
            (userId record =? userId_)
            && sameDateString (toDateString (date record))
                 (toDateString targetDate))
      attendanceRecords in
  match existingRecord with
  | Some existingRecord =>
      let updatedRecord :=
        {| id := id existingRecord;
           userId := userId existingRecord;
           userName := userName existingRecord;
           userRole := userRole existingRecord;
           date := date existingRecord;
           clockInTime := clockInTime existingRecord;
           clockOutTime := clockOutTime existingRecord;
           breakTime := breakTime existingRecord;
           totalHours := totalHours existingRecord;
           overtime := overtime existingRecord;
           status := status_;
           location := location existingRecord;
           notes := notes_;
           createdAt := createdAt existingRecord;
           updatedAt := now |} in
      setState (replaceById (id existingRecord) updatedRecord) ;;;
      ret updatedRecord
  | None =>
      let newRecord :=
        {| id := generateAttendanceId;
           userId := userId_;
           userName := "User Name";
           userRole := "staff";
           date := targetDate;
           clockInTime := None;
           clockOutTime := None;
           breakTime := None;
           totalHours := None;
           overtime := None;
           status := status_;
           location := None;
           notes := notes_;
           createdAt := now;
           updatedAt := now |} in
      setState (fun prev => (prev ++ [newRecord])%list) ;;;
      ret newRecord
  end.

End AttendanceProvider.

End Numbers.

Arguments AttendanceRecord : clear implicits.
Arguments AttendanceSettings : clear implicits.

End Attendance.

(* ===================================================================== *)
(** * Statements of the specification and example data                    *)
(* ===================================================================== *)

Module Spec.

Import Js.
Local Open Scope string_scope.

(** ** The gateway *)

(** The request [query] sends. *)
Definition queryRequest (cfg : DatabaseService.DatabaseConfig) (sql : string)
  (params : list DatabaseService.Param) : DatabaseService.Request :=
  {| DatabaseService.url := "/api/db-query.php";
     DatabaseService.method := "POST";
     DatabaseService.body_config := cfg;
     DatabaseService.body_sql := sql;
     DatabaseService.body_params := params |}.

(** The gateway itself detects a failure: the service is not connected or
    has no configuration, [fetch] rejects, the response is not OK, or the
    body of the response cannot be read. *)
Definition gatewayFailure {R} (this : DatabaseService.Service)
  (net : DatabaseService.Network R) (sql : string)
  (params : list DatabaseService.Param) : Prop :=
  match DatabaseService.isConnected this, DatabaseService.config this with
  | true, Some cfg =>
      match net (queryRequest cfg sql params) with
      | Threw _ => True
      | Returned response =>
          if DatabaseService.ok response
          then match DatabaseService.json response with
               | Threw _ => True
               | Returned _ => False
               end
          else True
      end
  | _, _ => True
  end.

(** The server answered with an OK response whose JSON body is [payload]. *)
Definition serverAnswer {R} (this : DatabaseService.Service)
  (net : DatabaseService.Network R) (sql : string)
  (params : list DatabaseService.Param)
  (payload : DatabaseService.QueryResult R) : Prop :=
  exists cfg response,
    DatabaseService.isConnected this = true
    /\ DatabaseService.config this = Some cfg
    /\ net (queryRequest cfg sql params) = Returned response
    /\ DatabaseService.ok response = true
    /\ DatabaseService.json response = Returned payload.

(** A report of failure: [success] is false and there is an error message. *)
Definition failureReport {R} (result : DatabaseService.QueryResult R) : Prop :=
  DatabaseService.success result = false
  /\ exists message, DatabaseService.error result = Some message.

(** ** Document numbers *)

(** The prefix of each document type. *)
Definition typePrefix (type : Documents.DocumentType) : string :=
  match type with
  | Documents.agreement => "AGREEMENT"
  | Documents.lease_deed => "LEASEDEED"
  | Documents.sale_deed => "SALEDEED"
  | Documents.mutation => "MUTATION"
  | Documents.partition_deed => "PARTITIONDEED"
  | Documents.gift_deed => "GIFTDEED"
  end.

(** A sequence number in decimal, padded with zeros to three digits. *)
Definition pad3 (n : nat) : string :=
  if (n <? 10)%nat then "00" ++ natToString n
  else if (n <? 100)%nat then "0" ++ natToString n
  else natToString n.

(** "{T_PREFIX}/{Y}/{n+1}" *)
Definition numberAfter (type : Documents.DocumentType) (year : Z) (n : nat)
  : string :=
  typePrefix type ++ "/" ++ intToString year ++ "/" ++ pad3 (n + 1).

Definition ofType (type : Documents.DocumentType) (d : Documents.Document)
  : bool :=
  Documents.sameType (Documents.documentType d) (Some type).

(** The documents of a type in the store. *)
Definition countOfType (type : Documents.DocumentType)
  (docs : list Documents.Document) : nat :=
  List.length (filter (ofType type) docs).

(** The documents of a type in the store that were created in a year. *)
Definition countOfTypeInYear (type : Documents.DocumentType) (year : Z)
  (docs : list Documents.Document) : nat :=
  List.length
    (filter (fun d => ofType type d
                      && (getFullYear (Documents.createdAt d) =? year)%Z)
       docs).

(** ** The linker *)

(** One call of [createDocument] in local mode, made after a render. *)
Definition createLocal (db : Documents.Remote) (dbCustomers : Customers.Remote)
  (dbBuilders : Builders.Remote) (now : Date) (data : Documents.PartialDocument)
  (s : Documents.Store) : Outcome (option Documents.Document) * Documents.Store :=
  run (fun view =>
         Documents.createDocument view false db dbCustomers dbBuilders now data)
    s.

(** The ID [createDocument] gives the new document. *)
Definition newDocumentId (now : Date) (data : Documents.PartialDocument)
  : string :=
  spread (Documents.p_id data) ("DOC" ++ intToString (getTime now)).

(** [customer] with [documentId] appended to its list of documents. *)
Definition withDocument (customer : Customers.Customer) (documentId : string)
  : Customers.Customer :=
  {| Customers.id := Customers.id customer;
     Customers.name := Customers.name customer;
     Customers.phone := Customers.phone customer;
     Customers.email := Customers.email customer;
     Customers.address := Customers.address customer;
     Customers.documents := (Customers.documents customer ++ [documentId])%list;
     Customers.createdAt := Customers.createdAt customer |}.

Definition builderWithDocument (builder : Builders.Builder)
  (documentId : string) : Builders.Builder :=
  {| Builders.id := Builders.id builder;
     Builders.name := Builders.name builder;
     Builders.contactPerson := Builders.contactPerson builder;
     Builders.phone := Builders.phone builder;
     Builders.email := Builders.email builder;
     Builders.address := Builders.address builder;
     Builders.registrationNumber := Builders.registrationNumber builder;
     Builders.documents := (Builders.documents builder ++ [documentId])%list;
     Builders.createdAt := Builders.createdAt builder |}.

(** Two documents with customer phone [phone] are created one after the
    other, at [now1] and [now2]: the second call creates no Customer, the two
    calls create at most one, and the second call appends the ID of its
    document to the list of the customer the store holds for that phone. *)
Definition linkedOnce (db : Documents.Remote) (dbCustomers : Customers.Remote)
  (dbBuilders : Builders.Remote) (s : Documents.Store) (phone : string)
  (now1 : Date) (data1 : Documents.PartialDocument)
  (now2 : Date) (data2 : Documents.PartialDocument) : Prop :=
  let s1 := snd (createLocal db dbCustomers dbBuilders now1 data1 s) in
  let s2 := snd (createLocal db dbCustomers dbBuilders now2 data2 s1) in
  List.length (Documents.customers s2) = List.length (Documents.customers s1)
  /\ (List.length (Documents.customers s1)
      <= List.length (Documents.customers s) + 1)%nat
  /\ exists customer,
       Customers.getCustomerByPhone (Documents.customers s1) phone
       = Some customer
       /\ Customers.getCustomerByPhone (Documents.customers s2) phone
          = Some (withDocument customer (newDocumentId now2 data2)).

(** The data of a document names a customer and a type. *)
Definition namesCustomer (data : Documents.PartialDocument) (phone : string)
  : Prop :=
  Documents.p_customerPhone data = Some phone
  /\ truthyString (orString (Documents.p_customerName data) "") = true
  /\ Documents.p_documentType data <> None.

(** No list of documents holds an ID twice. *)
Definition customersLinkedOnce (cs : list Customers.Customer) : Prop :=
  Forall (fun c => NoDup (Customers.documents c)) cs.

Definition buildersLinkedOnce (bs : list Builders.Builder) : Prop :=
  Forall (fun b => NoDup (Builders.documents b)) bs.

(** ** Document status *)

(** [doc] with its status set at [now]. *)
Definition withStatus (doc : Documents.Document)
  (status_ : Documents.DocumentStatus) (now : Date) : Documents.Document :=
  {| Documents.id := Documents.id doc;
     Documents.documentNumber := Documents.documentNumber doc;
     Documents.customerName := Documents.customerName doc;
     Documents.customerPhone := Documents.customerPhone doc;
     Documents.customerEmail := Documents.customerEmail doc;
     Documents.builderName := Documents.builderName doc;
     Documents.propertyDetails := Documents.propertyDetails doc;
     Documents.documentType := Documents.documentType doc;
     Documents.status := status_;
     Documents.collectionDate := Documents.collectionDate doc;
     Documents.dataEntryDate := Documents.dataEntryDate doc;
     Documents.registrationDate := Documents.registrationDate doc;
     Documents.deliveryDate := Documents.deliveryDate doc;
     Documents.assignedTo := Documents.assignedTo doc;
     Documents.notes := Documents.notes doc;
     Documents.files := Documents.files doc;
     Documents.createdAt := Documents.createdAt doc;
     Documents.updatedAt := now |}.

(** The update [{ status }] that [updateStatus] hands to [updateDocument]. *)
Definition statusOnly (status_ : Documents.DocumentStatus)
  : Documents.PartialDocument :=
  {| Documents.p_id := None; Documents.p_documentNumber := None;
     Documents.p_customerName := None; Documents.p_customerPhone := None;
     Documents.p_customerEmail := None; Documents.p_builderName := None;
     Documents.p_propertyDetails := None; Documents.p_documentType := None;
     Documents.p_status := Some status_;
     Documents.p_collectionDate := None; Documents.p_dataEntryDate := None;
     Documents.p_registrationDate := None; Documents.p_deliveryDate := None;
     Documents.p_assignedTo := None; Documents.p_notes := None;
     Documents.p_files := None; Documents.p_createdAt := None;
     Documents.p_updatedAt := None |}.


(** C9 as it is written, for the outcome of one call: the call succeeded, and
    the document with the ID now carries the status. *)
Definition transitionDone (outcome : Outcome unit * list Documents.Document)
  (id_ : string) (status_ : Documents.DocumentStatus) : Prop :=
  fst outcome = Returned tt
  /\ exists d,
       Documents.getDocument
         {| Documents.documents := snd outcome; Documents.customers := [];
            Documents.builders := [] |} id_ = Some d
       /\ Documents.status d = status_.

(** One call of [updateStatus] in local mode, made after a render. *)
Definition updateStatusLocal (db : Documents.Remote) (now : Date)
  (id_ : string) (status_ : Documents.DocumentStatus)
  (docs : list Documents.Document) : Outcome unit * list Documents.Document :=
  run (fun view =>
         Documents.updateStatus
           {| Documents.documents := view; Documents.customers := [];
              Documents.builders := [] |}
           false db now id_ status_)
    docs.

(** One call of [addDocumentToCustomer] and of [addDocumentToBuilder], made
    after a render. *)
Definition linkCustomer (isConnected : bool) (db : Customers.Remote)
  (customerId documentId : string) (cs : list Customers.Customer)
  : Outcome unit * list Customers.Customer :=
  run (fun view =>
         Customers.addDocumentToCustomer view isConnected db customerId
           documentId)
    cs.

Definition linkBuilder (isConnected : bool) (db : Builders.Remote)
  (builderId documentId : string) (bs : list Builders.Builder)
  : Outcome unit * list Builders.Builder :=
  run (fun view =>
         Builders.addDocumentToBuilder view isConnected db builderId documentId)
    bs.

(** When the ID is not in the list of the customer, the call appends it. *)
Definition appendsOnce (isConnected : bool) (db : Customers.Remote)
  (customerId documentId : string) (cs : list Customers.Customer)
  (customer : Customers.Customer) : Prop :=
  ~ In documentId (Customers.documents customer) ->
  Customers.getCustomer
    (snd (linkCustomer isConnected db customerId documentId cs)) customerId
  = Some (withDocument customer documentId).


(** ** Payroll *)

(** The sum of real numbers. *)
Definition realSum (amounts : list Q) : Q := fold_right Qplus 0%Q amounts.

(** The amounts of C1 are non-negative. *)
Definition nonNegative (config : Salary.StaffSalaryConfig PrimFloat.float)
  (h b : PrimFloat.float) : bool :=
  let positive x := PrimFloat.leb (Js.ofInteger 0) x in
  positive (Salary.baseSalary config)
  && forallb (fun a => positive (Salary.allowance_amount a))
       (Salary.allowances config)
  && forallb (fun d => positive (Salary.deduction_amount d))
       (Salary.deductions config)
  && positive (Salary.overtimeRate config) && positive h && positive b.

(** C1 as it is written, for the doubles of the program: the amounts taken
    as the real numbers they stand for, gross is their sum base + sum(A) +
    h*r + b and net is gross - sum(D). *)
Definition exactGrossNet (config : Salary.StaffSalaryConfig PrimFloat.float)
  (h b : PrimFloat.float) (result : Salary.GrossNet PrimFloat.float) : Prop :=
  (Double.real (Salary.gross result)
   == Double.real (Salary.baseSalary config)
      + realSum (map (fun a => Double.real (Salary.allowance_amount a))
                   (Salary.allowances config))
      + Double.real h * Double.real (Salary.overtimeRate config)
      + Double.real b)%Q
  /\ (Double.real (Salary.net result)
      == Double.real (Salary.gross result)
         - realSum (map (fun d => Double.real (Salary.deduction_amount d))
                      (Salary.deductions config)))%Q.

(** ** Attendance *)

Section AttendanceStatements.

Context {num : Type} {arith : Number num}.

Local Open Scope num_scope.

(** The pair an attendance record is about: the user and the calendar day. *)
Definition userDay (record : Attendance.AttendanceRecord num)
  : string * (Z * Z * Z) :=
  (Attendance.userId record, toDateString (Attendance.date record)).

(** At most one record for every user and calendar day. *)
Definition uniquePerUserDay (records : list (Attendance.AttendanceRecord num))
  : Prop :=
  NoDup (map userDay records).

(** One call of each operation, made after a render; in local mode when the
    name says so. *)
Definition clockInLocal (user : Auth.User)
  (settings : Attendance.AttendanceSettings num)
  (now : Date) (location_ notes_ : option string)
  (records : list (Attendance.AttendanceRecord num))
  : Outcome (Attendance.AttendanceRecord num)
    * list (Attendance.AttendanceRecord num) :=
  run (fun view =>
         Attendance.clockIn (Some user) false view settings now
           location_ notes_)
    records.

Definition clockOutCall (isConnected : bool) (user : Auth.User)
  (settings : Attendance.AttendanceSettings num)
  (now : Date) (notes_ : option string)
  (records : list (Attendance.AttendanceRecord num))
  : Outcome (Attendance.AttendanceRecord num)
    * list (Attendance.AttendanceRecord num) :=
  run (fun view =>
         Attendance.clockOut (Some user) isConnected view settings now
           notes_)
    records.

Definition clockOutLocal := clockOutCall false.

Definition markLocal (now : Date) (userId_ : string) (date_ : Date)
  (status_ : Attendance.AttendanceStatus) (notes_ : option string)
  (records : list (Attendance.AttendanceRecord num))
  : Outcome (Attendance.AttendanceRecord num)
    * list (Attendance.AttendanceRecord num) :=
  run (fun view =>
         Attendance.markAttendance view now userId_ date_ status_ notes_)
    records.

(** The hours between two instants given in milliseconds, as a JS number:
    the milliseconds are turned into minutes, the minutes into hours. *)
Definition elapsedHours (t0 t1 : Z) : num :=
  ofInteger (t1 - t0) / ofInteger 60000 / ofInteger 60.

(** A JS number rounded to hundredths: [Math.round(x * 100) / 100]. *)
Definition toHundredths (x : num) : num :=
  Math_round (x * ofInteger 100) / ofInteger 100.

(** totalHours = the elapsed hours rounded to hundredths, less the break in
    hours; every operation is that of the JS numbers. *)
Definition roundedHours (t0 t1 : Z) (br total : num) : Prop :=
  total = toHundredths (elapsedHours t0 t1) - br / ofInteger 60.

(** The break [clockOut] counts for a record: its break time when that is a
    truthy number (not 0, not NaN), 60 minutes when the record has none. *)
Definition countedBreak (record : Attendance.AttendanceRecord num) (br : num)
  : Prop :=
  (Attendance.breakTime record = Some br /\ truthyNumber br = true)
  \/ (Attendance.breakTime record = None /\ br = ofInteger 60).

(** [clockOut] at [now], in local mode, closes [record], clocked in at
    [clockedIn]: it returns the record with a totalHours that [hours] relates
    to the two instants and the break, and with
    overtime = max(0, totalHours - workingHoursPerDay), and puts it in the
    store in place of [record]. *)
Definition clockOutSets (hours : Z -> Z -> num -> num -> Prop)
  (user : Auth.User) (settings : Attendance.AttendanceSettings num)
  (now : Date) (notes_ : option string)
  (records : list (Attendance.AttendanceRecord num))
  (record : Attendance.AttendanceRecord num) (clockedIn : Date) (br : num)
  : Prop :=
  exists closed total over,
    clockOutLocal user settings now notes_ records
    = (Returned closed,
       Attendance.replaceById (Attendance.id record) closed records)
    /\ Attendance.clockOutTime closed = Some now
    /\ Attendance.totalHours closed = Some total
    /\ hours (getTime clockedIn) (getTime now) br total
    /\ Attendance.overtime closed = Some over
    /\ over
       = Math_max (ofInteger 0)
           (total - Attendance.workingHoursPerDay settings).

(** The record [clockIn] looks up: the first one of the user for today. *)
Definition todaysRecord (user : Auth.User) (now : Date)
  (records : list (Attendance.AttendanceRecord num))
  : option (Attendance.AttendanceRecord num) :=
  find (fun record =>
          (Attendance.userId record =? Auth.id user)
          && sameDateString (toDateString (Attendance.date record))
               (toDateString (startOfDay now)))
    records.

End AttendanceStatements.

(** C6 as it is written, for the doubles of the program: totalHours, taken
    as a real number, is (t1 - t0)/3600 - br/60, times in seconds. *)
Definition exactHours (t0 t1 : Z) (br total : PrimFloat.float) : Prop :=
  (Double.real total
   == inject_Z (t1 - t0) / 1000 / 3600 - Double.real br / 60)%Q.

(** ** Frames *)

(** An action of the document provider that leaves the customers alone. *)
Definition keepsCustomers {A} (m : Action Documents.Store A) : Prop :=
  forall s, Documents.customers (snd (m s)) = Documents.customers s.

End Spec.

Module Examples.

Import Js.
Local Open Scope string_scope.

(** The two mock users of [useAuth]. *)
Definition mainAdmin : Auth.User :=
  {| Auth.id := "1"; Auth.email := "admin@omservices.com";
     Auth.name := "Main Admin"; Auth.role := "main_admin";
     Auth.permissions :=
       [ {| Auth.permission_id := "1"; Auth.module := "documents";
            Auth.action := "create"; Auth.granted := true |} ];
     Auth.isActive := true |}.

Definition challanStaff : Auth.User :=
  {| Auth.id := "2"; Auth.email := "challan@omservices.com";
     Auth.name := "Challan Staff"; Auth.role := "challan_staff";
     Auth.permissions :=
       [ {| Auth.permission_id := "11"; Auth.module := "documents";
            Auth.action := "read"; Auth.granted := true |};
         {| Auth.permission_id := "12"; Auth.module := "challans";
            Auth.action := "create"; Auth.granted := true |};
         {| Auth.permission_id := "13"; Auth.module := "challans";
            Auth.action := "update"; Auth.granted := true |};
         {| Auth.permission_id := "14"; Auth.module := "payments";
            Auth.action := "read"; Auth.granted := true |} ];
     Auth.isActive := true |}.

(** Monday 2 November 2026, 10:00, and Friday 14 March 2025, 11:30 (UTC). *)
Definition nov2_2026_10h : Date :=
  {| getTime := 1793613600000; getFullYear := 2026; getMonth := 10;
     getDate := 2; dayStart := 1793577600000 |}.

Definition mar14_2025 : Date :=
  {| getTime := 1741951800000; getFullYear := 2025; getMonth := 2;
     getDate := 14; dayStart := 1741910400000 |}.

(** One second later than [nov2_2026_10h]. *)
Definition nov2_2026_10h_01s : Date :=
  {| getTime := 1793613601000; getFullYear := 2026; getMonth := 10;
     getDate := 2; dayStart := 1793577600000 |}.

(** A gateway that is never reached (local mode). *)
Definition offline {R} : DatabaseService.QueryResult R :=
  DatabaseService.failure "Database not connected".

Definition documentsOffline : Documents.Remote :=
  {| Documents.db_getDocuments := offline;
     Documents.db_createDocument := fun _ => offline;
     Documents.db_updateDocument := fun _ _ => offline |}.

Definition customersOffline : Customers.Remote :=
  {| Customers.db_getCustomers := offline;
     Customers.db_createCustomer := fun _ _ _ _ => offline;
     Customers.db_updateCustomer := fun _ _ => offline |}.

Definition buildersOffline : Builders.Remote :=
  {| Builders.db_getBuilders := offline;
     Builders.db_createBuilder := fun _ => offline;
     Builders.db_updateBuilder := fun _ _ => offline |}.

(** [{customerName, customerPhone, builderName, documentType}] *)
Definition request (customerName customerPhone builderName : option string)
  (type : Documents.DocumentType) : Documents.PartialDocument :=
  {| Documents.p_id := None;
     Documents.p_documentNumber := None;
     Documents.p_customerName := customerName;
     Documents.p_customerPhone := customerPhone;
     Documents.p_customerEmail := None;
     Documents.p_builderName := builderName;
     Documents.p_propertyDetails := None;
     Documents.p_documentType := Some type;
     Documents.p_status := None;
     Documents.p_collectionDate := None;
     Documents.p_dataEntryDate := None;
     Documents.p_registrationDate := None;
     Documents.p_deliveryDate := None;
     Documents.p_assignedTo := None;
     Documents.p_notes := None;
     Documents.p_files := None;
     Documents.p_createdAt := None;
     Documents.p_updatedAt := None |}.

(** An agreement of last year, as a reload from the remote store gives it. *)
Definition lastYearAgreement : Documents.Document :=
  {| Documents.id := "7";
     Documents.documentNumber := "AGREEMENT/2025/001";
     Documents.customerName := "A";
     Documents.customerPhone := "123";
     Documents.customerEmail := None;
     Documents.builderName := "B";
     Documents.propertyDetails := "";
     Documents.documentType := Some Documents.agreement;
     Documents.status := Documents.delivered;
     Documents.collectionDate := None;
     Documents.dataEntryDate := None;
     Documents.registrationDate := None;
     Documents.deliveryDate := None;
     Documents.assignedTo := None;
     Documents.notes := [];
     Documents.files := [];
     Documents.createdAt := mar14_2025;
     Documents.updatedAt := mar14_2025 |}.

Definition lastYearStore : Documents.Store :=
  {| Documents.documents := [lastYearAgreement];
     Documents.customers := [];
     Documents.builders := [] |}.

Definition customerA : Customers.Customer :=
  {| Customers.id := "CUST001"; Customers.name := "A";
     Customers.phone := "123"; Customers.email := None;
     Customers.address := ""; Customers.documents := ["DOC1"];
     Customers.createdAt := mar14_2025 |}.

Definition builderB : Builders.Builder :=
  {| Builders.id := "BLD001"; Builders.name := "B";
     Builders.contactPerson := "Contact Person";
     Builders.phone := "+91 0000000000"; Builders.email := None;
     Builders.address := "Address not provided";
     Builders.registrationNumber := None; Builders.documents := ["DOC1"];
     Builders.createdAt := mar14_2025 |}.

(** Monday 2 November 2026 at 9:00 and at 17:00:01 (UTC). *)
Definition nov2_2026_9h : Date :=
  {| getTime := 1793610000000; getFullYear := 2026; getMonth := 10;
     getDate := 2; dayStart := 1793577600000 |}.

Definition nov2_2026_17h_01s : Date :=
  {| getTime := 1793638801000; getFullYear := 2026; getMonth := 10;
     getDate := 2; dayStart := 1793577600000 |}.

(** The same day at 13:00:54, 14454 seconds after 9:00, and at 10:03:18,
    3798 seconds after 9:00. *)
Definition nov2_2026_13h_54s : Date :=
  {| getTime := 1793624454000; getFullYear := 2026; getMonth := 10;
     getDate := 2; dayStart := 1793577600000 |}.

Definition nov2_2026_10h03_18s : Date :=
  {| getTime := 1793613798000; getFullYear := 2026; getMonth := 10;
     getDate := 2; dayStart := 1793577600000 |}.

Section AttendanceExamples.

Context {num : Type} {arith : Number num}.

(** The record of the challan staff, clocked in at 9:00 with a break of
    [br] minutes. *)
Definition clockedInAt9 (br : option num) : Attendance.AttendanceRecord num :=
  {| Attendance.id := "ATT001";
     Attendance.userId := "2";
     Attendance.userName := "Challan Staff";
     Attendance.userRole := "challan_staff";
     Attendance.date := startOfDay nov2_2026_9h;
     Attendance.clockInTime := Some nov2_2026_9h;
     Attendance.clockOutTime := None;
     Attendance.breakTime := br;
     Attendance.totalHours := None;
     Attendance.overtime := None;
     Attendance.status := Attendance.present;
     Attendance.location := None;
     Attendance.notes := None;
     Attendance.createdAt := nov2_2026_9h;
     Attendance.updatedAt := nov2_2026_9h |}.

(** The store after an administrator marked the challan staff absent for
    2 November 2026. *)
Definition markedAbsent : list (Attendance.AttendanceRecord num) :=
  snd (Spec.markLocal nov2_2026_9h "2" nov2_2026_9h Attendance.absent None []).

End AttendanceExamples.

Section DoubleExamples.

Import PrimFloat.

(** A configuration whose amounts are the doubles of the literals [0.1],
    [0.2] and [0.3]: base salary 0.1, one allowance of 0.2, one deduction of
    0.3, no overtime pay. *)
Definition tenths : Salary.StaffSalaryConfig PrimFloat.float :=
  {| Salary.config_id := "SAL001";
     Salary.userId := "2";
     Salary.baseSalary := 0.1%float;
     Salary.allowances :=
       [ {| Salary.allowance_id := "1";
            Salary.allowance_type := Salary.transport;
            Salary.allowance_amount := 0.2%float;
            Salary.allowance_description := None |} ];
     Salary.deductions :=
       [ {| Salary.deduction_id := "1";
            Salary.deduction_type := Salary.tax;
            Salary.deduction_amount := 0.3%float;
            Salary.deduction_description := None |} ];
     Salary.overtimeRate := 0%float;
     Salary.paymentMethod := Salary.cash;
     Salary.bankDetails := None;
     Salary.isActive := true;
     Salary.effectiveFrom := mar14_2025;
     Salary.createdAt := mar14_2025;
     Salary.updatedAt := mar14_2025 |}.

(** What [calculateSalary(tenths)] returns. *)
Definition tenthsPaid : Salary.GrossNet PrimFloat.float :=
  {| Salary.gross := 0.30000000000000004%float;
     Salary.net := 5.551115123125783e-17%float |}.

End DoubleExamples.

(** The customer store after [CUST001] was deleted: one customer is left,
    and the next generated ID is CUST002 again. *)
Definition customer222 : Customers.Customer :=
  {| Customers.id := "CUST002"; Customers.name := "C";
     Customers.phone := "222"; Customers.email := None;
     Customers.address := ""; Customers.documents := [];
     Customers.createdAt := mar14_2025 |}.

Definition afterDeletion : Documents.Store :=
  {| Documents.documents := []; Documents.customers := [customer222];
     Documents.builders := [] |}.

(** A gateway whose [customers] table refuses the update the store sends:
    [updateCustomer] passes no name with a list of documents, and the column
    is declared NOT NULL. *)
Definition customersRejecting : Customers.Remote :=
  {| Customers.db_getCustomers := offline;
     Customers.db_createCustomer := fun _ _ _ _ => offline;
     Customers.db_updateCustomer :=
       fun _ _ =>
         DatabaseService.failure "Query failed: Column 'name' cannot be null" |}.

End Examples.


(* ===================================================================== *)
(** * Session store: [useAuth.login], [logout] and the restored session   *)
(* ===================================================================== *)

Module Session.

Import Js.
Local Open Scope string_scope.
Local Open Scope action_scope.

(** The state of the provider and the one item it keeps in local storage
    (['om-services-user'], the signed-in user as JSON). *)
Record State : Type := {
  user : option Auth.User;
  storedUser : option Auth.User;
  isLoading : bool
}.

Section AuthProvider.

(** [allUsers], as the closures of one render see it. *)
Variable allUsers : list Auth.User.

(** [login(email, password)] *)
Definition login (email_ password_ : string) : Action State bool :=
  setState (fun s => {| user := user s; storedUser := storedUser s;
                        isLoading := true |}) ;;;
  let foundUser :=
    find (fun u => (Auth.email u =? email_) && Auth.isActive u) allUsers in
  match foundUser with
  | Some found =>
      if password_ =? "password123" then
        setState (fun s => {| user := Some found; storedUser := Some found;
                              isLoading := false |}) ;;;
        ret true
      else
        setState (fun s => {| user := user s; storedUser := storedUser s;
                              isLoading := false |}) ;;;
        ret false
  | None =>
      setState (fun s => {| user := user s; storedUser := storedUser s;
                            isLoading := false |}) ;;;
      ret false
  end.

(** [logout()] *)
Definition logout : Action State unit :=
  setState (fun s => {| user := None; storedUser := None;
                        isLoading := isLoading s |}).

(** The effect run on mount: the stored session is taken as it is. *)
Definition restoreSession : Action State unit :=
  setState (fun s =>
              {| user := match storedUser s with
                         | Some stored => Some stored
                         | None => user s
                         end;
                 storedUser := storedUser s;
                 isLoading := false |}).

End AuthProvider.

End Session.

(* ===================================================================== *)
(** * Document notes: [useDocuments.addNote]                              *)
(* ===================================================================== *)

Module DocumentNotes.

Import Js.
Import Documents.
Local Open Scope string_scope.
Local Open Scope action_scope.

Section DocumentProvider.

Variable view : Store.
Variable isConnected : bool.
Variable db : Remote.
Variable now : Date.

(** [addNote(id, note)] *)
Definition addNote (id_ note : string) : Action (list Document) unit :=
  match getDocument view id_ with
  | Some doc =>
      updateDocument view isConnected db now id_
        {| p_id := None; p_documentNumber := None; p_customerName := None;
           p_customerPhone := None; p_customerEmail := None;
           p_builderName := None; p_propertyDetails := None;
           p_documentType := None; p_status := None;
           p_collectionDate := None; p_dataEntryDate := None;
           p_registrationDate := None; p_deliveryDate := None;
           p_assignedTo := None;
           p_notes := Some (notes doc ++ [note])%list;
           p_files := None; p_createdAt := None; p_updatedAt := None |} ;;;
      ret tt
  | None => ret tt
  end.

End DocumentProvider.

End DocumentNotes.

(* ===================================================================== *)
(** * Single calls of the store operations                                *)
(* ===================================================================== *)

Module Calls.

Import Js.
Local Open Scope string_scope.

(** Each definition is one call of an operation of a store, made after a
    render (the closures see the current state). *)

Definition storeOf (docs : list Documents.Document) : Documents.Store :=
  {| Documents.documents := docs; Documents.customers := [];
     Documents.builders := [] |}.

Definition createCustomer (isConnected : bool) (db : Customers.Remote)
  (now : Date) (data : Customers.PartialCustomer)
  (cs : list Customers.Customer)
  : Outcome (option Customers.Customer) * list Customers.Customer :=
  run (fun view => Customers.createCustomer view isConnected db now data) cs.

Definition deleteCustomer (id_ : string) (cs : list Customers.Customer)
  : list Customers.Customer :=
  snd (run (fun _ => Customers.deleteCustomer id_) cs).

Definition deleteBuilder (id_ : string) (bs : list Builders.Builder)
  : list Builders.Builder :=
  snd (run (fun _ => Builders.deleteBuilder id_) bs).

Definition deleteDocument (id_ : string) (docs : list Documents.Document)
  : list Documents.Document :=
  snd (run (fun _ => Documents.deleteDocument id_) docs).

Definition updateDocument (isConnected : bool) (db : Documents.Remote)
  (now : Date) (id_ : string) (data : Documents.PartialDocument)
  (docs : list Documents.Document)
  : Outcome (option Documents.Document) * list Documents.Document :=
  run (fun view =>
         Documents.updateDocument (storeOf view) isConnected db now id_ data)
    docs.

Definition addNote (isConnected : bool) (db : Documents.Remote) (now : Date)
  (id_ note : string) (docs : list Documents.Document)
  : Outcome unit * list Documents.Document :=
  run (fun view =>
         DocumentNotes.addNote (storeOf view) isConnected db now id_ note)
    docs.

(** [{ ...old, ...data, updatedAt: now }], field by field: [updated] has the
    value of [data] where [data] carries the field and the value of [old]
    where it does not, and is stamped [now]. *)
Definition updatedFrom (old : Documents.Document)
  (data : Documents.PartialDocument) (now : Date)
  (updated : Documents.Document) : Prop :=
  Documents.id updated
  = match Documents.p_id data with Some v => v | None => Documents.id old end
  /\ Documents.documentNumber updated
     = match Documents.p_documentNumber data with
       | Some v => v | None => Documents.documentNumber old end
  /\ Documents.customerName updated
     = match Documents.p_customerName data with
       | Some v => v | None => Documents.customerName old end
  /\ Documents.customerPhone updated
     = match Documents.p_customerPhone data with
       | Some v => v | None => Documents.customerPhone old end
  /\ Documents.customerEmail updated
     = match Documents.p_customerEmail data with
       | Some v => Some v | None => Documents.customerEmail old end
  /\ Documents.builderName updated
     = match Documents.p_builderName data with
       | Some v => v | None => Documents.builderName old end
  /\ Documents.propertyDetails updated
     = match Documents.p_propertyDetails data with
       | Some v => v | None => Documents.propertyDetails old end
  /\ Documents.documentType updated
     = match Documents.p_documentType data with
       | Some v => Some v | None => Documents.documentType old end
  /\ Documents.status updated
     = match Documents.p_status data with
       | Some v => v | None => Documents.status old end
  /\ Documents.collectionDate updated
     = match Documents.p_collectionDate data with
       | Some v => Some v | None => Documents.collectionDate old end
  /\ Documents.dataEntryDate updated
     = match Documents.p_dataEntryDate data with
       | Some v => Some v | None => Documents.dataEntryDate old end
  /\ Documents.registrationDate updated
     = match Documents.p_registrationDate data with
       | Some v => Some v | None => Documents.registrationDate old end
  /\ Documents.deliveryDate updated
     = match Documents.p_deliveryDate data with
       | Some v => Some v | None => Documents.deliveryDate old end
  /\ Documents.assignedTo updated
     = match Documents.p_assignedTo data with
       | Some v => Some v | None => Documents.assignedTo old end
  /\ Documents.notes updated
     = match Documents.p_notes data with
       | Some v => v | None => Documents.notes old end
  /\ Documents.files updated
     = match Documents.p_files data with
       | Some v => v | None => Documents.files old end
  /\ Documents.createdAt updated
     = match Documents.p_createdAt data with
       | Some v => v | None => Documents.createdAt old end
  /\ Documents.updatedAt updated = now.

(** The customers of the store with a phone number. *)
Definition withPhone (phone_ : string) (cs : list Customers.Customer)
  : list Customers.Customer :=
  filter (fun c => Customers.phone c =? phone_) cs.

End Calls.

(* ===================================================================== *)
(** * useAttendance: the queries of the provider *)
(* ===================================================================== *)

Module AttendanceQueries.

Import Js.
Import Attendance.
Local Open Scope string_scope.
Local Open Scope num_scope.

(** [a === b] on two status literals. *)
Definition sameStatus (a b : AttendanceStatus) : bool :=
  match a, b with
  | present, present | absent, absent | late, late | half_day, half_day
  | on_leave, on_leave => true
  | _, _ => false
  end.

(** [!!d] on an optional [Date]: every [Date] object is truthy. *)
Definition isDate (d : option Date) : bool :=
  match d with Some _ => true | None => false end.

Section Numbers.

(** The type of JS numbers. *)
Context {num : Type}.

(** [AttendanceStats]: counts of days, and hours. *)
Record AttendanceStats : Type := {
  totalDays : nat;
  presentDays : nat;
  absentDays : nat;
  lateDays : nat;
  halfDays : nat;
  leaveDays : nat;
  stats_totalHours : num;
  averageHours : num;
  overtimeHours : num;
  attendancePercentage : num
}.

Context {arith : Number num}.

(** A count of records as a JS number. *)
Definition number (n : nat) : num := ofInteger (Z.of_nat n).

Section AttendanceProvider.

(** The values captured by the closures of one render, and the clock. *)
Variable user : option Auth.User.
Variable attendanceRecords : list (AttendanceRecord num).
Variable now : Date.

(** [userId || user?.id] *)
Definition targetUserId (userId_ : option string) : option string :=
  match userId_ with
  | Some (String c r) => Some (String c r)
  | _ => option_map Auth.id user
  end.

Definition getTodayAttendance (userId_ : option string)
  : option (AttendanceRecord num) :=
  match targetUserId userId_ with
  | Some targetUserId =>
      if negb (truthyString targetUserId) then None
      else
        let today := now in
        find (fun record =>
                (userId record =? targetUserId)
                && sameDateString (toDateString (date record))
                     (toDateString today))
          attendanceRecords
  | None => None
  end.

Definition getUserAttendanceStats (userId_ : string) (startDate endDate : Date)
  : AttendanceStats :=
  let userRecords :=
    filter (fun record =>
              (userId record =? userId_)
              && (getTime startDate <=? getTime (date record))%Z
              && (getTime (date record) <=? getTime endDate)%Z)
      attendanceRecords in
  let totalDays := List.length userRecords in
  let presentDays :=
    List.length (filter (fun r => sameStatus (status r) present) userRecords) in
  let absentDays :=
    List.length (filter (fun r => sameStatus (status r) absent) userRecords) in
  let lateDays :=
    List.length (filter (fun r => sameStatus (status r) late) userRecords) in
  let halfDays :=
    List.length (filter (fun r => sameStatus (status r) half_day) userRecords) in
  let leaveDays :=
    List.length (filter (fun r => sameStatus (status r) on_leave) userRecords) in
  let totalHours_ :=
    fold_left (fun sum r => sum + orNumber (totalHours r) (ofInteger 0))
      userRecords (ofInteger 0) in
  let averageHours :=
    if (0 <? totalDays)%nat then totalHours_ / number totalDays
    else ofInteger 0 in
  let overtimeHours :=
    fold_left (fun sum r => sum + orNumber (overtime r) (ofInteger 0))
      userRecords (ofInteger 0) in
  let workingDays := (presentDays + lateDays + halfDays)%nat in
  let attendancePercentage :=
    if (0 <? totalDays)%nat
    then number workingDays / number totalDays * ofInteger 100
    else ofInteger 0 in
  {| totalDays := totalDays;
     presentDays := presentDays;
     absentDays := absentDays;
     lateDays := lateDays;
     halfDays := halfDays;
     leaveDays := leaveDays;
     stats_totalHours := totalHours_;
     averageHours := averageHours;
     overtimeHours := overtimeHours;
     attendancePercentage := attendancePercentage |}.

Definition getAttendanceByDateRange (startDate endDate : Date)
  (userId_ : option string) : list (AttendanceRecord num) :=
  filter (fun record =>
            (getTime startDate <=? getTime (date record))%Z
            && (getTime (date record) <=? getTime endDate)%Z
            && match userId_ with
               | Some (String c r) => userId record =? String c r
               | _ => true
               end)
    attendanceRecords.

Definition isUserClockedIn (userId_ : option string) : bool :=
  match targetUserId userId_ with
  | Some targetUserId =>
      if negb (truthyString targetUserId) then false
      else
        let todayRecord := getTodayAttendance (Some targetUserId) in
        match todayRecord with
        | Some todayRecord =>
            isDate (clockInTime todayRecord)
            && negb (isDate (clockOutTime todayRecord))
        | None => false
        end
  | None => false
  end.

Definition getCurrentWorkingHours (userId_ : option string) : num :=
  match targetUserId userId_ with
  | Some targetUserId =>
      if negb (truthyString targetUserId) then ofInteger 0
      else
        let todayRecord := getTodayAttendance (Some targetUserId) in
        match todayRecord with
        | Some {| clockInTime := Some clockInTime_; breakTime := breakTime_ |} =>
            let totalMinutes :=
              ofInteger (getTime now - getTime clockInTime_)
              / ofInteger (1000 * 60) in
            let breakTime_ := orNumber breakTime_ (ofInteger 60) in
            let workingHours :=
              (totalMinutes / ofInteger 60) - (breakTime_ / ofInteger 60) in
            Math_max (ofInteger 0)
              (Math_round (workingHours * ofInteger 100) / ofInteger 100)
        | _ => ofInteger 0
        end
  | None => ofInteger 0
  end.

End AttendanceProvider.

End Numbers.

Arguments AttendanceStats : clear implicits.

End AttendanceQueries.

(* ===================================================================== *)
(** * useAttendance: leave requests *)
(* ===================================================================== *)

Module Leave.

Import Js.
Local Open Scope string_scope.
Local Open Scope action_scope.

(** A [LeaveRequest] as the provider builds it.  The fields [submitLeaveRequest]
    fills with [data.field!] are undefined when [data] lacks them; a leave
    type and a status are string literals. *)
Record LeaveRequest : Type := {
  id : string;
  userId : string;
  userName : string;
  leaveType : option string;
  startDate : option Date;
  endDate : option Date;
  totalDays : option Q;
  reason : option string;
  status : string;
  appliedAt : Date;
  reviewedBy : option string;
  reviewedAt : option Date;
  reviewComments : option string
}.

(** [Partial<LeaveRequest>] *)
Record PartialLeaveRequest : Type := {
  p_id : option string;
  p_userId : option string;
  p_userName : option string;
  p_leaveType : option string;
  p_startDate : option Date;
  p_endDate : option Date;
  p_totalDays : option Q;
  p_reason : option string;
  p_status : option string;
  p_appliedAt : option Date;
  p_reviewedBy : option string;
  p_reviewedAt : option Date;
  p_reviewComments : option string
}.

Section AttendanceProvider.

Variable user : option Auth.User.
Variable now : Date.

Definition submitLeaveRequest (data : PartialLeaveRequest)
  : Action (list LeaveRequest) LeaveRequest :=
  match user with
  | None => throw (ErrorObject "User not authenticated")
  | Some user =>
      let newRequest :=
        {| id := spread (p_id data) ("LEAVE" ++ intToString (getTime now));
           userId := spread (p_userId data) (Auth.id user);
           userName := spread (p_userName data) (Auth.name user);
           leaveType := p_leaveType data;
           startDate := p_startDate data;
           endDate := p_endDate data;
           totalDays := p_totalDays data;
           reason := p_reason data;
           status := spread (p_status data) "pending";
           appliedAt := spread (p_appliedAt data) now;
           reviewedBy := p_reviewedBy data;
           reviewedAt := p_reviewedAt data;
           reviewComments := p_reviewComments data |} in
      setState (fun prev => (prev ++ [newRequest])%list) ;;;
      ret newRequest
  end.

(** [{ ...request, status, reviewedBy: user.name, reviewedAt: new Date(),
    reviewComments: comments }] *)
Definition reviewed (request : LeaveRequest) (status_ : string)
  (reviewer : Auth.User) (comments : option string) : LeaveRequest :=
  {| id := id request;
     userId := userId request;
     userName := userName request;
     leaveType := leaveType request;
     startDate := startDate request;
     endDate := endDate request;
     totalDays := totalDays request;
     reason := reason request;
     status := status_;
     appliedAt := appliedAt request;
     reviewedBy := Some (Auth.name reviewer);
     reviewedAt := Some now;
     reviewComments := comments |}.

Definition approveLeaveRequest (id_ : string) (comments : option string)
  : Action (list LeaveRequest) unit :=
  match user with
  | None => throw (ErrorObject "User not authenticated")
  | Some user =>
      setState
        (fun prev =>
           map (fun request =>
                  if id request =? id_
                  then reviewed request "approved" user comments
                  else request)
             prev)
  end.

Definition rejectLeaveRequest (id_ : string) (comments : string)
  : Action (list LeaveRequest) unit :=
  match user with
  | None => throw (ErrorObject "User not authenticated")
  | Some user =>
      setState
        (fun prev =>
           map (fun request =>
                  if id request =? id_
                  then reviewed request "rejected" user (Some comments)
                  else request)
             prev)
  end.

End AttendanceProvider.

End Leave.

(* ===================================================================== *)
(** * useSalary: records, payroll and statistics *)
(* ===================================================================== *)

Module SalaryStore.

Import Js.
Import Salary.
Local Open Scope string_scope.
Local Open Scope action_scope.
Local Open Scope num_scope.

Inductive SalaryStatus : Type :=
| draft | pending_approval | approved | paid | cancelled.

(** [status === 'paid'] *)
Definition isPaid (status : SalaryStatus) : bool :=
  match status with paid => true | _ => false end.

Record PayPeriod : Type := {
  month : Z;
  year : Z;
  startDate : Date;
  endDate : Date
}.

Inductive PayrollStatus : Type :=
| payroll_draft | payroll_processing | payroll_completed.

Section Numbers.

(** The type of JS numbers. *)
Context {num : Type}.

Record OvertimeRecord : Type := {
  overtime_id : string;
  overtime_date : Date;
  overtime_hours : num;
  overtime_rate : num;
  overtime_amount : num;
  overtime_description : option string
}.

Record SalaryRecord : Type := {
  id : string;
  userId : string;
  userName : string;
  userRole : string;
  baseSalary : num;
  allowances : list (SalaryAllowance num);
  deductions : list (SalaryDeduction num);
  overtime : list OvertimeRecord;
  bonus : num;
  grossSalary : num;
  netSalary : num;
  payPeriod : PayPeriod;
  payDate : Date;
  status : SalaryStatus;
  paymentMethod : PaymentMethod;
  bankDetails : option BankDetails;
  notes : option string;
  createdAt : Date;
  updatedAt : Date;
  approvedBy : option string;
  approvedAt : option Date
}.

(** [Partial<SalaryRecord>].  For an optional field of the record the outer
    [option] tells whether the key is there, the inner one its value, which
    may be [undefined]. *)
Record PartialSalaryRecord : Type := {
  p_id : option string;
  p_userId : option string;
  p_userName : option string;
  p_userRole : option string;
  p_baseSalary : option num;
  p_allowances : option (list (SalaryAllowance num));
  p_deductions : option (list (SalaryDeduction num));
  p_overtime : option (list OvertimeRecord);
  p_bonus : option num;
  p_grossSalary : option num;
  p_netSalary : option num;
  p_payPeriod : option PayPeriod;
  p_payDate : option Date;
  p_status : option SalaryStatus;
  p_paymentMethod : option PaymentMethod;
  p_bankDetails : option (option BankDetails);
  p_notes : option (option string);
  p_createdAt : option Date;
  p_updatedAt : option Date;
  p_approvedBy : option (option string);
  p_approvedAt : option (option Date)
}.

(** [{ ...record, ...data, updatedAt }] *)
Definition merge (record : SalaryRecord) (data : PartialSalaryRecord)
  (updatedAt_ : Date) : SalaryRecord :=
  {| id := spread (p_id data) (id record);
     userId := spread (p_userId data) (userId record);
     userName := spread (p_userName data) (userName record);
     userRole := spread (p_userRole data) (userRole record);
     baseSalary := spread (p_baseSalary data) (baseSalary record);
     allowances := spread (p_allowances data) (allowances record);
     deductions := spread (p_deductions data) (deductions record);
     overtime := spread (p_overtime data) (overtime record);
     bonus := spread (p_bonus data) (bonus record);
     grossSalary := spread (p_grossSalary data) (grossSalary record);
     netSalary := spread (p_netSalary data) (netSalary record);
     payPeriod := spread (p_payPeriod data) (payPeriod record);
     payDate := spread (p_payDate data) (payDate record);
     status := spread (p_status data) (status record);
     paymentMethod := spread (p_paymentMethod data) (paymentMethod record);
     bankDetails := spread (p_bankDetails data) (bankDetails record);
     notes := spread (p_notes data) (notes record);
     createdAt := spread (p_createdAt data) (createdAt record);
     updatedAt := updatedAt_;
     approvedBy := spread (p_approvedBy data) (approvedBy record);
     approvedAt := spread (p_approvedAt data) (approvedAt record) |}.

Record PayrollSummary : Type := {
  summary_month : Z;
  summary_year : Z;
  summary_totalStaff : nat;
  totalGrossSalary : num;
  totalNetSalary : num;
  summary_totalAllowances : num;
  summary_totalDeductions : num;
  summary_totalOvertime : num;
  paidCount : nat;
  pendingCount : nat;
  summary_status : PayrollStatus;
  processedBy : option string;
  processedAt : option Date
}.

Record SalaryStats : Type := {
  totalStaff : nat;
  totalMonthlySalary : num;
  totalPaidThisMonth : num;
  totalPendingPayments : num;
  averageSalary : num;
  highestSalary : num;
  lowestSalary : num;
  totalOvertime : num;
  totalAllowances : num;
  totalDeductions : num
}.

Context {arith : Number num}.

(** [x > 0] *)
Definition isPositive (x : num) : bool := x >? ofInteger 0.

(** [Math.max(...xs, last)] and [Math.min(...xs, last)] *)
Fixpoint Math_max_spread (xs : list num) (last : num) : num :=
  match xs with
  | [] => last
  | x :: rest => Math_max x (Math_max_spread rest last)
  end.

Fixpoint Math_min_spread (xs : list num) (last : num) : num :=
  match xs with
  | [] => last
  | x :: rest => Math_min x (Math_min_spread rest last)
  end.

(** The sums of the amounts of a record, as the reducers of the provider
    take them. *)
Definition allowanceAmounts (r : SalaryRecord) : num :=
  fold_left (fun a b => a + allowance_amount b) (allowances r) (ofInteger 0).

Definition deductionAmounts (r : SalaryRecord) : num :=
  fold_left (fun a b => a + deduction_amount b) (deductions r) (ofInteger 0).

Definition overtimeAmounts (r : SalaryRecord) : num :=
  fold_left (fun a b => a + overtime_amount b) (overtime r) (ofInteger 0).

(** The three lists of the provider. *)
Record Store : Type := mkStore {
  salaryRecords : list SalaryRecord;
  staffConfigs : list (StaffSalaryConfig num);
  payrollSummaries : list PayrollSummary
}.

Definition onSalaryRecords {A} (m : Action (list SalaryRecord) A)
  : Action Store A :=
  zoom salaryRecords
    (fun records s =>
       {| salaryRecords := records; staffConfigs := staffConfigs s;
          payrollSummaries := payrollSummaries s |})
    m.

Definition onPayrollSummaries {A} (m : Action (list PayrollSummary) A)
  : Action Store A :=
  zoom payrollSummaries
    (fun summaries s =>
       {| salaryRecords := salaryRecords s; staffConfigs := staffConfigs s;
          payrollSummaries := summaries |})
    m.

(** The answers of the gateway to the calls of this store. *)
Record Remote : Type := {
  db_updateSalaryRecord :
    string -> PartialSalaryRecord -> DatabaseService.QueryResult unit
}.

Section SalaryProvider.

(** The values captured by the closures of one render. *)
Variable user : option Auth.User.
Variable users : list Auth.User.
Variable attendanceRecords : list (Attendance.AttendanceRecord num).
Variable isConnected : bool.
Variable view : Store.
Variable db : Remote.
(** What a reload from the remote store does to the three lists. *)
Variable loadSalaryDataFromDatabase : Action Store unit.
(** The clock, and the calendar: [newDate y m d] is [new Date(y, m, d)]. *)
Variable now : Date.
Variable newDate : Z -> Z -> Z -> Date.

Definition getUserAttendanceStats :=
  AttendanceQueries.getUserAttendanceStats attendanceRecords.

Definition generateSalaryId : string :=
  let count := (List.length (salaryRecords view) + 1)%nat in
  "SAL" ++ padStart 3 "0" (natToString count).

Definition getStaffConfig (userId_ : string) : option (StaffSalaryConfig num) :=
  find (fun config => (Salary.userId config =? userId_) && isActive config)
    (staffConfigs view).

Definition getSalaryRecordsByUser (userId_ : string) : list SalaryRecord :=
  filter (fun record => userId record =? userId_) (salaryRecords view).

Definition getSalaryRecordsByPeriod (month_ year_ : Z) : list SalaryRecord :=
  filter (fun record =>
            (month (payPeriod record) =? month_)%Z
            && (year (payPeriod record) =? year_)%Z)
    (salaryRecords view).

Definition updateSalaryRecord (id_ : string) (data : PartialSalaryRecord)
  : Action Store (option SalaryRecord) :=
  if isConnected then
    let result := db_updateSalaryRecord db id_ data in
    if DatabaseService.success result then
      loadSalaryDataFromDatabase ;;;
      ret (find (fun r => id r =? id_) (salaryRecords view))
    else
      throw (ErrorObject
               (orString (DatabaseService.error result)
                  "Failed to update salary record"))
  else
    onSalaryRecords
      (setState
         (fun prev =>
            map (fun record =>
                   if id record =? id_ then merge record data now else record)
              prev)) ;;;
    ret (find (fun r => id r =? id_) (salaryRecords view)).

Definition deleteSalaryRecord (id_ : string) : Action Store unit :=
  onSalaryRecords
    (setState (fun prev => filter (fun record => negb (id record =? id_)) prev)).

(** The record [generatePayroll] makes for one member of the staff with a
    salary configuration. *)
Definition payrollRecord (month_ year_ : Z) (staff : Auth.User)
  (config : StaffSalaryConfig num) : SalaryRecord :=
  let startDate := newDate year_ (month_ - 1) 1 in
  let endDate := newDate year_ month_ 0 in
  let attendanceStats :=
    getUserAttendanceStats (Auth.id staff) startDate endDate in
  let overtimeHours :=
    orNumber
      (Some (AttendanceQueries.overtimeHours attendanceStats))
      (ofInteger 0) in
  let salary := calculateSalary config (Some overtimeHours) None in
  {| id := generateSalaryId;
     userId := Auth.id staff;
     userName := Auth.name staff;
     userRole := Auth.role staff;
     baseSalary := Salary.baseSalary config;
     allowances := Salary.allowances config;
     deductions := Salary.deductions config;
     overtime :=
       if isPositive overtimeHours
       then [ {| overtime_id := "OT" ++ intToString (getTime now);
                 overtime_date := endDate;
                 overtime_hours := overtimeHours;
                 overtime_rate := overtimeRate config;
                 overtime_amount := (overtimeHours * overtimeRate config);
                 overtime_description := Some "Monthly overtime" |} ]
       else [];
     bonus := ofInteger 0;
     grossSalary := gross salary;
     netSalary := net salary;
     payPeriod :=
       {| month := month_; year := year_; startDate := startDate;
          endDate := endDate |};
     payDate := newDate year_ month_ 5;
     status := draft;
     paymentMethod := Salary.paymentMethod config;
     bankDetails := Salary.bankDetails config;
     notes := None;
     createdAt := now;
     updatedAt := now;
     approvedBy := None;
     approvedAt := None |}.

(** The loop of [generatePayroll] over the active staff: a member without a
    configuration is skipped. *)
Fixpoint payrollLoop (month_ year_ : Z) (activeStaff : list Auth.User)
  : list SalaryRecord :=
  match activeStaff with
  | [] => []
  | staff :: rest =>
      match getStaffConfig (Auth.id staff) with
      | None => payrollLoop month_ year_ rest
      | Some config =>
          payrollRecord month_ year_ staff config
          :: payrollLoop month_ year_ rest
      end
  end.

Definition generatePayroll (month_ year_ : Z) : Action Store PayrollSummary :=
  let activeStaff := filter Auth.isActive users in
  let payrollRecords := payrollLoop month_ year_ activeStaff in
  onSalaryRecords (setState (fun prev => (prev ++ payrollRecords)%list)) ;;;
  let summary :=
    {| summary_month := month_;
       summary_year := year_;
       summary_totalStaff := List.length payrollRecords;
       totalGrossSalary :=
         fold_left (fun sum r => sum + grossSalary r) payrollRecords
           (ofInteger 0);
       totalNetSalary :=
         fold_left (fun sum r => sum + netSalary r) payrollRecords
           (ofInteger 0);
       summary_totalAllowances :=
         fold_left (fun sum r => sum + allowanceAmounts r) payrollRecords
           (ofInteger 0);
       summary_totalDeductions :=
         fold_left (fun sum r => sum + deductionAmounts r) payrollRecords
           (ofInteger 0);
       summary_totalOvertime :=
         fold_left (fun sum r => sum + overtimeAmounts r) payrollRecords
           (ofInteger 0);
       paidCount := 0;
       pendingCount := List.length payrollRecords;
       summary_status := payroll_draft;
       processedBy := None;
       processedAt := None |} in
  onPayrollSummaries (setState (fun prev => (prev ++ [summary])%list)) ;;;
  ret summary.

Definition approveSalary (id_ : string) : Action Store unit :=
  updateSalaryRecord id_
    {| p_id := None; p_userId := None; p_userName := None; p_userRole := None;
       p_baseSalary := None; p_allowances := None; p_deductions := None;
       p_overtime := None; p_bonus := None; p_grossSalary := None;
       p_netSalary := None; p_payPeriod := None; p_payDate := None;
       p_status := Some approved; p_paymentMethod := None;
       p_bankDetails := None; p_notes := None; p_createdAt := None;
       p_updatedAt := None;
       p_approvedBy := Some (option_map Auth.name user);
       p_approvedAt := Some (Some now) |} ;;;
  ret tt.

Definition paySalary (id_ : string) : Action Store unit :=
  updateSalaryRecord id_
    {| p_id := None; p_userId := None; p_userName := None; p_userRole := None;
       p_baseSalary := None; p_allowances := None; p_deductions := None;
       p_overtime := None; p_bonus := None; p_grossSalary := None;
       p_netSalary := None; p_payPeriod := None; p_payDate := None;
       p_status := Some paid; p_paymentMethod := None;
       p_bankDetails := None; p_notes := None; p_createdAt := None;
       p_updatedAt := None; p_approvedBy := None; p_approvedAt := None |} ;;;
  ret tt.

Definition getSalaryStats : SalaryStats :=
  let activeConfigs := filter isActive (staffConfigs view) in
  let currentMonth := (getMonth now + 1)%Z in
  let currentYear := getFullYear now in
  let currentMonthRecords :=
    getSalaryRecordsByPeriod currentMonth currentYear in
  {| totalStaff := List.length activeConfigs;
     totalMonthlySalary :=
       fold_left (fun sum c => sum + Salary.baseSalary c) activeConfigs
         (ofInteger 0);
     totalPaidThisMonth :=
       fold_left (fun sum r => sum + netSalary r)
         (filter (fun r => isPaid (status r)) currentMonthRecords)
           (ofInteger 0);
     totalPendingPayments :=
       fold_left (fun sum r => sum + netSalary r)
         (filter (fun r => negb (isPaid (status r))) currentMonthRecords)
           (ofInteger 0);
     averageSalary :=
       if (0 <? List.length activeConfigs)%nat
       then fold_left (fun sum c => sum + Salary.baseSalary c)
              activeConfigs (ofInteger 0)
            / AttendanceQueries.number (List.length activeConfigs)
       else ofInteger 0;
     highestSalary :=
       Math_max_spread (map Salary.baseSalary activeConfigs) (ofInteger 0);
     lowestSalary :=
       Math_min_spread (map Salary.baseSalary activeConfigs) (ofInteger 0);
     totalOvertime :=
       fold_left (fun sum r => sum + overtimeAmounts r) currentMonthRecords
         (ofInteger 0);
     totalAllowances :=
       fold_left (fun sum r => sum + allowanceAmounts r) currentMonthRecords
         (ofInteger 0);
     totalDeductions :=
       fold_left (fun sum r => sum + deductionAmounts r) currentMonthRecords
         (ofInteger 0) |}.

End SalaryProvider.

End Numbers.

Arguments OvertimeRecord : clear implicits.
Arguments SalaryRecord : clear implicits.
Arguments PartialSalaryRecord : clear implicits.
Arguments PayrollSummary : clear implicits.
Arguments SalaryStats : clear implicits.
Arguments Store : clear implicits.
Arguments Remote : clear implicits.

End SalaryStore.

(* ===================================================================== *)
(** * databaseService: the statements built at run time *)
(* ===================================================================== *)

Module DatabaseOps.

Import Js.
Import DatabaseService.
Local Open Scope string_scope.
Local Open Scope action_scope.

(** An object passed as [documentData]: its own keys in the order of
    [Object.keys], each with its value.  The values are strings, numbers or
    [undefined]. *)
Definition Fields : Type := list (string * Param).

(** [value !== undefined] *)
Definition isDefined (value : Param) : bool :=
  match value with PUndefined => false | _ => true end.

(** [parts.join(separator)] *)
Fixpoint join (separator : string) (parts : list string) : string :=
  match parts with
  | [] => ""
  | [part] => part
  | part :: rest => part ++ separator ++ join separator rest
  end.

(** The number of occurrences of a character in a string. *)
Fixpoint countChar (c : ascii) (s : string) : nat :=
  match s with
  | EmptyString => 0
  | String d r => (if Ascii.eqb c d then 1 else 0) + countChar c r
  end.

(** [updateDocument(documentId, documentData)] *)
Definition updateDocument {R} (this : Service) (net : Network R)
  (documentId : string) (documentData : Fields)
  : Action (list Request) (QueryResult R) :=
  let defined := filter (fun entry => isDefined (snd entry)) documentData in
  let fields := map (fun entry => fst entry ++ " = ?") defined in
  let values := map snd defined in
  if (List.length fields =? 0)%nat then ret (failure "No fields to update")
  else
    let fields := (fields ++ ["updated_at = NOW()"])%list in
    let values := (values ++ [PString documentId])%list in
    let sql :=
      "UPDATE documents SET " ++ join ", " fields ++ " WHERE id = ?" in
    query this net sql values.

(** The [filters] of [getSalaryRecords]. *)
Record SalaryFilters : Type := {
  filter_userId : option string;
  filter_month : option Q;
  filter_year : option Q;
  filter_status : option string
}.

(** Truthiness of an optional string and of an optional number. *)
Definition truthy (s : option string) : bool := truthyString (orString s "").

Definition truthyNumber (n : option Q) : bool :=
  match n with Some v => negb (Qeq_bool v 0) | None => false end.

Definition param (s : option string) : Param :=
  match s with Some v => PString v | None => PUndefined end.

Definition numberParam (n : option Q) : Param :=
  match n with Some v => PNumber v | None => PUndefined end.

(** [getSalaryRecords(filters = {})] *)
Definition getSalaryRecords {R} (this : Service) (net : Network R)
  (filters : SalaryFilters) : Action (list Request) (QueryResult R) :=
  let sql := "SELECT * FROM salary_records WHERE 1=1" in
  let params := [] in
  let '(sql, params) :=
    if truthy (filter_userId filters)
    then (sql ++ " AND user_id = ?",
          (params ++ [param (filter_userId filters)])%list)
    else (sql, params) in
  let '(sql, params) :=
    if truthyNumber (filter_month filters) && truthyNumber (filter_year filters)
    then (sql ++ " AND pay_period_month = ? AND pay_period_year = ?",
          (params ++ [numberParam (filter_month filters);
                      numberParam (filter_year filters)])%list)
    else (sql, params) in
  let '(sql, params) :=
    if truthy (filter_status filters)
    then (sql ++ " AND status = ?",
          (params ++ [param (filter_status filters)])%list)
    else (sql, params) in
  let sql := sql ++ " ORDER BY created_at DESC" in
  query this net sql params.

End DatabaseOps.

(* ===================================================================== *)
(** * databaseService.initialize and the DatabaseProvider *)
(* ===================================================================== *)

Module Connection.

Import Js.
Import DatabaseService.
Local Open Scope string_scope.
Local Open Scope action_scope.

(** [config.mysql]: whether it is enabled, and its connection settings. *)
Record MysqlSettings : Type := {
  enabled : bool;
  mysql_config : option DatabaseConfig
}.

(** What [localStorage.getItem('apiConfig')] holds: nothing (null or the
    empty string), a text [JSON.parse] or the reading of [config.mysql]
    throws on, or an object with or without a [mysql] entry. *)
Inductive SavedConfig : Type :=
| NoItem
| Unreadable (error : JsError)
| Parsed (mysql : option MysqlSettings).

(** The test endpoint: the response to the connection settings posted. *)
Definition TestNetwork : Type := DatabaseConfig -> Outcome (Response unit).

(** [testConnection()] *)
Definition testConnection (net : TestNetwork) : Action Service bool :=
  fun this =>
    match config this with
    | None => ret false this
    | Some cfg =>
        tryCatch
          (response <- await (net cfg) ;;
           if ok response then
             result <- await (json response) ;;
             ret (success result)
           else ret false)
          (fun _ => ret false)
          this
    end.

(** [initialize()] of the service *)
Definition initialize (saved : SavedConfig) (net : TestNetwork)
  : Action Service bool :=
  tryCatch
    (match saved with
     | NoItem => ret false
     | Unreadable error => throw error
     | Parsed (Some {| enabled := true; mysql_config := Some cfg |}) =>
         setState
           (fun this =>
              {| config := Some cfg; isConnected := isConnected this |}) ;;;
         testResult <- testConnection net ;;
         setState
           (fun this =>
              {| config := config this; isConnected := testResult |}) ;;;
         ret testResult
     | Parsed _ => ret false
     end)
    (fun _ => ret false).

(** The state of the [DatabaseProvider], and the service object it drives. *)
Record Provider : Type := {
  provider_isConnected : bool;
  isLoading : bool;
  error : option string
}.

Record World : Type := {
  service : Service;
  provider : Provider
}.

Definition onService {A} (m : Action Service A) : Action World A :=
  zoom service (fun this w => {| service := this; provider := provider w |}) m.

Definition onProvider {A} (m : Action Provider A) : Action World A :=
  zoom provider (fun p w => {| service := service w; provider := p |}) m.

Definition setIsConnected (b : bool) : Action World unit :=
  onProvider
    (setState (fun p => {| provider_isConnected := b; isLoading := isLoading p;
                           error := error p |})).

Definition setIsLoading (b : bool) : Action World unit :=
  onProvider
    (setState (fun p => {| provider_isConnected := provider_isConnected p;
                           isLoading := b; error := error p |})).

Definition setError (e : option string) : Action World unit :=
  onProvider
    (setState (fun p => {| provider_isConnected := provider_isConnected p;
                           isLoading := isLoading p; error := e |})).

(** [try { body } finally { cleanup }] *)
Definition tryFinally {S A} (body : Action S A) (cleanup : Action S unit)
  : Action S A :=
  fun s =>
    match body s with
    | (outcome, s') =>
        match cleanup s' with
        | (Returned _, s'') => (outcome, s'')
        | (Threw e, s'') => (Threw e, s'')
        end
    end.

(** [initialize()] of the provider; [reconnect()] is the same call. *)
Definition provider_initialize (saved : SavedConfig) (net : TestNetwork)
  : Action World bool :=
  setIsLoading true ;;;
  setError None ;;;
  tryFinally
    (tryCatch
       (connected <- onService (initialize saved net) ;;
        setIsConnected connected ;;;
        (if negb connected
         then setError
                (Some "Failed to connect to database. Please check your MySQL configuration in Settings.")
         else ret tt) ;;;
        ret connected)
       (fun err =>
          let errorMessage :=
            match err with
            | ErrorObject message => message
            | NonError => "Unknown database error"
            end in
          setError (Some errorMessage) ;;;
          setIsConnected false ;;;
          ret false))
    (setIsLoading false).

Definition reconnect := provider_initialize.

(** The settings the service would connect with. *)
Definition usable (saved : SavedConfig) : option DatabaseConfig :=
  match saved with
  | Parsed (Some {| enabled := true; mysql_config := Some cfg |}) => Some cfg
  | _ => None
  end.

(** The test endpoint accepts the settings. *)
Definition accepts (net : TestNetwork) (cfg : DatabaseConfig) : bool :=
  match net cfg with
  | Returned response =>
      ok response
      && match json response with
         | Returned result => success result
         | Threw _ => false
         end
  | Threw _ => false
  end.

End Connection.

(* ===================================================================== *)
(** * More sample data *)
(* ===================================================================== *)

Module Samples.

Import Js.
Local Open Scope string_scope.

(** [{ name: 'D', phone: '333' }] *)
Definition customerD : Customers.PartialCustomer :=
  {| Customers.p_id := None; Customers.p_name := Some "D";
     Customers.p_phone := Some "333"; Customers.p_email := None;
     Customers.p_address := None; Customers.p_documents := None;
     Customers.p_createdAt := None |}.

(** A store that holds one builder, named "B". *)
Definition oneBuilder : Documents.Store :=
  {| Documents.documents := []; Documents.customers := [];
     Documents.builders := [Examples.builderB] |}.

(** Monday 2 November 2026 at 9:10 (UTC). *)
Definition nov2_2026_9h10 : Date :=
  {| getTime := 1793610600000; getFullYear := 2026; getMonth := 10;
     getDate := 2; dayStart := 1793577600000 |}.

(** A service that is connected, and a network on which every request is
    rejected. *)
Definition connected : DatabaseService.Service :=
  {| DatabaseService.config :=
       Some {| DatabaseService.host := "localhost";
               DatabaseService.port := 3306;
               DatabaseService.database := "om_services";
               DatabaseService.username := "om";
               DatabaseService.password := "secret";
               DatabaseService.ssl := "false" |};
     DatabaseService.isConnected := true |}.

Definition unreachable : DatabaseService.Network unit :=
  fun _ => Threw (ErrorObject "Failed to fetch").

(** [{ status: 'delivered', assignedTo: undefined }] *)
Definition statusOnly : DatabaseOps.Fields :=
  [ ("status", DatabaseService.PString "delivered");
    ("assignedTo", DatabaseService.PUndefined) ].

(** [{ userId: '2', month: 11 }] *)
Definition ofUser2 : DatabaseOps.SalaryFilters :=
  {| DatabaseOps.filter_userId := Some "2";
     DatabaseOps.filter_month := Some 11%Q;
     DatabaseOps.filter_year := None;
     DatabaseOps.filter_status := None |}.

End Samples.

(* ===================================================================== *)
(** * Properties                                                          *)
(* ===================================================================== *)

(** ** Payroll arithmetic *)

Section SalaryFacts.

Import Js Salary.
Local Open Scope num_scope.

Context {num : Type} {arith : Number num}.

Lemma sumOfFirst_app (n : nat) (xs ys : list num) :
  (n <= List.length xs)%nat -> sumOfFirst n (xs ++ ys) = sumOfFirst n xs.
Proof.
  induction n as [|n IH]; intros Hn; simpl.
  - reflexivity.
  - rewrite IH by lia. rewrite app_nth1 by lia. reflexivity.
Qed.

Lemma sigma_last (xs : list num) (x : num) : sigma (xs ++ [x]) = sigma xs + x.
Proof.
  unfold sigma. rewrite length_app, Nat.add_1_r. simpl.
  rewrite sumOfFirst_app by lia.
  rewrite app_nth2, Nat.sub_diag by lia.
  reflexivity.
Qed.

(** [items.reduce((sum, item) => sum + item.amount, 0)] adds the amounts
    from the first to the last, starting from 0. *)
Lemma fold_amounts {A} (amount : A -> num) (items : list A) :
  fold_left (fun sum item => sum + amount item) items (ofInteger 0)
  = sigma (map amount items).
Proof.
  induction items as [|item items IH] using rev_ind.
  - reflexivity.
  - rewrite fold_left_app, map_app.
    change (map amount [item]) with [amount item].
    rewrite sigma_last, <- IH. reflexivity.
Qed.

(** The default arguments: [calculateSalary(config)] is
    [calculateSalary(config, 0, 0)]. *)
Lemma calculateSalary_defaults (config : StaffSalaryConfig num) :
  calculateSalary config None None
  = calculateSalary config (Some (ofInteger 0)) (Some (ofInteger 0)).
Proof. reflexivity. Qed.

(** C1. For every staff salary configuration with base salary [base],
    allowances [A], deductions [D], overtime rate [r], and every number of
    overtime hours [h] and bonus [b], [calculateSalary] returns
    gross = base + sum(A) + h*r + b and net = gross - sum(D), where [+], [-]
    and [*] are the operations of JS numbers, applied from left to right as
    the formula is written, and a sum adds its amounts from the first to the
    last, starting from 0.  The equations hold for all amounts, so in
    particular for non-negative ones. *)
Theorem calculateSalary_gross_net (config : StaffSalaryConfig num)
  (h b : num) :
  let result := calculateSalary config (Some h) (Some b) in
  gross result
  = baseSalary config + sigma (map allowance_amount (allowances config))
    + h * overtimeRate config + b
  /\ net result
     = gross result - sigma (map deduction_amount (deductions config)).
Proof.
  unfold calculateSalary; simpl.
  rewrite !fold_amounts.
  split; reflexivity.
Qed.

End SalaryFacts.

Section SalaryRounding.

Import Js Salary.

(** The equations of C1 are not those of the real numbers: the doubles 0.1
    and 0.2 add up to the double 0.30000000000000004, which is not their
    sum, and taking the double 0.3 from it leaves 5.551115123125783e-17. *)
Lemma calculateSalary_rounds :
  Spec.nonNegative Examples.tenths (ofInteger 0) (ofInteger 0) = true
  /\ calculateSalary Examples.tenths (Some (ofInteger 0)) (Some (ofInteger 0))
     = Examples.tenthsPaid
  /\ ~ Spec.exactGrossNet Examples.tenths (ofInteger 0) (ofInteger 0)
         (calculateSalary Examples.tenths
            (Some (ofInteger 0)) (Some (ofInteger 0))).
Proof.
  split; [reflexivity|]. split; [reflexivity|].
  intros [Hgross _]. vm_compute in Hgross. discriminate Hgross.
Qed.

End SalaryRounding.

(** ** Permission check *)

Section AuthFacts.

Import Auth.
Import Examples.
Local Open Scope string_scope.

(** Nobody signed in: every check fails. *)
Lemma hasPermission_signed_out (module_ action_ : string) :
  hasPermission None module_ action_ = false.
Proof. reflexivity. Qed.

(** C5. For a signed-in user whose role is main_admin, [hasPermission]
    returns true for every (module, action) pair; for a signed-in user of any
    other role it returns true if and only if the permission list of the user
    has an entry with exactly that module and that action whose granted flag
    is true. *)
Theorem hasPermission_spec (user : User) (module_ action_ : string) :
  (role user = "main_admin" ->
   hasPermission (Some user) module_ action_ = true)
  /\ (role user <> "main_admin" ->
      (hasPermission (Some user) module_ action_ = true
       <-> exists p, In p (permissions user)
                     /\ module p = module_
                     /\ action p = action_
                     /\ granted p = true)).
Proof.
  unfold hasPermission. split.
  - intros Hrole. rewrite Hrole. reflexivity.
  - intros Hrole.
    apply String.eqb_neq in Hrole. rewrite Hrole.
    rewrite existsb_exists. split.
    + intros [p [Hin Hp]].
      apply andb_true_iff in Hp. destruct Hp as [Hp Hg].
      apply andb_true_iff in Hp. destruct Hp as [Hm Ha].
      apply String.eqb_eq in Hm. apply String.eqb_eq in Ha.
      exists p. auto.
    + intros [p [Hin [Hm [Ha Hg]]]].
      exists p. split; [exact Hin|].
      rewrite Hm, Ha, Hg, !String.eqb_refl. reflexivity.
Qed.

(** The two mock users of the source: the main admin may delete salary
    records although no entry says so; the challan staff may read documents
    and may not delete them. *)
Lemma hasPermission_spec_witness :
  hasPermission (Some mainAdmin) "salary" "delete" = true
  /\ (hasPermission (Some challanStaff) "documents" "read" = true
      <-> exists p, In p (permissions challanStaff)
                    /\ module p = "documents"
                    /\ action p = "read"
                    /\ granted p = true).
Proof.
  split.
  - apply (proj1 (hasPermission_spec mainAdmin "salary" "delete")).
    reflexivity.
  - apply (proj2 (hasPermission_spec challanStaff "documents" "read")).
    discriminate.
Defined.

Example challanStaff_cannot_delete :
  hasPermission (Some challanStaff) "documents" "delete" = false.
Proof. reflexivity. Qed.

(** A revoked entry ([granted] false) grants nothing. *)
Example revoked_entry_denies :
  hasPermission
    (Some {| id := "3"; email := "s@x"; name := "S"; role := "staff";
             permissions :=
               [ {| permission_id := "1"; module := "tasks"; action := "read";
                    granted := false |} ];
             isActive := true |})
    "tasks" "read" = false.
Proof. reflexivity. Qed.

End AuthFacts.

(** ** Remote-store gateway *)

Section GatewayFacts.

Import Js.
Import DatabaseService.
Local Open Scope string_scope.

Variable R : Type.

(** Whatever the network does, [query] returns and calls [fetch] at most
    once; the log of calls only grows. *)
Lemma query_returns (this : Service) (net : Network R) (sql : string)
  (params : list Param) (calls : list Request) :
  exists result more,
    query this net sql params calls = (Returned result, (calls ++ more)%list)
    /\ (List.length more <= 1)%nat.
Proof.
  unfold query, tryCatch, bind, fetch, await, ret.
  destruct (isConnected this); [destruct (config this) as [cfg|]|].
  - destruct (net _) as [response|e].
    + destruct (ok response).
      * destruct (json response) as [payload|e]; eexists; eexists [_];
          split; try reflexivity; simpl; lia.
      * destruct (text response) as [body|e]; eexists; eexists [_];
          split; try reflexivity; simpl; lia.
    + eexists; eexists [_]; split; try reflexivity; simpl; lia.
  - eexists; exists []; rewrite app_nil_r; split; [reflexivity|simpl; lia].
  - eexists; exists []; rewrite app_nil_r; split; [reflexivity|simpl; lia].
Qed.

(** A disconnected service answers without touching the network. *)
Lemma query_not_connected (this : Service) (net : Network R) (sql : string)
  (params : list Param) (calls : list Request) :
  isConnected this = false \/ config this = None ->
  query this net sql params calls
  = (Returned (failure "Database not connected"), calls).
Proof.
  unfold query, ret.
  intros [H|H]; rewrite H; [reflexivity|].
  destruct (isConnected this); reflexivity.
Qed.

(** C8. For every service state, network behaviour, SQL string and
    parameter list, [query] does not throw: it returns a result after at most
    one network call.  When the gateway detects a failure (not connected,
    [fetch] rejected, response not OK, body unreadable) the result has
    success = false and an error message; otherwise the result is the JSON
    body of the server's OK response, unchanged, so that an error the server
    reports there reaches the caller as the server wrote it. *)
Theorem query_never_throws (this : Service) (net : Network R) (sql : string)
  (params : list Param) :
  exists result calls,
    query this net sql params [] = (Returned result, calls)
    /\ (List.length calls <= 1)%nat
    /\ (Spec.gatewayFailure this net sql params -> Spec.failureReport result)
    /\ (forall payload,
          Spec.serverAnswer this net sql params payload -> result = payload)
    /\ (Spec.gatewayFailure this net sql params
        \/ Spec.serverAnswer this net sql params result).
Proof.
  unfold Spec.gatewayFailure, Spec.serverAnswer, Spec.failureReport,
    Spec.queryRequest, query, tryCatch, bind, fetch, await, ret.
  destruct (isConnected this) eqn:Hc; [destruct (config this) as [cfg|] eqn:Hcfg|].
  - destruct (net _) as [response|e] eqn:Hnet.
    + destruct (ok response) eqn:Hok.
      * destruct (json response) as [payload|e] eqn:Hjson.
        -- exists payload; eexists; split; [reflexivity|].
           split; [simpl; lia|]. split; [intros []|]. split.
           ++ intros p (cfg' & r' & _ & Hcfg' & Hnet' & _ & Hjson').
              injection Hcfg' as <-. rewrite Hnet in Hnet'.
              injection Hnet' as <-. rewrite Hjson in Hjson'.
              injection Hjson' as <-. reflexivity.
           ++ right. exists cfg, response. auto.
        -- eexists; eexists; split; [reflexivity|].
           split; [simpl; lia|]. split.
           { intros _. simpl. split; [reflexivity|]. eexists; reflexivity. }
           split; [|left; exact I].
           intros p (cfg' & r' & _ & Hcfg' & Hnet' & _ & Hjson').
           injection Hcfg' as <-. rewrite Hnet in Hnet'.
           injection Hnet' as <-. rewrite Hjson in Hjson'. discriminate.
      * destruct (text response) as [body|e]; eexists; eexists;
          (split; [reflexivity|]); (split; [simpl; lia|]);
          (split; [intros _; simpl; split; [reflexivity|eexists; reflexivity]|]);
          (split; [|left; exact I]);
          intros p (cfg' & r' & _ & Hcfg' & Hnet' & Hok' & _);
          injection Hcfg' as <-; rewrite Hnet in Hnet';
          injection Hnet' as <-; rewrite Hok in Hok'; discriminate.
    + eexists; eexists; split; [reflexivity|].
      split; [simpl; lia|]. split.
      { intros _. simpl. split; [reflexivity|]. eexists; reflexivity. }
      split; [|left; exact I].
      intros p (cfg' & r' & _ & Hcfg' & Hnet' & _).
      injection Hcfg' as <-. rewrite Hnet in Hnet'. discriminate.
  - eexists; eexists; split; [reflexivity|].
    split; [simpl; lia|]. split.
    { intros _. simpl. split; [reflexivity|]. eexists; reflexivity. }
    split; [|left; exact I].
    intros p (cfg' & r' & _ & Hcfg' & _). discriminate.
  - eexists; eexists; split; [reflexivity|].
    split; [simpl; lia|]. split.
    { intros _. simpl. split; [reflexivity|]. eexists; reflexivity. }
    split; [|left; exact I].
    intros p (cfg' & r' & Hc' & _). discriminate.
Qed.

End GatewayFacts.

(** ** Strings and decimal numerals *)

Section StringFacts.

Import Js.
Local Open Scope string_scope.

Lemma string_of_uint_length (d : Decimal.uint) :
  length (NilEmpty.string_of_uint d) = Decimal.nb_digits d.
Proof. induction d; simpl; congruence. Qed.

(** A numeral of at most two digits denotes a number below 100. *)
Lemma two_digits_below_100 (d : Decimal.uint) :
  (Decimal.nb_digits d <= 2)%nat -> (Nat.of_uint d < 100)%nat.
Proof.
  intros H.
  destruct d as [|d|d|d|d|d|d|d|d|d|d]; try (vm_compute; lia);
    destruct d as [|d|d|d|d|d|d|d|d|d|d]; try (vm_compute; lia);
    destruct d; try (vm_compute; lia);
    simpl in H; lia.
Qed.

Lemma natToString_long (n : nat) :
  (100 <= n)%nat -> (3 <= length (natToString n))%nat.
Proof.
  intros Hn. unfold natToString. rewrite string_of_uint_length.
  destruct (Nat.le_gt_cases 3 (Decimal.nb_digits (Nat.to_uint n))) as [H|H];
    [exact H|].
  assert (Hlt : (Nat.of_uint (Nat.to_uint n) < 100)%nat)
    by (apply two_digits_below_100; lia).
  rewrite DecimalNat.Unsigned.of_to in Hlt. lia.
Qed.

Lemma padStart_long (n : nat) (fill s : string) :
  (n <= length s)%nat -> padStart n fill s = s.
Proof.
  intros H. unfold padStart.
  replace (n - length s)%nat with 0%nat by lia. reflexivity.
Qed.

Lemma pad3_below_100 :
  forallb (fun n => padStart 3 "0" (natToString n) =? Spec.pad3 n) (seq 0 100)
  = true.
Proof. vm_compute. reflexivity. Qed.

(** [padStart(3, '0')] on a count is the zero-padding to three digits. *)
Lemma padStart_pad3 (n : nat) : padStart 3 "0" (natToString n) = Spec.pad3 n.
Proof.
  destruct (Nat.lt_ge_cases n 100) as [H|H].
  - apply String.eqb_eq.
    apply (proj1 (forallb_forall _ _) pad3_below_100 n).
    apply in_seq. lia.
  - rewrite padStart_long by (apply natToString_long; exact H).
    unfold Spec.pad3.
    destruct (Nat.ltb_spec n 10); [lia|].
    destruct (Nat.ltb_spec n 100); [lia|]. reflexivity.
Qed.

(** Up to 999 the sequence number has exactly three characters. *)
Lemma pad3_three_characters (n : nat) :
  (n < 1000)%nat -> length (Spec.pad3 n) = 3%nat.
Proof.
  intros H.
  assert (Hall : forallb (fun k => (length (Spec.pad3 k) =? 3)%nat) (seq 0 1000)
                 = true) by (vm_compute; reflexivity).
  apply Nat.eqb_eq.
  apply (proj1 (forallb_forall _ _) Hall n).
  apply in_seq. lia.
Qed.

Lemma typePrefix_computed (type : Documents.DocumentType) :
  replace "_" "" (toUpperCase (Documents.typeLiteral type))
  = Spec.typePrefix type.
Proof. destruct type; reflexivity. Qed.

Lemma sameType_eq (a b : option Documents.DocumentType) :
  Documents.sameType a b = true <-> a = b.
Proof.
  destruct a as [[]|], b as [[]|]; simpl; split; intros H;
    try reflexivity; try discriminate.
Qed.

Example replace_first_only : replace "_" "" "A_B_C" = "AB_C".
Proof. reflexivity. Qed.

Example padStart_examples :
  padStart 3 "0" "7" = "007" /\ padStart 3 "0" "1234" = "1234"
  /\ padStart 5 "ab" "x" = "ababx".
Proof. repeat split; reflexivity. Qed.

Example includes_examples :
  includes (toLowerCase "ABC Builders Pvt Ltd") (toLowerCase "abc builders")
  = true
  /\ includes "abc" "" = true /\ includes "abc" "bd" = false.
Proof. repeat split; reflexivity. Qed.

End StringFacts.

(** ** Document numbers *)

Section DocumentNumberFacts.

Import Js.
Import Documents.
Import Examples.
Local Open Scope string_scope.

Variable db : Remote.
Variable dbCustomers : Customers.Remote.
Variable dbBuilders : Builders.Remote.

(** C2, as the code has it.  For every document type T, when n documents of
    type T exist in the store, whatever the year of their creation,
    [generateDocumentNumber(T)] returns "{T_PREFIX}/{Y}/{n+1}" where Y is the
    current year, the sequence number is padded with zeros to three digits,
    and T_PREFIX is T in upper case without its underscore. *)
Theorem generateDocumentNumber_counts_type (view : Store) (now : Date)
  (type : DocumentType) :
  generateDocumentNumber view now type
  = Spec.numberAfter type (getFullYear now)
      (Spec.countOfType type (documents view)).
Proof.
  unfold generateDocumentNumber, Spec.numberAfter, Spec.countOfType.
  rewrite typePrefix_computed, padStart_pad3. reflexivity.
Qed.

(** C2 as stated fails: the store holds one agreement, created in 2025, and
    none created in the current year 2026; the number generated is
    "AGREEMENT/2026/002", not "AGREEMENT/2026/001". *)
Lemma generateDocumentNumber_ignores_year :
  Spec.countOfTypeInYear agreement 2026 (documents lastYearStore) = 0%nat
  /\ generateDocumentNumber lastYearStore nov2_2026_10h agreement
     = "AGREEMENT/2026/002"
  /\ generateDocumentNumber lastYearStore nov2_2026_10h agreement
     <> Spec.numberAfter agreement (getFullYear nov2_2026_10h)
          (Spec.countOfTypeInYear agreement (getFullYear nov2_2026_10h)
             (documents lastYearStore)).
Proof.
  split; [reflexivity|]. split; [reflexivity|].
  vm_compute. discriminate.
Qed.

(** When every document of the type was created in the current year, the two
    counts agree and the number is the one C2 states. *)
Lemma countOfTypeInYear_all (type : DocumentType) (year : Z)
  (docs : list Document) :
  Forall (fun d => Spec.ofType type d = true -> getFullYear (createdAt d) = year)
    docs ->
  Spec.countOfTypeInYear type year docs = Spec.countOfType type docs.
Proof.
  unfold Spec.countOfTypeInYear, Spec.countOfType.
  induction 1 as [|d docs Hd _ IH]; simpl; [reflexivity|].
  destruct (Spec.ofType type d) eqn:Ht; simpl.
  - rewrite (Hd eq_refl), Z.eqb_refl. simpl. congruence.
  - exact IH.
Qed.

Example sale_deed_number :
  generateDocumentNumber emptyStore nov2_2026_10h sale_deed
  = "SALEDEED/2026/001".
Proof. reflexivity. Qed.

End DocumentNumberFacts.

(** ** Lists *)

Section ListFacts.

Context {A : Type}.

Lemma find_map_stable (p : A -> bool) (f : A -> A) (l : list A) :
  (forall x, p (f x) = p x) ->
  find p (map f l) = option_map f (find p l).
Proof.
  intros Hp. induction l as [|x l IH]; simpl; [reflexivity|].
  rewrite Hp. destruct (p x); [reflexivity|exact IH].
Qed.

Lemma find_app_none (p : A -> bool) (l l' : list A) :
  find p l = None -> find p (l ++ l') = find p l'.
Proof.
  induction l as [|x l IH]; simpl; [reflexivity|].
  destruct (p x); [discriminate|exact IH].
Qed.

Lemma find_app_some (p : A -> bool) (l l' : list A) (x : A) :
  find p l = Some x -> find p (l ++ l') = Some x.
Proof.
  induction l as [|y l IH]; simpl; [discriminate|].
  destruct (p y); [trivial|exact IH].
Qed.

(** With pairwise distinct keys, the search for the key of a member finds
    that member. *)
Lemma find_by_key (key : A -> string) (l : list A) (c : A) :
  NoDup (map key l) -> In c l ->
  find (fun x => String.eqb (key x) (key c)) l = Some c.
Proof.
  induction l as [|x l IH]; simpl; intros Hnd Hin; [contradiction|].
  inversion Hnd as [|k ks Hnotin Hnd']; subst.
  destruct Hin as [->|Hin].
  - rewrite String.eqb_refl. reflexivity.
  - destruct (String.eqb_spec (key x) (key c)) as [Heq|_].
    + exfalso. apply Hnotin. rewrite Heq. apply in_map. exact Hin.
    + apply IH; assumption.
Qed.

Lemma NoDup_snoc (xs : list A) (x : A) :
  NoDup xs -> ~ In x xs -> NoDup (xs ++ [x]).
Proof.
  intros Hnd Hin. induction Hnd as [|y ys Hy _ IH]; simpl.
  - constructor; [intros []|constructor].
  - constructor.
    + rewrite in_app_iff. simpl. intros [H|[H|[]]]; [contradiction|].
      apply Hin. left. symmetry. exact H.
    + apply IH. intros H. apply Hin. right. exact H.
Qed.

End ListFacts.

(** ** The customer/builder linker *)

Section LinkerFacts.

Import Js Documents Examples.
Local Open Scope string_scope.

Variable db : Remote.
Variable dbCustomers : Customers.Remote.
Variable dbBuilders : Builders.Remote.

Lemma arrayIncludes_In (xs : list string) (x : string) :
  arrayIncludes xs x = true <-> In x xs.
Proof.
  unfold arrayIncludes. rewrite existsb_exists. split.
  - intros [y [Hin Heq]]. apply String.eqb_eq in Heq. subst. exact Hin.
  - intros Hin. exists x. split; [exact Hin|apply String.eqb_refl].
Qed.

Lemma truthy_spread (o : option string) :
  truthyString (spread o (orString o "")) = truthyString (orString o "").
Proof. destruct o as [[|c r]|]; reflexivity. Qed.

Lemma truthy_nonempty (s : string) : s <> "" -> truthyString s = true.
Proof. destruct s; [congruence|reflexivity]. Qed.

(** *** Actions that leave the customers alone *)

Lemma keeps_ret {A} (a : A) : Spec.keepsCustomers (ret a).
Proof. intros s. reflexivity. Qed.

Lemma keeps_throw {A} (e : JsError) : Spec.keepsCustomers (@throw Store A e).
Proof. intros s. reflexivity. Qed.

Lemma keeps_bind {A B} (m : Action Store A) (k : A -> Action Store B) :
  Spec.keepsCustomers m -> (forall a, Spec.keepsCustomers (k a)) ->
  Spec.keepsCustomers (bind m k).
Proof.
  intros Hm Hk s. unfold bind. specialize (Hm s).
  destruct (m s) as [[a|e] s']; simpl in *.
  - rewrite Hk. exact Hm.
  - exact Hm.
Qed.

Lemma keeps_onBuilders {A} (m : Action (list Builders.Builder) A) :
  Spec.keepsCustomers (onBuilders m).
Proof.
  intros s. unfold onBuilders, zoom. destruct (m (builders s)). reflexivity.
Qed.

Lemma keeps_onDocuments {A} (m : Action (list Document) A) :
  Spec.keepsCustomers (onDocuments m).
Proof.
  intros s. unfold onDocuments, zoom. destruct (m (documents s)). reflexivity.
Qed.

Lemma keeps_if {A} (b : bool) (m1 m2 : Action Store A) :
  Spec.keepsCustomers m1 -> Spec.keepsCustomers m2 ->
  Spec.keepsCustomers (if b then m1 else m2).
Proof. destruct b; trivial. Qed.

Lemma keeps_match_option {A B} (o : option B) (f : B -> Action Store A)
  (m : Action Store A) :
  (forall b, Spec.keepsCustomers (f b)) -> Spec.keepsCustomers m ->
  Spec.keepsCustomers (match o with Some b => f b | None => m end).
Proof. destruct o; trivial. Qed.

Create HintDb frame.
#[local] Hint Resolve keeps_ret keeps_throw keeps_bind keeps_onBuilders
  keeps_onDocuments keeps_if keeps_match_option : frame.

(** What follows a step cannot change the customers when it keeps them. *)
Lemma customers_after {A B} (m : Action Store A) (k : A -> Action Store B)
  (s : Store) :
  (forall a, Spec.keepsCustomers (k a)) ->
  customers (snd (bind m k s)) = customers (snd (m s)).
Proof.
  intros Hk. unfold bind. destruct (m s) as [[a|e] s']; simpl.
  - apply Hk.
  - reflexivity.
Qed.

Lemma customers_onCustomers {A} (m : Action (list Customers.Customer) A)
  (s : Store) :
  customers (snd (onCustomers m s)) = snd (m (customers s)).
Proof.
  unfold onCustomers, zoom. destruct (m (customers s)). reflexivity.
Qed.

(** The customers after a local [createDocument] that names a customer. *)
Lemma createLocal_customers (s : Store) (now : Date) (data : PartialDocument)
  (p : string) :
  Spec.namesCustomer data p -> p <> "" ->
  customers (snd (Spec.createLocal db dbCustomers dbBuilders now data s))
  = match Customers.getCustomerByPhone (customers s) p with
    | Some c =>
        snd (Customers.addDocumentToCustomer (customers s) false dbCustomers
               (Customers.id c) (Spec.newDocumentId now data) (customers s))
    | None =>
        (customers s ++
         [ {| Customers.id := Customers.generateCustomerId (customers s);
              Customers.name := spread (p_customerName data) "";
              Customers.phone := p;
              Customers.email := p_customerEmail data;
              Customers.address :=
                spread (p_propertyDetails data)
                  (orString (p_propertyDetails data) "");
              Customers.documents := [Spec.newDocumentId now data];
              Customers.createdAt := now |} ])%list
    end.
Proof.
  intros (Hphone & Hname & Htype) Hp.
  unfold Spec.createLocal, run, createDocument, numberFor, Spec.newDocumentId.
  cbv beta iota zeta.
  unfold bind at 1.
  destruct (p_documentType data) as [type|] eqn:Hty; [clear Htype|congruence].
  assert (Hnum : exists number,
             match p_documentNumber data with
             | Some (String c0 r) => @ret Store _ (String c0 r)
             | _ => ret (generateDocumentNumber s now type)
             end s = (Returned number, s)).
  { destruct (p_documentNumber data) as [[|c0 r]|]; eexists; reflexivity. }
  destruct Hnum as [number ->].
  cbn [customerName customerPhone builderName id propertyDetails customerEmail].
  rewrite truthy_spread, Hname, Hphone.
  cbn [spread]. rewrite (truthy_nonempty p Hp). cbn [andb].
  rewrite customers_after by auto 10 with frame.
  unfold getCustomerByPhone.
  destruct (Customers.getCustomerByPhone (customers s) p) as [c|] eqn:Hfind.
  - apply customers_onCustomers.
  - rewrite customers_after by auto with frame.
    rewrite customers_onCustomers.
    unfold createCustomer, Customers.createCustomer. cbn.
    destruct (p_customerName data) as [[|c0 r]|]; try discriminate. 
    destruct p; [congruence|]. reflexivity.
Qed.


(** *** [addDocumentToCustomer] in local mode *)

Lemma addDocumentToCustomer_present (isConnected : bool)
  (cs : list Customers.Customer)
  (customerId documentId : string) (c : Customers.Customer)
  (current : list Customers.Customer) :
  Customers.getCustomer cs customerId = Some c ->
  In documentId (Customers.documents c) ->
  Customers.addDocumentToCustomer cs isConnected dbCustomers customerId
    documentId current
  = (Returned tt, current).
Proof.
  intros Hget Hin. unfold Customers.addDocumentToCustomer.
  rewrite Hget. apply arrayIncludes_In in Hin. rewrite Hin. reflexivity.
Qed.

Lemma addDocumentToCustomer_absent (cs : list Customers.Customer)
  (customerId documentId : string) (current : list Customers.Customer) :
  Customers.getCustomer cs customerId = None ->
  Customers.addDocumentToCustomer cs false dbCustomers customerId documentId
    current
  = (Returned tt, current).
Proof.
  intros Hget. unfold Customers.addDocumentToCustomer.
  rewrite Hget. reflexivity.
Qed.

Lemma addDocumentToCustomer_new (cs : list Customers.Customer)
  (customerId documentId : string) (c : Customers.Customer)
  (current : list Customers.Customer) :
  Customers.getCustomer cs customerId = Some c ->
  ~ In documentId (Customers.documents c) ->
  Customers.addDocumentToCustomer cs false dbCustomers customerId documentId
    current
  = (Returned tt,
     map (fun customer =>
            if Customers.id customer =? customerId
            then Customers.merge customer
                   {| Customers.p_id := None; Customers.p_name := None;
                      Customers.p_phone := None; Customers.p_email := None;
                      Customers.p_address := None;
                      Customers.p_documents :=
                        Some (Customers.documents c ++ [documentId])%list;
                      Customers.p_createdAt := None |}
            else customer)
       current).
Proof.
  intros Hget Hin. unfold Customers.addDocumentToCustomer.
  rewrite Hget.
  destruct (arrayIncludes (Customers.documents c) documentId) eqn:Hinc.
  - apply arrayIncludes_In in Hinc. contradiction.
  - reflexivity.
Qed.

(** The search by phone after any [addDocumentToCustomer]: the same customer,
    with its list possibly changed. *)
Lemma phone_found_after_link (cs : list Customers.Customer)
  (customerId documentId phone_ : string) (c : Customers.Customer) :
  Customers.getCustomerByPhone cs phone_ = Some c ->
  let cs' :=
    snd (Customers.addDocumentToCustomer cs false dbCustomers customerId
           documentId cs) in
  List.length cs' = List.length cs
  /\ exists c', Customers.getCustomerByPhone cs' phone_ = Some c'.
Proof.
  intros Hfind. cbv zeta.
  destruct (Customers.getCustomer cs customerId) as [t|] eqn:Hget.
  - destruct (in_dec string_dec documentId (Customers.documents t)) as [Hin|Hin].
    + rewrite (addDocumentToCustomer_present _ _ _ _ _ _ Hget Hin). simpl. eauto.
    + rewrite (addDocumentToCustomer_new _ _ _ _ _ Hget Hin). simpl.
      split; [apply length_map|].
      unfold Customers.getCustomerByPhone, find in *.
      rewrite find_map_stable, Hfind; [simpl; eauto|].
      intros x. destruct (Customers.id x =? customerId); reflexivity.
  - rewrite (addDocumentToCustomer_absent _ _ _ _ Hget). simpl. eauto.
Qed.

(** C4, as the code has it.  In local mode, for every store state, two
    documents that both name a customer (non-empty customerName), a document
    type and the same non-empty customerPhone are created one after the
    other.  Provided the customer IDs of the store are pairwise distinct when
    the second call starts and the ID of the second document is not yet in the
    list of the customer found by the phone, the second call creates no
    Customer, the two calls create at most one, and the second call appends
    the ID of its document to the documents list of that customer. *)
Theorem second_document_links_customer (s : Store) (phone_ : string)
  (now1 now2 : Date) (data1 data2 : PartialDocument) :
  phone_ <> "" ->
  Spec.namesCustomer data1 phone_ ->
  Spec.namesCustomer data2 phone_ ->
  let s1 := snd (Spec.createLocal db dbCustomers dbBuilders now1 data1 s) in
  NoDup (map Customers.id (customers s1)) ->
  (forall c, Customers.getCustomerByPhone (customers s1) phone_ = Some c ->
             ~ In (Spec.newDocumentId now2 data2) (Customers.documents c)) ->
  Spec.linkedOnce db dbCustomers dbBuilders s phone_ now1 data1 now2 data2.
Proof.
  intros Hp H1 H2 s1 Hnd Hfresh. unfold Spec.linkedOnce. fold s1.
  assert (Hfirst :
            (List.length (customers s1) <= List.length (customers s) + 1)%nat
            /\ exists c, Customers.getCustomerByPhone (customers s1) phone_
                         = Some c).
  { unfold s1. rewrite (createLocal_customers s now1 data1 phone_ H1 Hp).
    destruct (Customers.getCustomerByPhone (customers s) phone_) as [c|] eqn:Hf.
    - destruct (phone_found_after_link (customers s) (Customers.id c)
                  (Spec.newDocumentId now1 data1) phone_ c Hf) as [Hlen Hex].
      split; [lia|exact Hex].
    - split; [rewrite length_app; simpl; lia|].
      eexists. unfold Customers.getCustomerByPhone, find in *.
      rewrite find_app_none by exact Hf.
      simpl. rewrite String.eqb_refl. reflexivity. }
  destruct Hfirst as [Hlen [c Hc]].
  assert (Hin : In c (customers s1)).
  { unfold Customers.getCustomerByPhone, find in Hc.
    apply find_some in Hc. tauto. }
  assert (Hget : Customers.getCustomer (customers s1) (Customers.id c) = Some c).
  { unfold Customers.getCustomer, find. apply find_by_key; assumption. }
  rewrite (createLocal_customers s1 now2 data2 phone_ H2 Hp), Hc.
  rewrite (addDocumentToCustomer_new _ _ _ _ _ Hget (Hfresh c Hc)). simpl.
  split; [apply length_map|]. split; [exact Hlen|].
  exists c. split; [reflexivity|].
  unfold Customers.getCustomerByPhone, find in *.
  rewrite find_map_stable, Hc.
  - simpl. rewrite String.eqb_refl. reflexivity.
  - intros x. destruct (Customers.id x =? Customers.id c); reflexivity.
Qed.

(** C4 as stated fails: from the empty store, the first document names
    customer "A" with phone "123" and the second has the same phone and no
    customerName; the second call links nothing, and the customer keeps the
    one document it had. *)
Lemma unnamed_customer_not_linked :
  let first := request (Some "A") (Some "123") (Some "B") agreement in
  let second := request None (Some "123") (Some "B") agreement in
  p_customerPhone first = p_customerPhone second
  /\ ~ Spec.linkedOnce documentsOffline customersOffline buildersOffline
         emptyStore "123" nov2_2026_10h first nov2_2026_10h_01s second.
Proof.
  split; [reflexivity|].
  unfold Spec.linkedOnce.
  intros (_ & _ & c & Hc1 & Hc2).
  vm_compute in Hc1. vm_compute in Hc2.
  injection Hc1 as <-. discriminate Hc2.
Qed.

End LinkerFacts.

Section LinkerWitness.

Import Js Documents Examples.
Local Open Scope string_scope.

(** From the empty store: an agreement and then a sale deed for the customer
    with phone "123". *)
Lemma second_document_links_customer_witness :
  Spec.linkedOnce documentsOffline customersOffline buildersOffline
    emptyStore "123" nov2_2026_10h
    (request (Some "A") (Some "123") (Some "B") agreement)
    nov2_2026_10h_01s
    (request (Some "A") (Some "123") (Some "B") sale_deed).
Proof.
  apply (second_document_links_customer documentsOffline customersOffline
           buildersOffline).
  - discriminate.
  - repeat split; discriminate.
  - repeat split; discriminate.
  - vm_compute. repeat constructor. intros [].
  - intros c Hc. vm_compute in Hc. injection Hc as <-. vm_compute.
    intros [H|[]]. discriminate H.
Defined.

(** Two calls made from the closures of one render, with no render in
    between: the second call still sees the customers without the one the
    first call added, and adds a second Customer for the phone. *)
Example stale_closure_two_customers :
  let first := request (Some "A") (Some "123") (Some "B") agreement in
  let second := request (Some "A") (Some "123") (Some "B") sale_deed in
  let create data now :=
    createDocument emptyStore false documentsOffline customersOffline
      buildersOffline now data in
  map Customers.phone
    (customers
       (snd (create second nov2_2026_10h_01s
               (snd (create first nov2_2026_10h emptyStore)))))
  = ["123"; "123"].
Proof. vm_compute. reflexivity. Qed.

(** Customer IDs that collide: after a deletion the generated ID repeats the
    ID of another customer, and the link of the second document goes by that
    ID: the customer of the phone loses its first document and the other
    customer gets the second one. *)
Example colliding_ids_misroute_link :
  let first := request (Some "A") (Some "333") None agreement in
  let second := request (Some "A") (Some "333") None sale_deed in
  let s1 := snd (Spec.createLocal documentsOffline customersOffline
                   buildersOffline nov2_2026_10h first afterDeletion) in
  let s2 := snd (Spec.createLocal documentsOffline customersOffline
                   buildersOffline nov2_2026_10h_01s second s1) in
  map (fun c => (Customers.id c, Customers.phone c, Customers.documents c))
    (customers s1)
  = [("CUST002", "222", []); ("CUST002", "333", ["DOC1793613600000"])]
  /\ map (fun c => (Customers.id c, Customers.phone c, Customers.documents c))
       (customers s2)
     = [("CUST002", "222", ["DOC1793613601000"]);
        ("CUST002", "333", ["DOC1793613601000"])].
Proof. split; vm_compute; reflexivity. Qed.

End LinkerWitness.

(** ** Creating the first document *)

Section ScenarioFacts.

Import Js Documents Examples.
Local Open Scope string_scope.

Variable db : Remote.
Variable dbCustomers : Customers.Remote.
Variable dbBuilders : Builders.Remote.

(** C3. From empty document, customer and builder stores, in local mode,
    [createDocument({customerName: "A", customerPhone: "123", builderName:
    "B", documentType: "agreement"})] returns a document whose number is
    "AGREEMENT/<currentYear>/001" and whose status is pending_collection;
    afterwards the customer store holds exactly one Customer, with name "A"
    and phone "123", and the builder store exactly one Builder, with name
    "B"; both are linked to the new document. *)
Theorem createDocument_first_document (now : Date) :
  exists doc customer builder,
    Spec.createLocal db dbCustomers dbBuilders now
      (request (Some "A") (Some "123") (Some "B") agreement) emptyStore
    = (Returned (Some doc),
       {| documents := [doc]; customers := [customer]; builders := [builder] |})
    /\ documentNumber doc
       = "AGREEMENT/" ++ intToString (getFullYear now) ++ "/001"
    /\ status doc = pending_collection
    /\ customerName doc = "A" /\ customerPhone doc = "123"
    /\ builderName doc = "B" /\ documentType doc = Some agreement
    /\ Customers.name customer = "A"
    /\ Customers.phone customer = "123"
    /\ Customers.id customer = "CUST001"
    /\ Customers.documents customer = [id doc]
    /\ Builders.name builder = "B"
    /\ Builders.id builder = "BLD001"
    /\ Builders.documents builder = [id doc].
Proof.
  do 3 eexists. split; [cbv; reflexivity|].
  repeat split; reflexivity.
Qed.

Example first_document_number_2026 :
  option_map documentNumber
    match fst (Spec.createLocal documentsOffline customersOffline
                 buildersOffline nov2_2026_10h
                 (request (Some "A") (Some "123") (Some "B") agreement)
                 emptyStore) with
    | Returned doc => doc
    | Threw _ => None
    end
  = Some "AGREEMENT/2026/001".
Proof. vm_compute. reflexivity. Qed.

(** Without a number and without a type the call throws and the stores stay
    as they were. *)
Lemma createDocument_without_type (now : Date) (s : Store) :
  exists e,
    Spec.createLocal db dbCustomers dbBuilders now noFields s = (Threw e, s).
Proof. eexists. reflexivity. Qed.

End ScenarioFacts.

(** ** Document status *)

Section StatusFacts.

Import Js Documents Examples.
Local Open Scope string_scope.

Variable db : Remote.

Lemma updateStatusLocal_eq (now : Date) (id_ : string)
  (status_ : DocumentStatus) (docs : list Document) :
  Spec.updateStatusLocal db now id_ status_ docs
  = (Returned tt,
     map (fun doc => if id doc =? id_ then Spec.withStatus doc status_ now
                     else doc) docs).
Proof. reflexivity. Qed.

(** In connected mode the store forwards the status to the gateway: the call
    returns when the gateway reports success and throws otherwise, whatever
    the statuses are. *)
Lemma updateStatus_connected (view : Store) (now : Date) (id_ : string)
  (status_ : DocumentStatus) (docs : list Document) :
  let result := db_updateDocument db id_ (Spec.statusOnly status_) in
  fst (updateStatus view true db now id_ status_ docs)
  = if DatabaseService.success result then Returned tt
    else Threw (ErrorObject
                  (orString (DatabaseService.error result)
                     "Failed to update document")).
Proof.
  cbv zeta. unfold updateStatus, updateDocument, bind.
  change (db_updateDocument db id_ _)
    with (db_updateDocument db id_ (Spec.statusOnly status_)).
  destruct (DatabaseService.success _); [|reflexivity].
  unfold loadDocumentsFromDatabase. simpl.
  destruct (DatabaseService.success _); [|reflexivity].
  destruct (DatabaseService.data _); reflexivity.
Qed.

(** After a successful write in connected mode the store is what the reload
    gives, and is left as it was when the reload fails. *)
Lemma updateStatus_connected_store (view : Store) (now : Date) (id_ : string)
  (status_ : DocumentStatus) (docs : list Document) :
  DatabaseService.success (db_updateDocument db id_ (Spec.statusOnly status_))
  = true ->
  snd (updateStatus view true db now id_ status_ docs)
  = match DatabaseService.success (db_getDocuments db),
          DatabaseService.data (db_getDocuments db) with
    | true, Some rows => map rowToDocument rows
    | _, _ => docs
    end.
Proof.
  intros Hok. unfold updateStatus, updateDocument, bind.
  change (db_updateDocument db id_ _)
    with (db_updateDocument db id_ (Spec.statusOnly status_)).
  rewrite Hok. unfold loadDocumentsFromDatabase. simpl.
  destruct (DatabaseService.success (db_getDocuments db)); [|reflexivity].
  destruct (DatabaseService.data (db_getDocuments db)); reflexivity.
Qed.

(** C9, as the code has it.  In local mode, for every document present in the
    store, whatever its current status, and every status value,
    [updateStatus] returns, and afterwards the document carries the new
    status (only its status and update time changed), as does every document
    with that ID; the number of documents is unchanged.  In connected mode
    the store compares no statuses either, but the outcome is the gateway's:
    when the gateway accepts the write the call returns and the store holds
    what the reload gives (it is left as it was when the reload fails); when
    the gateway refuses, the call throws and the store is left as it was. *)
Theorem updateStatus_any_transition (docs : list Document) (doc : Document)
  (status_ : DocumentStatus) (now : Date) :
  In doc docs ->
  let after := Spec.updateStatusLocal db now (id doc) status_ docs in
  Spec.transitionDone after (id doc) status_
  /\ In (Spec.withStatus doc status_ now) (snd after)
  /\ (forall d, In d (snd after) -> id d = id doc -> status d = status_)
  /\ List.length (snd after) = List.length docs
  /\ (forall view,
        let result := db_updateDocument db (id doc) (Spec.statusOnly status_) in
        let call := updateStatus view true db now (id doc) status_ docs in
        (DatabaseService.success result = true ->
         fst call = Returned tt
         /\ snd call
            = match DatabaseService.success (db_getDocuments db),
                    DatabaseService.data (db_getDocuments db) with
              | true, Some rows => map rowToDocument rows
              | _, _ => docs
              end)
        /\ (DatabaseService.success result = false ->
            call
            = (Threw (ErrorObject
                        (orString (DatabaseService.error result)
                           "Failed to update document")),
               docs))).
Proof.
  intros Hin. cbv zeta. unfold Spec.transitionDone.
  rewrite updateStatusLocal_eq. simpl.
  set (f := fun d : Document =>
              if id d =? id doc then Spec.withStatus d status_ now else d).
  assert (Hf : f doc = Spec.withStatus doc status_ now)
    by (unfold f; rewrite String.eqb_refl; reflexivity).
  assert (Hall : forall d, In d (map f docs) -> id d = id doc ->
                           status d = status_).
  { intros d Hd Hid. apply in_map_iff in Hd. destruct Hd as [x [<- _]].
    unfold f in *. destruct (id x =? id doc) eqn:Hx; [reflexivity|].
    simpl in Hid. apply String.eqb_neq in Hx. contradiction. }
  split; [split; [reflexivity|]|].
  { unfold getDocument, find. simpl.
    destruct (List.find (fun d => id d =? id doc) (map f docs)) as [d|] eqn:Hfind.
    + exists d. split; [reflexivity|].
      apply find_some in Hfind. destruct Hfind as [Hd Hid].
      apply String.eqb_eq in Hid. apply Hall; assumption.
    + exfalso.
      assert (Hnone := find_none _ _ Hfind (f doc) (in_map f docs doc Hin)).
      rewrite Hf in Hnone. simpl in Hnone. rewrite String.eqb_refl in Hnone.
      discriminate. }
  split; [rewrite <- Hf; apply in_map; exact Hin|].
  split; [exact Hall|]. split; [apply length_map|].
  intros view. split.
  - intros Hok. split.
    + rewrite (updateStatus_connected view now (id doc) status_ docs).
      cbv zeta. rewrite Hok. reflexivity.
    + apply updateStatus_connected_store. exact Hok.
  - intros Hno. unfold updateStatus, updateDocument, bind.
    change (db_updateDocument db (id doc) _)
      with (db_updateDocument db (id doc) (Spec.statusOnly status_)).
    rewrite Hno. reflexivity.
Qed.

End StatusFacts.

Section StatusWitness.

Import Js Documents Examples.
Local Open Scope string_scope.

(** A delivered document goes back to pending_collection. *)
Lemma updateStatus_any_transition_witness :
  let after :=
    Spec.updateStatusLocal documentsOffline nov2_2026_10h "7"
      pending_collection [lastYearAgreement] in
  fst after = Returned tt
  /\ In (Spec.withStatus lastYearAgreement pending_collection nov2_2026_10h)
       (snd after)
  /\ (forall d, In d (snd after) -> id d = "7" -> status d = pending_collection).
Proof.
  destruct (updateStatus_any_transition documentsOffline [lastYearAgreement]
              lastYearAgreement pending_collection nov2_2026_10h)
    as ((H1 & _) & H2 & H3 & _).
  - simpl. left. reflexivity.
  - cbv zeta. split; [exact H1|]. split; [exact H2|exact H3].
Defined.

(** C9 as stated fails in connected mode: when the gateway refuses the write
    (here it answers 'Database not connected'), [updateStatus] throws and the
    delivered document keeps its status. *)
Lemma updateStatus_connected_refused :
  updateStatus (Calls.storeOf [lastYearAgreement]) true documentsOffline
    nov2_2026_10h "7" pending_collection [lastYearAgreement]
  = (Threw (ErrorObject "Database not connected"), [lastYearAgreement])
  /\ ~ Spec.transitionDone
        (updateStatus (Calls.storeOf [lastYearAgreement]) true documentsOffline
           nov2_2026_10h "7" pending_collection [lastYearAgreement])
        "7" pending_collection.
Proof.
  split; [reflexivity|].
  intros [H _]. vm_compute in H. discriminate H.
Qed.

End StatusWitness.

(** ** Linking a document to a party *)

Section LinkFacts.

Import Js Examples.
Local Open Scope string_scope.

Variable dbCustomers : Customers.Remote.
Variable dbBuilders : Builders.Remote.

Lemma count_occ_snoc (xs : list string) (x : string) :
  ~ In x xs -> count_occ string_dec (xs ++ [x]) x = 1%nat.
Proof.
  intros Hin. rewrite count_occ_app.
  rewrite (proj1 (count_occ_not_In string_dec xs x) Hin).
  simpl. destruct (string_dec x x); [reflexivity|contradiction].
Qed.

Lemma addDocumentToBuilder_present (isConnected : bool)
  (bs : list Builders.Builder)
  (builderId documentId : string) (b : Builders.Builder)
  (current : list Builders.Builder) :
  Builders.getBuilder bs builderId = Some b ->
  In documentId (Builders.documents b) ->
  Builders.addDocumentToBuilder bs isConnected dbBuilders builderId documentId
    current
  = (Returned tt, current).
Proof.
  intros Hget Hin. unfold Builders.addDocumentToBuilder.
  rewrite Hget. apply arrayIncludes_In in Hin. rewrite Hin. reflexivity.
Qed.

Lemma addDocumentToBuilder_new (bs : list Builders.Builder)
  (builderId documentId : string) (b : Builders.Builder)
  (current : list Builders.Builder) :
  Builders.getBuilder bs builderId = Some b ->
  ~ In documentId (Builders.documents b) ->
  Builders.addDocumentToBuilder bs false dbBuilders builderId documentId current
  = (Returned tt,
     map (fun builder =>
            if Builders.id builder =? builderId
            then Builders.merge builder
                   {| Builders.p_id := None; Builders.p_name := None;
                      Builders.p_contactPerson := None;
                      Builders.p_phone := None; Builders.p_email := None;
                      Builders.p_address := None;
                      Builders.p_registrationNumber := None;
                      Builders.p_documents :=
                        Some (Builders.documents b ++ [documentId])%list;
                      Builders.p_createdAt := None |}
            else builder)
       current).
Proof.
  intros Hget Hin. unfold Builders.addDocumentToBuilder.
  rewrite Hget.
  destruct (arrayIncludes (Builders.documents b) documentId) eqn:Hinc.
  - apply arrayIncludes_In in Hinc. contradiction.
  - reflexivity.
Qed.

(** In connected mode an ID that is not in the list is handed to the gateway
    with the update; when the gateway reports failure the call throws and the
    store is left as it was. *)
Lemma addDocumentToCustomer_gateway_failure (cs : list Customers.Customer)
  (customerId documentId : string) (c : Customers.Customer) :
  Customers.getCustomer cs customerId = Some c ->
  ~ In documentId (Customers.documents c) ->
  (forall data,
      DatabaseService.success
        (Customers.db_updateCustomer dbCustomers customerId data) = false) ->
  exists e,
    Spec.linkCustomer true dbCustomers customerId documentId cs = (Threw e, cs).
Proof.
  intros Hget Hin Hfail.
  unfold Spec.linkCustomer, run, Customers.addDocumentToCustomer.
  rewrite Hget.
  destruct (arrayIncludes (Customers.documents c) documentId) eqn:Hinc.
  - apply arrayIncludes_In in Hinc. contradiction.
  - unfold Customers.updateCustomer, bind. simpl.
    rewrite Hfail. eexists. reflexivity.
Qed.

(** The customer half of C10. *)
Lemma link_customer_idempotent (cs : list Customers.Customer)
  (customerId documentId : string) (c : Customers.Customer) :
  Customers.getCustomer cs customerId = Some c ->
  let after := Spec.linkCustomer false dbCustomers customerId documentId cs in
  fst after = Returned tt
  /\ (In documentId (Customers.documents c) -> snd after = cs)
  /\ (~ In documentId (Customers.documents c) ->
      Customers.getCustomer (snd after) customerId
      = Some (Spec.withDocument c documentId)
      /\ count_occ string_dec
           (Customers.documents (Spec.withDocument c documentId)) documentId
         = 1%nat)
  /\ (Spec.customersLinkedOnce cs -> Spec.customersLinkedOnce (snd after)).
Proof.
  intros Hget. cbv zeta. unfold Spec.linkCustomer, run.
  assert (Hc : In c cs /\ Customers.id c = customerId).
  { unfold Customers.getCustomer, find in Hget. apply find_some in Hget.
    destruct Hget as [Hin Hid]. apply String.eqb_eq in Hid. tauto. }
  destruct Hc as [Hc Hid].
  destruct (in_dec string_dec documentId (Customers.documents c)) as [Hin|Hin].
  - rewrite (addDocumentToCustomer_present _ _ _ _ _ _ _ Hget Hin). simpl.
    repeat split; try tauto.
  - rewrite (addDocumentToCustomer_new _ _ _ _ _ _ Hget Hin). simpl.
    split; [reflexivity|]. split; [tauto|]. split.
    + intros _. split; [|apply count_occ_snoc; exact Hin].
      unfold Customers.getCustomer, find in *.
      rewrite find_map_stable, Hget.
      * simpl. rewrite Hid, String.eqb_refl. reflexivity.
      * intros x. destruct (Customers.id x =? customerId) eqn:Hx; simpl;
          rewrite Hx; reflexivity.
    + unfold Spec.customersLinkedOnce. rewrite !Forall_forall.
      intros Hall x Hx. apply in_map_iff in Hx. destruct Hx as [y [<- Hy]].
      destruct (Customers.id y =? customerId); [|apply Hall; exact Hy].
      simpl. apply NoDup_snoc; [apply Hall; exact Hc|exact Hin].
Qed.

(** The builder half of C10. *)
Lemma link_builder_idempotent (bs : list Builders.Builder)
  (builderId documentId : string) (b : Builders.Builder) :
  Builders.getBuilder bs builderId = Some b ->
  let after := Spec.linkBuilder false dbBuilders builderId documentId bs in
  fst after = Returned tt
  /\ (In documentId (Builders.documents b) -> snd after = bs)
  /\ (~ In documentId (Builders.documents b) ->
      Builders.getBuilder (snd after) builderId
      = Some (Spec.builderWithDocument b documentId)
      /\ count_occ string_dec
           (Builders.documents (Spec.builderWithDocument b documentId))
           documentId
         = 1%nat)
  /\ (Spec.buildersLinkedOnce bs -> Spec.buildersLinkedOnce (snd after)).
Proof.
  intros Hget. cbv zeta. unfold Spec.linkBuilder, run.
  assert (Hb : In b bs /\ Builders.id b = builderId).
  { unfold Builders.getBuilder, find in Hget. apply find_some in Hget.
    destruct Hget as [Hin Hid]. apply String.eqb_eq in Hid. tauto. }
  destruct Hb as [Hb Hid].
  destruct (in_dec string_dec documentId (Builders.documents b)) as [Hin|Hin].
  - rewrite (addDocumentToBuilder_present _ _ _ _ _ _ Hget Hin). simpl.
    repeat split; try tauto.
  - rewrite (addDocumentToBuilder_new _ _ _ _ _ Hget Hin). simpl.
    split; [reflexivity|]. split; [tauto|]. split.
    + intros _. split; [|apply count_occ_snoc; exact Hin].
      unfold Builders.getBuilder, find in *.
      rewrite find_map_stable, Hget.
      * simpl. rewrite Hid, String.eqb_refl. reflexivity.
      * intros x. destruct (Builders.id x =? builderId) eqn:Hx; simpl;
          rewrite Hx; reflexivity.
    + unfold Spec.buildersLinkedOnce. rewrite !Forall_forall.
      intros Hall x Hx. apply in_map_iff in Hx. destruct Hx as [y [<- Hy]].
      destruct (Builders.id y =? builderId); [|apply Hall; exact Hy].
      simpl. apply NoDup_snoc; [apply Hall; exact Hb|exact Hin].
Qed.

(** C10, as the code has it.  For a customer and a builder of the stores:
    when the document ID is already in the documents list of the party,
    [addDocumentToCustomer] and [addDocumentToBuilder] return and leave the
    store unchanged, in local and in connected mode alike (no update is
    issued); otherwise, in local mode, they return and the list of the party
    becomes the old list followed by the ID, which then occurs in it exactly
    once; and when no documents list of the store held an ID twice before the
    call, none does after it. *)
Theorem addDocument_idempotent (cs : list Customers.Customer)
  (bs : list Builders.Builder) (customerId builderId documentId : string)
  (c : Customers.Customer) (b : Builders.Builder) :
  Customers.getCustomer cs customerId = Some c ->
  Builders.getBuilder bs builderId = Some b ->
  let cs' := snd (Spec.linkCustomer false dbCustomers customerId documentId cs) in
  let bs' := snd (Spec.linkBuilder false dbBuilders builderId documentId bs) in
  ((In documentId (Customers.documents c) ->
    forall isConnected,
      Spec.linkCustomer isConnected dbCustomers customerId documentId cs
      = (Returned tt, cs))
   /\ fst (Spec.linkCustomer false dbCustomers customerId documentId cs)
      = Returned tt
   /\ (~ In documentId (Customers.documents c) ->
       Customers.getCustomer cs' customerId
       = Some (Spec.withDocument c documentId)
       /\ count_occ string_dec
            (Customers.documents (Spec.withDocument c documentId)) documentId
          = 1%nat)
   /\ (Spec.customersLinkedOnce cs -> Spec.customersLinkedOnce cs'))
  /\ ((In documentId (Builders.documents b) ->
       forall isConnected,
         Spec.linkBuilder isConnected dbBuilders builderId documentId bs
         = (Returned tt, bs))
      /\ fst (Spec.linkBuilder false dbBuilders builderId documentId bs)
         = Returned tt
      /\ (~ In documentId (Builders.documents b) ->
          Builders.getBuilder bs' builderId
          = Some (Spec.builderWithDocument b documentId)
          /\ count_occ string_dec
               (Builders.documents (Spec.builderWithDocument b documentId))
               documentId
             = 1%nat)
      /\ (Spec.buildersLinkedOnce bs -> Spec.buildersLinkedOnce bs')).
Proof.
  intros Hc Hb. cbv zeta.
  destruct (link_customer_idempotent cs customerId documentId c Hc)
    as (Hc1 & _ & Hc3 & Hc4).
  destruct (link_builder_idempotent bs builderId documentId b Hb)
    as (Hb1 & _ & Hb3 & Hb4).
  split; (split; [|split; [assumption|split; assumption]]).
  - intros Hin isConnected. unfold Spec.linkCustomer, run.
    apply (addDocumentToCustomer_present _ _ _ _ _ _ _ Hc Hin).
  - intros Hin isConnected. unfold Spec.linkBuilder, run.
    apply (addDocumentToBuilder_present _ _ _ _ _ _ Hb Hin).
Qed.

End LinkFacts.

Section LinkWitness.

Import Js Examples.
Local Open Scope string_scope.

(** Linking "DOC1" again changes nothing, whatever the mode; linking "DOC2"
    appends it. *)
Lemma addDocument_idempotent_witness :
  Spec.linkCustomer true customersOffline "CUST001" "DOC1" [customerA]
  = (Returned tt, [customerA])
  /\ Builders.getBuilder
       (snd (Spec.linkBuilder false buildersOffline "BLD001" "DOC2" [builderB]))
       "BLD001"
     = Some (Spec.builderWithDocument builderB "DOC2").
Proof.
  split.
  - apply (addDocument_idempotent customersOffline buildersOffline
             [customerA] [builderB] "CUST001" "BLD001" "DOC1"
             customerA builderB); [reflexivity|reflexivity|].
    simpl. left. reflexivity.
  - apply (addDocument_idempotent customersOffline buildersOffline
             [customerA] [builderB] "CUST001" "BLD001" "DOC2"
             customerA builderB); [reflexivity|reflexivity|].
    simpl. intros [H|[]]. discriminate H.
Defined.

(** C10 as stated fails in connected mode: the update goes to the gateway,
    whose table has no column for the list; the gateway refuses it, the call
    throws, and "DOC2" is not appended to the list of the customer. *)
Lemma addDocument_connected_not_appended :
  Customers.getCustomer [customerA] "CUST001" = Some customerA
  /\ (exists e,
        Spec.linkCustomer true customersRejecting "CUST001" "DOC2" [customerA]
        = (Threw e, [customerA]))
  /\ ~ Spec.appendsOnce true customersRejecting "CUST001" "DOC2" [customerA]
        customerA.
Proof.
  split; [reflexivity|]. split; [eexists; reflexivity|].
  unfold Spec.appendsOnce. intros H.
  assert (Hnew : ~ In "DOC2" (Customers.documents customerA)).
  { simpl. intros [E|[]]. discriminate E. }
  specialize (H Hnew). vm_compute in H. discriminate H.
Qed.

End LinkWitness.

(** ** Attendance: elapsed time *)

Section ClockOutFacts.

Import Js Attendance Examples.
Local Open Scope string_scope.
Local Open Scope num_scope.

Context {num : Type} {arith : Number num}.

Lemma orNumber_counted (record : AttendanceRecord num) (br : num) :
  Spec.countedBreak record br ->
  orNumber (breakTime record) (ofInteger 60) = br.
Proof.
  unfold orNumber. intros [[-> Hbr]|[-> ->]]; [|reflexivity].
  rewrite Hbr. reflexivity.
Qed.

(** In local mode [clockOut] closes the active record of the user. *)
Lemma clockOut_runs (user : Auth.User) (settings : AttendanceSettings num)
  (now : Date) (notes_ : option string)
  (records : list (AttendanceRecord num)) (record : AttendanceRecord num)
  (clockedIn : Date) :
  activeRecord records now user = Some record ->
  clockInTime record = Some clockedIn ->
  Spec.clockOutLocal user settings now notes_ records
  = (Returned (closeRecord settings now record clockedIn notes_),
     replaceById (id record) (closeRecord settings now record clockedIn notes_)
       records).
Proof.
  intros Hactive Hin.
  unfold Spec.clockOutLocal, Spec.clockOutCall, run, clockOut.
  rewrite Hactive, Hin. reflexivity.
Qed.

(** C6, as the code has it.  In local mode, for the record [clockOut] closes
    (the first one of the signed-in user for today with a clock-in at t0 and
    no clock-out) with a break of br minutes, br neither 0 nor NaN, or 60
    when the record has no break time, [clockOut] at t1 returns and sets
    totalHours = round(((t1 - t0)/60000)/60 * 100)/100 - br/60, times in
    milliseconds: the elapsed hours rounded to the nearest hundredth, less
    the break, and overtime = max(0, totalHours - workingHoursPerDay); every
    operation is that of the JS numbers, in the order written. *)
Theorem clockOut_hours (user : Auth.User) (settings : AttendanceSettings num)
  (now : Date) (notes_ : option string)
  (records : list (AttendanceRecord num)) (record : AttendanceRecord num)
  (clockedIn : Date) (br : num) :
  activeRecord records now user = Some record ->
  clockInTime record = Some clockedIn ->
  Spec.countedBreak record br ->
  Spec.clockOutSets Spec.roundedHours user settings now notes_
    records record clockedIn br.
Proof.
  intros Hactive Hin Hbr.
  unfold Spec.clockOutSets.
  rewrite (clockOut_runs user settings now notes_ records record
             clockedIn Hactive Hin).
  eexists; eexists; eexists.
  split; [reflexivity|]. simpl.
  split; [reflexivity|]. split; [reflexivity|].
  split.
  { unfold Spec.roundedHours. rewrite (orNumber_counted record br Hbr).
    reflexivity. }
  split; reflexivity.
Qed.

(** Nobody to clock out: the call throws and the store is unchanged. *)
Lemma clockOut_nothing_active (user : Auth.User)
  (settings : AttendanceSettings num) (now : Date) (notes_ : option string)
  (records : list (AttendanceRecord num)) :
  activeRecord records now user = None ->
  Spec.clockOutLocal user settings now notes_ records
  = (Threw (ErrorObject "No active clock-in found for today"), records).
Proof.
  intros H. unfold Spec.clockOutLocal, Spec.clockOutCall, run, clockOut.
  rewrite H. reflexivity.
Qed.

(** In connected mode [clockOut] calls a method the gateway does not have:
    the call throws and the store is unchanged. *)
Lemma clockOut_connected_throws (user : Auth.User)
  (settings : AttendanceSettings num) (now : Date) (notes_ : option string)
  (records : list (AttendanceRecord num)) :
  Spec.clockOutCall true user settings now notes_ records
  = (Threw (ErrorObject "databaseService.clockOut is not a function"),
     records).
Proof. reflexivity. Qed.

End ClockOutFacts.

Section ClockOutWitness.

Import Js Attendance Examples.
Import PrimFloat.
Local Open Scope string_scope.

(** C6 as stated fails: clocked in at 9:00:00 with a break of 30 minutes and
    clocked out at 17:00:01, the record gets totalHours = 7.5, not
    28801/3600 - 30/60. *)
Lemma clockOut_rounds_elapsed_hours :
  activeRecord [clockedInAt9 (Some 30%float)] nov2_2026_17h_01s challanStaff
  = Some (clockedInAt9 (Some 30%float))
  /\ ~ Spec.clockOutSets Spec.exactHours challanStaff
         defaultAttendanceSettings nov2_2026_17h_01s None
         [clockedInAt9 (Some 30%float)] (clockedInAt9 (Some 30%float))
         nov2_2026_9h 30%float.
Proof.
  split; [reflexivity|].
  intros (closed & total & over & Hrun & _ & Htotal & Heq & _).
  vm_compute in Hrun. injection Hrun as <-.
  vm_compute in Htotal. injection Htotal as <-.
  vm_compute in Heq. discriminate Heq.
Qed.

(** The hours of that record, as computed: 7.5 hours and no overtime. *)
Example clockOut_hours_17h :
  match fst (Spec.clockOutLocal challanStaff defaultAttendanceSettings
               nov2_2026_17h_01s None [clockedInAt9 (Some 30%float)]) with
  | Returned r => (totalHours r, overtime r)
  | Threw _ => (None, None)
  end
  = (Some 7.5%float, Some 0%float).
Proof. vm_compute. reflexivity. Qed.

(** Clocked out 14454 seconds after the clock-in, with the default break:
    the elapsed hours times 100 are 401.49999999999994, which rounds to
    401, and the record gets 4.01 - 1 hours. *)
Example clockOut_hours_13h :
  match fst (Spec.clockOutLocal challanStaff defaultAttendanceSettings
               nov2_2026_13h_54s None [clockedInAt9 None]) with
  | Returned r => totalHours r
  | Threw _ => None
  end
  = Some 3.0099999999999998%float.
Proof. vm_compute. reflexivity. Qed.

(** A break time of 0 counts as 60 minutes. *)
Example clockOut_zero_break :
  match fst (Spec.clockOutLocal challanStaff defaultAttendanceSettings
               nov2_2026_17h_01s None [clockedInAt9 (Some 0%float)]) with
  | Returned r => totalHours r
  | Threw _ => None
  end
  = Some 7%float.
Proof. vm_compute. reflexivity. Qed.

(** Clocked in at 9:00 with no break time recorded, clocked out at
    17:00:01. *)
Lemma clockOut_hours_witness :
  Spec.clockOutSets Spec.roundedHours challanStaff
    defaultAttendanceSettings nov2_2026_17h_01s None
    [clockedInAt9 None] (clockedInAt9 None) nov2_2026_9h 60%float.
Proof.
  apply clockOut_hours.
  - reflexivity.
  - reflexivity.
  - right. split; reflexivity.
Defined.

End ClockOutWitness.

(** ** Attendance: one record for a user and a day *)

Section AttendanceFacts.

Import Js Attendance Examples.
Local Open Scope string_scope.

Context {num : Type} {arith : Number num}.

Lemma sameDateString_eq (a b : Z * Z * Z) :
  sameDateString a b = true <-> a = b.
Proof.
  destruct a as [[y1 m1] d1], b as [[y2 m2] d2]. simpl.
  rewrite !andb_true_iff, !Z.eqb_eq. split.
  - intros [[-> ->] ->]. reflexivity.
  - intros H. injection H as -> -> ->. auto.
Qed.

(** The test [clockIn] and [markAttendance] search with: the record is about
    that user and that day. *)
Lemma about_userDay (record : AttendanceRecord num) (userId_ : string) (day : Date) :
  (userId record =? userId_)
  && sameDateString (toDateString (date record)) (toDateString (startOfDay day))
  = true
  <-> Spec.userDay record = (userId_, toDateString day).
Proof.
  unfold Spec.userDay. rewrite andb_true_iff, String.eqb_eq, sameDateString_eq.
  change (toDateString (startOfDay day)) with (toDateString day).
  split.
  - intros [H1 H2]. rewrite H1, H2. reflexivity.
  - intros H. apply pair_equal_spec in H. exact H.
Qed.

Lemma same_id_same_record (records : list (AttendanceRecord num))
  (x y : AttendanceRecord num) :
  NoDup (map id records) -> In x records -> In y records -> id x = id y ->
  x = y.
Proof.
  induction records as [|r records IH]; simpl; intros Hnd Hx Hy Hid;
    [contradiction|].
  inversion Hnd as [|k ks Hnotin Hnd']; subst.
  destruct Hx as [->|Hx], Hy as [->|Hy]; trivial.
  - exfalso. apply Hnotin. rewrite Hid. apply in_map. exact Hy.
  - exfalso. apply Hnotin. rewrite <- Hid. apply in_map. exact Hx.
  - apply IH; assumption.
Qed.

(** Replacing a record by one about the same user and day keeps the list of
    users and days, provided record IDs are pairwise distinct. *)
Lemma replaceById_userDays (records : list (AttendanceRecord num))
  (existing updated : AttendanceRecord num) :
  NoDup (map id records) -> In existing records ->
  Spec.userDay updated = Spec.userDay existing ->
  map Spec.userDay (replaceById (id existing) updated records)
  = map Spec.userDay records.
Proof.
  intros Hnd Hin Hkey. unfold replaceById. rewrite map_map.
  apply map_ext_in. intros x Hx.
  destruct (String.eqb_spec (id x) (id existing)) as [Hid|_]; [|reflexivity].
  rewrite (same_id_same_record records x existing Hnd Hx Hin Hid).
  exact Hkey.
Qed.

Lemma append_userDay (records : list (AttendanceRecord num)) (record : AttendanceRecord num)
  (userId_ : string) (day : Date) :
  Spec.uniquePerUserDay records ->
  find (fun r =>
          (userId r =? userId_)
          && sameDateString (toDateString (date r))
               (toDateString (startOfDay day))) records = None ->
  Spec.userDay record = (userId_, toDateString day) ->
  Spec.uniquePerUserDay (records ++ [record]).
Proof.
  intros Huniq Hnone Hkey. unfold Spec.uniquePerUserDay in *.
  rewrite map_app. simpl. apply NoDup_snoc; [exact Huniq|].
  intros Hin. apply in_map_iff in Hin. destruct Hin as [r [Hr Hin]].
  assert (Hfalse := find_none _ _ Hnone r Hin). cbv beta in Hfalse.
  rewrite Hkey in Hr. apply about_userDay in Hr.
  rewrite Hr in Hfalse. discriminate.
Qed.

(** [markAttendance] keeps at most one record for a user and a day. *)
Lemma markAttendance_unique (now : Date) (userId_ : string) (date_ : Date)
  (status_ : AttendanceStatus) (notes_ : option string)
  (records : list (AttendanceRecord num)) :
  NoDup (map id records) ->
  Spec.uniquePerUserDay records ->
  Spec.uniquePerUserDay
    (snd (Spec.markLocal now userId_ date_ status_ notes_ records)).
Proof.
  intros Hids Huniq. unfold Spec.markLocal, run, markAttendance.
  destruct (find _ records) as [existing|] eqn:Hfind.
  - unfold find in Hfind. apply find_some in Hfind. destruct Hfind as [Hin _].
    simpl. unfold Spec.uniquePerUserDay.
    rewrite replaceById_userDays; [exact Huniq|exact Hids|exact Hin|reflexivity].
  - simpl. apply (append_userDay records _ userId_ date_ Huniq Hfind).
    reflexivity.
Qed.

(** [clockOut] in local mode keeps at most one record for a user and a
    day. *)
Lemma clockOut_unique (user : Auth.User) (settings : AttendanceSettings num)
  (now : Date) (notes_ : option string) (records : list (AttendanceRecord num)) :
  NoDup (map id records) ->
  Spec.uniquePerUserDay records ->
  Spec.uniquePerUserDay
    (snd (Spec.clockOutLocal user settings now notes_ records)).
Proof.
  intros Hids Huniq. unfold Spec.clockOutLocal, Spec.clockOutCall, run, clockOut.
  destruct (activeRecord records now user) as [existing|] eqn:Hfind;
    [|exact Huniq].
  destruct (clockInTime existing) as [clockedIn|]; [|exact Huniq].
  unfold activeRecord, find in Hfind. apply find_some in Hfind.
  destruct Hfind as [Hin _].
  simpl. unfold Spec.uniquePerUserDay.
  rewrite replaceById_userDays; [exact Huniq|exact Hids|exact Hin|reflexivity].
Qed.

(** [clockIn] in local mode keeps the invariant when the user has no record
    for today, and changes nothing when the user has clocked in already. *)
Lemma clockIn_unique_when_new (user : Auth.User) (settings : AttendanceSettings num)
  (now : Date) (location_ notes_ : option string)
  (records : list (AttendanceRecord num)) :
  Spec.uniquePerUserDay records ->
  Spec.todaysRecord user now records = None ->
  Spec.uniquePerUserDay
    (snd (Spec.clockInLocal user settings now location_ notes_ records)).
Proof.
  intros Huniq Hnone. unfold Spec.clockInLocal, run, clockIn.
  unfold Spec.todaysRecord in Hnone. rewrite Hnone. simpl.
  apply (append_userDay records _ (Auth.id user) now Huniq Hnone).
  reflexivity.
Qed.

Lemma clockIn_twice_refused (user : Auth.User) (settings : AttendanceSettings num)
  (now : Date) (location_ notes_ : option string)
  (records : list (AttendanceRecord num)) (existing : AttendanceRecord num)
  (clockedIn : Date) :
  Spec.todaysRecord user now records = Some existing ->
  clockInTime existing = Some clockedIn ->
  Spec.clockInLocal user settings now location_ notes_ records
  = (Threw (ErrorObject "Already clocked in today"), records).
Proof.
  intros Hfind Hin. unfold Spec.clockInLocal, run, clockIn.
  unfold Spec.todaysRecord in Hfind. rewrite Hfind.
  destruct existing; simpl in Hin; subst. reflexivity.
Qed.

(** When the user has a record for today that holds no clock-in time (a day
    marked by [markAttendance]), [clockIn] appends a second record for the
    same user and day. *)
Lemma clockIn_duplicates_marked_day (user : Auth.User)
  (settings : AttendanceSettings num) (now : Date) (location_ notes_ : option string)
  (records : list (AttendanceRecord num)) (existing : AttendanceRecord num) :
  Spec.todaysRecord user now records = Some existing ->
  clockInTime existing = None ->
  exists record,
    Spec.clockInLocal user settings now location_ notes_ records
    = (Returned record, (records ++ [record])%list)
    /\ Spec.userDay record = Spec.userDay existing
    /\ ~ Spec.uniquePerUserDay (records ++ [record]).
Proof.
  intros Hfind Hin. unfold Spec.clockInLocal, run, clockIn.
  unfold Spec.todaysRecord in Hfind. rewrite Hfind.
  unfold find in Hfind. apply find_some in Hfind.
  destruct Hfind as [Hmem Habout]. apply about_userDay in Habout.
  destruct existing; simpl in Hin; subst.
  eexists. split; [reflexivity|]. split; [symmetry; exact Habout|].
  unfold Spec.uniquePerUserDay. rewrite map_app. simpl.
  intros Hnd. apply NoDup_remove_2 in Hnd. apply Hnd.
  rewrite app_nil_r. rewrite <- Habout at 1.
  apply in_map. exact Hmem.
Qed.

End AttendanceFacts.

Section AttendanceFailure.

Import Js Attendance Examples.
Local Open Scope string_scope.

(** C7 fails on the code.  The challan staff is marked absent for 2 November
    2026 by [markAttendance], and the store holds one record for that user and
    day; the user then clocks in on that day: [clockIn] returns and the store
    holds two records for the user and the day. *)
Theorem clockIn_after_mark_duplicates :
  Spec.uniquePerUserDay (num := PrimFloat.float) markedAbsent
  /\ exists record,
       Spec.clockInLocal challanStaff defaultAttendanceSettings
         nov2_2026_10h None None markedAbsent
       = (Returned record, (markedAbsent ++ [record])%list)
       /\ map Spec.userDay (markedAbsent ++ [record])
          = [("2", (2026, 10, 2)%Z); ("2", (2026, 10, 2)%Z)]
       /\ ~ Spec.uniquePerUserDay (markedAbsent ++ [record]).
Proof.
  split.
  - vm_compute. repeat constructor. intros [].
  - eexists. split; [vm_compute; reflexivity|].
    split; [reflexivity|].
    unfold Spec.uniquePerUserDay. intros Hnd.
    apply (NoDup_remove_2 [_] []) in Hnd.
    apply Hnd. left. reflexivity.
Qed.

End AttendanceFailure.

(** ** Signing in and out *)

Section SessionFacts.

Import Js Session.
Local Open Scope string_scope.

(** X1. [login] returns true exactly when the password is "password123" and
    some active user has the e-mail address; the first such user is then
    signed in and stored.  A failed attempt leaves the session as it was:
    whoever was signed in stays signed in. *)
Theorem login_decides (allUsers : list Auth.User) (email_ password_ : string)
  (s : State) :
  exists ok s',
    login allUsers email_ password_ s = (Returned ok, s')
    /\ isLoading s' = false
    /\ (ok = true
        <-> password_ = "password123"
            /\ exists u, In u allUsers /\ Auth.email u = email_
                         /\ Auth.isActive u = true)
    /\ (ok = true ->
        user s'
        = find (fun u => (Auth.email u =? email_) && Auth.isActive u) allUsers
        /\ storedUser s' = user s')
    /\ (ok = false -> user s' = user s /\ storedUser s' = storedUser s).
Proof.
  unfold login, bind, setState, ret.
  destruct (find _ allUsers) as [found|] eqn:Hfind.
  - unfold find in Hfind. apply find_some in Hfind as Hf. destruct Hf as [Hin Hp].
    apply andb_true_iff in Hp. destruct Hp as [He Ha].
    apply String.eqb_eq in He.
    destruct (String.eqb_spec password_ "password123") as [Hpw|Hpw].
    + exists true. eexists. split; [reflexivity|]. simpl.
      split; [reflexivity|]. split.
      * split; [intros _|reflexivity]. split; [exact Hpw|]. exists found. auto.
      * split; [intros _; auto|discriminate].
    + exists false. eexists. split; [reflexivity|]. simpl.
      split; [reflexivity|]. split.
      * split; [discriminate|]. intros [Hpw' _]. contradiction.
      * split; [discriminate|auto].
  - exists false. eexists. split; [reflexivity|]. simpl.
    split; [reflexivity|]. split.
    + split; [discriminate|]. intros [_ [u [Hin [He Ha]]]].
      assert (Hn := find_none _ _ Hfind u Hin). simpl in Hn.
      rewrite He, String.eqb_refl, Ha in Hn. discriminate.
    + split; [discriminate|auto].
Qed.

(** X2. A session survives a reload and ends with [logout]: after a
    successful [login] the effect run on mount signs the same user in again,
    and after [logout] it signs nobody in. *)
Theorem session_round_trip (allUsers : list Auth.User)
  (email_ password_ : string) (s : State) :
  fst (login allUsers email_ password_ s) = Returned true ->
  let signedIn := snd (login allUsers email_ password_ s) in
  let reloaded (st : State) :=
    snd (restoreSession {| user := None; storedUser := storedUser st;
                           isLoading := true |}) in
  user signedIn <> None
  /\ user (reloaded signedIn) = user signedIn
  /\ user (reloaded (snd (logout signedIn))) = None
  /\ forall module_ action_,
       Auth.hasPermission (user (reloaded (snd (logout signedIn))))
         module_ action_ = false.
Proof.
  intros Hok. cbv zeta.
  unfold login, bind, setState, ret in *.
  destruct (find _ allUsers) as [found|]; simpl in *; [|discriminate].
  destruct (password_ =? "password123"); simpl in *; [|discriminate].
  repeat split; try reflexivity. discriminate.
Qed.

End SessionFacts.

Section SessionWitness.

Import Js Session Examples.
Local Open Scope string_scope.

Lemma session_round_trip_witness :
  let s0 := {| user := None; storedUser := None; isLoading := true |} in
  let signedIn :=
    snd (login [mainAdmin; challanStaff] "challan@omservices.com"
           "password123" s0) in
  user signedIn = Some challanStaff
  /\ user (snd (restoreSession {| user := None;
                                  storedUser := storedUser signedIn;
                                  isLoading := true |}))
     = user signedIn.
Proof.
  split; [reflexivity|].
  apply (session_round_trip [mainAdmin; challanStaff] "challan@omservices.com"
           "password123"
           {| user := None; storedUser := None; isLoading := true |}).
  reflexivity.
Defined.

End SessionWitness.

(** ** Entity stores: create, look up, update, delete *)

Section StoreFacts.

Import Js.
Local Open Scope string_scope.

Lemma find_filter_kept {A} (p q : A -> bool) (l : list A) :
  (forall x, p x = true -> q x = true) ->
  find p (filter q l) = find p l.
Proof.
  intros H. induction l as [|x l IH]; simpl; [reflexivity|].
  destruct (q x) eqn:Hq; simpl.
  - destruct (p x); [reflexivity|exact IH].
  - destruct (p x) eqn:Hp; [|exact IH].
    rewrite (H x Hp) in Hq. discriminate.
Qed.

Lemma find_filter_removed {A} (p q : A -> bool) (l : list A) :
  (forall x, p x = true -> q x = false) ->
  find p (filter q l) = None.
Proof.
  intros H. induction l as [|x l IH]; simpl; [reflexivity|].
  destruct (q x) eqn:Hq; simpl; [|exact IH].
  destruct (p x) eqn:Hp; [|exact IH].
  rewrite (H x Hp) in Hq. discriminate.
Qed.

Lemma find_other_id (id_ other x : string) :
  other <> id_ -> (x =? other) = true -> negb (x =? id_) = true.
Proof.
  intros Hne Hx. apply String.eqb_eq in Hx. subst.
  apply String.eqb_neq in Hne. rewrite Hne. reflexivity.
Qed.

Lemma find_same_id (id_ x : string) :
  (x =? id_) = true -> negb (x =? id_) = false.
Proof. intros ->. reflexivity. Qed.

(** X3. After [deleteCustomer(id)], [deleteBuilder(id)] or
    [deleteDocument(id)], the lookup of that ID finds nothing, and the lookup
    of every other ID finds what it found before. *)
Theorem delete_then_lookup (id_ : string) (cs : list Customers.Customer)
  (bs : list Builders.Builder) (docs : list Documents.Document) :
  (Customers.getCustomer (Calls.deleteCustomer id_ cs) id_ = None
   /\ forall other, other <> id_ ->
        Customers.getCustomer (Calls.deleteCustomer id_ cs) other
        = Customers.getCustomer cs other)
  /\ (Builders.getBuilder (Calls.deleteBuilder id_ bs) id_ = None
      /\ forall other, other <> id_ ->
           Builders.getBuilder (Calls.deleteBuilder id_ bs) other
           = Builders.getBuilder bs other)
  /\ (Documents.getDocument (Calls.storeOf (Calls.deleteDocument id_ docs)) id_
      = None
      /\ forall other, other <> id_ ->
           Documents.getDocument
             (Calls.storeOf (Calls.deleteDocument id_ docs)) other
           = Documents.getDocument (Calls.storeOf docs) other).
Proof.
  unfold Calls.deleteCustomer, Calls.deleteBuilder, Calls.deleteDocument,
    Customers.getCustomer, Builders.getBuilder, Documents.getDocument,
    Customers.deleteCustomer, Builders.deleteBuilder, Documents.deleteDocument,
    run, setState, find; simpl.
  repeat split.
  - apply find_filter_removed. intros x. apply find_same_id.
  - intros other Hne. apply find_filter_kept. intros x. apply find_other_id, Hne.
  - apply find_filter_removed. intros x. apply find_same_id.
  - intros other Hne. apply find_filter_kept. intros x. apply find_other_id, Hne.
  - apply find_filter_removed. intros x. apply find_same_id.
  - intros other Hne. apply find_filter_kept. intros x. apply find_other_id, Hne.
Qed.

Lemma filter_snoc {A} (p : A -> bool) (l : list A) (x : A) :
  filter p (l ++ [x]) = (filter p l ++ if p x then [x] else [])%list.
Proof. rewrite filter_app. reflexivity. Qed.

(** X4. In local mode [createCustomer] always appends the customer it
    returns and never looks at the phone numbers in the store: when nobody
    had the phone of the new customer, [getCustomerByPhone] now finds the new
    customer; when somebody had it, the store holds one more customer with
    that phone and [getCustomerByPhone] still finds the old one. *)
Theorem createCustomer_then_phone_lookup (db : Customers.Remote) (now : Date)
  (data : Customers.PartialCustomer) (cs : list Customers.Customer) :
  exists c,
    Calls.createCustomer false db now data cs
    = (Returned (Some c), (cs ++ [c])%list)
    /\ Customers.phone c = spread (Customers.p_phone data) ""
    /\ Calls.withPhone (Customers.phone c) (cs ++ [c])
       = (Calls.withPhone (Customers.phone c) cs ++ [c])%list
    /\ (Customers.getCustomerByPhone cs (Customers.phone c) = None ->
        Customers.getCustomerByPhone (cs ++ [c]) (Customers.phone c) = Some c)
    /\ (forall old,
          Customers.getCustomerByPhone cs (Customers.phone c) = Some old ->
          Customers.getCustomerByPhone (cs ++ [c]) (Customers.phone c)
          = Some old).
Proof.
  eexists. split; [reflexivity|]. simpl.
  split; [destruct (Customers.p_phone data) as [[|]|]; reflexivity|].
  split.
  { unfold Calls.withPhone. rewrite filter_snoc. simpl.
    rewrite String.eqb_refl. reflexivity. }
  unfold Customers.getCustomerByPhone, find. split.
  - intros Hnone. rewrite find_app_none by exact Hnone.
    simpl. rewrite String.eqb_refl. reflexivity.
  - intros old Hold. apply find_app_some. exact Hold.
Qed.

Lemma generateCustomerId_length (cs cs' : list Customers.Customer) :
  List.length cs = List.length cs' ->
  Customers.generateCustomerId cs = Customers.generateCustomerId cs'.
Proof. unfold Customers.generateCustomerId. intros ->. reflexivity. Qed.

Lemma createCustomer_local (db : Customers.Remote) (now : Date)
  (data : Customers.PartialCustomer) (cs : list Customers.Customer) :
  exists c,
    Calls.createCustomer false db now data cs
    = (Returned (Some c), (cs ++ [c])%list)
    /\ (Customers.p_id data = None ->
        Customers.id c = Customers.generateCustomerId cs).
Proof.
  eexists. split; [reflexivity|]. simpl. intros ->. reflexivity.
Qed.

(** X5. Generated customer IDs repeat after a deletion.  A customer is
    created without an ID of its own, then one other customer is deleted;
    the next customer created without an ID gets the ID of the first one,
    which is still in the store. *)
Theorem customer_id_reused_after_delete (db : Customers.Remote)
  (now now' : Date) (data data' : Customers.PartialCustomer)
  (gone : string) (cs : list Customers.Customer) :
  Customers.p_id data = None ->
  Customers.p_id data' = None ->
  let created := fst (Calls.createCustomer false db now data cs) in
  let cs1 := snd (Calls.createCustomer false db now data cs) in
  let cs2 := Calls.deleteCustomer gone cs1 in
  List.length cs2 = List.length cs ->
  gone <> Customers.generateCustomerId cs ->
  exists first second,
    created = Returned (Some first)
    /\ Calls.createCustomer false db now' data' cs2
       = (Returned (Some second), (cs2 ++ [second])%list)
    /\ In first cs2
    /\ Customers.id second = Customers.id first
    /\ ~ NoDup (map Customers.id (cs2 ++ [second])).
Proof.
  intros Hid Hid'. cbv zeta.
  destruct (createCustomer_local db now data cs) as [first [Hc Hfid]].
  specialize (Hfid Hid).
  rewrite Hc. cbn [fst snd].
  set (rest := Calls.deleteCustomer gone (cs ++ [first])).
  intros Hlen Hgone.
  destruct (createCustomer_local db now' data' rest) as [second [Hc' Hsid]].
  specialize (Hsid Hid').
  assert (Hin : In first rest).
  { unfold rest, Calls.deleteCustomer, run, Customers.deleteCustomer, setState.
    simpl. apply filter_In. split; [apply in_or_app; right; left; reflexivity|].
    apply negb_true_iff, String.eqb_neq. congruence. }
  assert (Hsame : Customers.id second = Customers.id first).
  { rewrite Hsid, Hfid. apply generateCustomerId_length. exact Hlen. }
  exists first, second. split; [reflexivity|]. split; [exact Hc'|].
  split; [exact Hin|]. split; [exact Hsame|].
  rewrite map_app. simpl. rewrite Hsame. intros Hnd.
  apply NoDup_remove_2 in Hnd. apply Hnd. rewrite app_nil_r.
  apply (in_map Customers.id) in Hin. exact Hin.
Qed.

End StoreFacts.
Section DocumentUpdateFacts.

Import Js Documents.
Local Open Scope string_scope.

Variable db : Remote.

Lemma find_map_by_id (f : Document -> Document) (id_ : string)
  (docs : list Document) :
  (forall d, id (f d) = id d) ->
  find (fun d => id d =? id_) (map f docs)
  = option_map f (find (fun d => id d =? id_) docs).
Proof.
  intros Hf. unfold find. apply find_map_stable.
  intros d. rewrite Hf. reflexivity.
Qed.

Lemma map_no_match (f : Document -> Document) (id_ : string)
  (docs : list Document) :
  find (fun d => id d =? id_) docs = None ->
  map (fun d => if id d =? id_ then f d else d) docs = docs.
Proof.
  unfold find. intros Hnone.
  rewrite <- (map_id docs) at 2. apply map_ext_in. intros d Hd.
  rewrite (find_none _ _ Hnone d Hd). reflexivity.
Qed.

(** X6. In local mode [updateDocument(id, data)] returns what the lookup of
    the ID gave before the update, not the updated document: [undefined]
    and an unchanged store when no document has the ID, the old document
    otherwise.  The store keeps its documents in place: every document with
    the ID is replaced by itself with each field of [data] put over it and
    stamped with the time of the call, even when [data] carries an
    [updatedAt] of its own; every other document is left as it was. *)
Theorem updateDocument_returns_old (now : Date) (id_ : string)
  (data : PartialDocument) (docs : list Document) :
  let before := getDocument (Calls.storeOf docs) id_ in
  let after := snd (Calls.updateDocument false db now id_ data docs) in
  fst (Calls.updateDocument false db now id_ data docs) = Returned before
  /\ (before = None -> after = docs)
  /\ Forall2
       (fun old new =>
          if id old =? id_ then Calls.updatedFrom old data now new
          else new = old)
       docs after.
Proof.
  cbv zeta.
  unfold Calls.updateDocument, run, updateDocument, bind, setState, ret,
    getDocument, Calls.storeOf. simpl.
  split; [reflexivity|]. split.
  - intros Hnone. apply (map_no_match _ _ _ Hnone).
  - induction docs as [|d rest IH]; simpl; constructor; [|exact IH].
    destruct (id d =? id_); [|reflexivity].
    unfold Calls.updatedFrom, merge, spread, over. cbn.
    repeat split; reflexivity.
Qed.

(** X7. [addNote(id, note)] in local mode appends the note to the notes of
    the document with that ID, stamps the document with the time of the call
    and leaves every other document as it was; when no document has the ID
    nothing changes. *)
Theorem addNote_appends (now : Date) (id_ note : string)
  (docs : list Document) :
  let after := snd (Calls.addNote false db now id_ note docs) in
  fst (Calls.addNote false db now id_ note docs) = Returned tt
  /\ (getDocument (Calls.storeOf docs) id_ = None -> after = docs)
  /\ (forall old,
        getDocument (Calls.storeOf docs) id_ = Some old ->
        exists updated,
          getDocument (Calls.storeOf after) id_ = Some updated
          /\ notes updated = (notes old ++ [note])%list
          /\ updatedAt updated = now
          /\ status updated = status old
          /\ documentNumber updated = documentNumber old)
  /\ (forall other,
        other <> id_ ->
        getDocument (Calls.storeOf after) other
        = getDocument (Calls.storeOf docs) other).
Proof.
  cbv zeta.
  unfold Calls.addNote, run, DocumentNotes.addNote.
  destruct (getDocument (Calls.storeOf docs) id_) as [old|] eqn:Hget.
  - unfold updateDocument, bind, setState, ret. simpl.
    match goal with
    | |- context [map ?g docs] => set (f := g)
    end.
    assert (Hf : forall d, id (f d) = id d).
    { intros d. unfold f. destruct (id d =? id_); reflexivity. }
    split; [reflexivity|]. split; [discriminate|]. split.
    + intros old' Hold'. injection Hold' as <-.
      unfold getDocument, Calls.storeOf in *. simpl in *.
      rewrite (find_map_by_id f id_ docs Hf), Hget. simpl.
      eexists. split; [reflexivity|].
      unfold find in Hget. apply find_some in Hget. destruct Hget as [_ Hm].
      unfold f. rewrite Hm. simpl. repeat split; reflexivity.
    + intros other Hne. unfold getDocument, Calls.storeOf. simpl.
      rewrite (find_map_by_id f other docs Hf).
      destruct (find (fun d => id d =? other) docs) as [d|] eqn:Hd;
        [|reflexivity].
      simpl. unfold find in Hd. apply find_some in Hd. destruct Hd as [_ Hm].
      apply String.eqb_eq in Hm. unfold f.
      destruct (String.eqb_spec (id d) id_) as [E|_]; [|reflexivity].
      congruence.
  - simpl. split; [reflexivity|]. split; [reflexivity|].
    split; [discriminate|]. reflexivity.
Qed.

(** X8. Notes added from the closures of one render overwrite each other:
    when [addNote] is called twice for a document without a render in
    between, the second call starts from the notes the first call saw, and
    the note of the first call is lost. *)
Theorem addNote_twice_loses_first (now now' : Date) (id_ first second : string)
  (docs : list Document) (old : Document) :
  getDocument (Calls.storeOf docs) id_ = Some old ->
  let add note_ at_ :=
    DocumentNotes.addNote (Calls.storeOf docs) false db at_ id_ note_ in
  let after := snd (add second now' (snd (add first now docs))) in
  exists updated,
    getDocument (Calls.storeOf after) id_ = Some updated
    /\ notes updated = (notes old ++ [second])%list.
Proof.
  intros Hget. cbv zeta. unfold DocumentNotes.addNote. rewrite Hget.
  unfold updateDocument, bind, setState, ret. simpl.
  rewrite map_map.
  match goal with
  | |- context [map ?g docs] => set (f := g)
  end.
  assert (Hf : forall d, id (f d) = id d).
  { intros d. unfold f. destruct (id d =? id_) eqn:E; simpl;
      rewrite E; reflexivity. }
  unfold getDocument, Calls.storeOf in *. simpl in *.
  rewrite (find_map_by_id f id_ docs Hf), Hget. simpl.
  eexists. split; [reflexivity|].
  unfold find in Hget. apply find_some in Hget. destruct Hget as [_ Hm].
  unfold f. rewrite Hm. simpl. rewrite Hm. reflexivity.
Qed.

End DocumentUpdateFacts.

(** ** Creating documents *)

Section CreateFacts.

Import Js Documents.
Local Open Scope string_scope.

Variable db : Remote.
Variable dbCustomers : Customers.Remote.
Variable dbBuilders : Builders.Remote.

(** What a local [createDocument] that has a number gives: the document it
    appends, and the customers and builders it may add one of. *)
Lemma createLocal_appends (now : Date) (data : PartialDocument) (s : Store)
  (number : string) :
  numberFor s now data s = (Returned number, s) ->
  exists doc s',
    Spec.createLocal db dbCustomers dbBuilders now data s
    = (Returned (Some doc), s')
    /\ documents s' = (documents s ++ [doc])%list
    /\ id doc = Spec.newDocumentId now data
    /\ documentNumber doc = spread (p_documentNumber data) number
    /\ documentType doc = p_documentType data
    /\ status doc = spread (p_status data) pending_collection
    /\ (List.length (customers s) <= List.length (customers s')
        <= List.length (customers s) + 1)%nat
    /\ (List.length (builders s) <= List.length (builders s')
        <= List.length (builders s) + 1)%nat.
Proof.
  intros Hnum.
  unfold Spec.createLocal, run, createDocument.
  cbv beta iota zeta. unfold bind at 1. rewrite Hnum.
  unfold bind, onCustomers, onBuilders, onDocuments, zoom, setState, ret,
    createCustomer, addDocumentToCustomer, createBuilder, addDocumentToBuilder,
    getCustomerByPhone, getBuilderByName,
    Customers.createCustomer, Customers.addDocumentToCustomer,
    Customers.updateCustomer, Builders.createBuilder,
    Builders.addDocumentToBuilder, Builders.updateBuilder,
    bind, setState, ret.
  cbn [customerName customerPhone builderName id propertyDetails customerEmail].
  destruct (truthyString _ && truthyString _);
    [destruct (Customers.getCustomerByPhone _ _) as [c|];
       [destruct (Customers.getCustomer _ _) as [c'|];
          [destruct (arrayIncludes _ _)|]|]|];
    cbn [fst snd customers builders documents negb];
    (destruct (truthyString _);
       [destruct (Builders.getBuilderByName _ _) as [b|];
          [destruct (Builders.getBuilder _ _) as [b'|];
             [destruct (arrayIncludes _ _)|]|]|]);
    cbn [fst snd customers builders documents negb];
    (eexists; eexists; split; [reflexivity|]);
    cbn [fst snd customers builders documents id documentNumber documentType
           status];
    rewrite ?length_map, ?length_app; simpl List.length;
    repeat split; try reflexivity; lia.
Qed.

Lemma numberFor_cases (now : Date) (data : PartialDocument) (s : Store) :
  (orString (p_documentNumber data) "" = "" /\ p_documentType data = None
   /\ exists e, numberFor s now data s = (Threw e, s))
  \/ exists number,
       numberFor s now data s = (Returned number, s)
       /\ (p_documentNumber data = None -> forall type,
             p_documentType data = Some type ->
             number = generateDocumentNumber s now type).
Proof.
  unfold numberFor, ret, throw.
  destruct (p_documentNumber data) as [[|c r]|]; simpl.
  - destruct (p_documentType data) as [type|].
    + right. eexists. split; [reflexivity|]. discriminate.
    + left. split; [reflexivity|]. split; [reflexivity|]. eexists. reflexivity.
  - right. eexists. split; [reflexivity|]. discriminate.
  - destruct (p_documentType data) as [type|].
    + right. eexists. split; [reflexivity|].
      intros _ type' E. injection E as <-. reflexivity.
    + left. split; [reflexivity|]. split; [reflexivity|]. eexists. reflexivity.
Qed.

(** X9. [createDocument] in local mode throws exactly when [data] has neither
    a non-empty documentNumber nor a documentType, and then leaves the three
    stores as they were.  In every other case it returns a document, appends
    exactly that document to the store, and adds at most one customer and at
    most one builder; the ID and the status of the document are those of
    [data] when it carries them, "DOC" followed by the time and
    pending_collection otherwise. *)
Theorem createDocument_throws_or_appends (now : Date) (data : PartialDocument)
  (s : Store) :
  let missing :=
    orString (p_documentNumber data) "" = "" /\ p_documentType data = None in
  (missing ->
   exists e,
     Spec.createLocal db dbCustomers dbBuilders now data s = (Threw e, s))
  /\ (~ missing ->
      exists doc s',
        Spec.createLocal db dbCustomers dbBuilders now data s
        = (Returned (Some doc), s')
        /\ documents s' = (documents s ++ [doc])%list
        /\ id doc = spread (p_id data) ("DOC" ++ intToString (getTime now))
        /\ status doc = spread (p_status data) pending_collection
        /\ (List.length (customers s') <= List.length (customers s) + 1)%nat
        /\ (List.length (builders s') <= List.length (builders s) + 1)%nat).
Proof.
  cbv zeta. destruct (numberFor_cases now data s)
    as [(Hn & Ht & e & He)|(number & Hnum & _)].
  - split.
    + intros _. exists e.
      unfold Spec.createLocal, run, createDocument.
      cbv beta iota zeta. unfold bind at 1. rewrite He. reflexivity.
    + intros H. exfalso. apply H. split; assumption.
  - split.
    + intros [Hn Ht]. exfalso.
      unfold numberFor, ret, throw in Hnum.
      destruct (p_documentNumber data) as [[|c r]|]; simpl in Hn;
        try discriminate; rewrite Ht in Hnum; discriminate.
    + intros _.
      destruct (createLocal_appends now data s number Hnum)
        as (doc & s' & Hrun & Hdocs & Hid & _ & _ & Hst & Hc & Hb).
      exists doc, s'. repeat split; try assumption; lia.
Qed.

End CreateFacts.
(** ** Document numbers and deletion *)

Section NumberFacts.

Import Js Documents.
Local Open Scope string_scope.

Variable db : Remote.
Variable dbCustomers : Customers.Remote.
Variable dbBuilders : Builders.Remote.

(** The sequence number read back from its three-digit form. *)
Lemma pad3_decoded_below_100 :
  forallb (fun n =>
             match NilEmpty.uint_of_string (Spec.pad3 n) with
             | Some d => Nat.of_uint d =? n
             | None => false
             end%nat) (seq 0 100) = true.
Proof. vm_compute. reflexivity. Qed.

Lemma pad3_decoded (n : nat) :
  option_map Nat.of_uint (NilEmpty.uint_of_string (Spec.pad3 n)) = Some n.
Proof.
  destruct (Nat.lt_ge_cases n 100) as [H|H].
  - assert (Hn := proj1 (forallb_forall _ _) pad3_decoded_below_100 n).
    cbv beta in Hn.
    destruct (NilEmpty.uint_of_string (Spec.pad3 n)) as [d|].
    + simpl. f_equal. apply Nat.eqb_eq. apply Hn. apply in_seq. lia.
    + assert (false = true) by (apply Hn; apply in_seq; lia). discriminate.
  - unfold Spec.pad3.
    destruct (Nat.ltb_spec n 10); [lia|].
    destruct (Nat.ltb_spec n 100); [lia|].
    unfold natToString. rewrite NilEmpty.usu. simpl.
    rewrite DecimalNat.Unsigned.of_to. reflexivity.
Qed.

Lemma pad3_injective (n m : nat) : Spec.pad3 n = Spec.pad3 m -> n = m.
Proof.
  intros H. assert (Hn := pad3_decoded n). rewrite H, pad3_decoded in Hn.
  congruence.
Qed.

Lemma append_cancel (a x y : string) : a ++ x = a ++ y -> x = y.
Proof.
  induction a as [|c a IH]; simpl; intros H; [exact H|].
  injection H as H. apply IH. exact H.
Qed.

Lemma numberAfter_injective (type : DocumentType) (year : Z) (n m : nat) :
  Spec.numberAfter type year n = Spec.numberAfter type year m -> n = m.
Proof.
  unfold Spec.numberAfter. intros H.
  do 4 apply append_cancel in H.
  apply pad3_injective in H. lia.
Qed.

Lemma number_is_numberAfter (view : Store) (now : Date) (type : DocumentType) :
  generateDocumentNumber view now type
  = Spec.numberAfter type (getFullYear now)
      (Spec.countOfType type (documents view)).
Proof.
  unfold generateDocumentNumber, Spec.numberAfter, Spec.countOfType.
  rewrite typePrefix_computed, padStart_pad3. reflexivity.
Qed.

(** X10. Within one year the number generated for a type determines how many
    documents of the type the store holds: two stores that get the same
    number hold equally many.  So as long as documents are only added, the
    numbers generated for a type never repeat: after a document of the type
    is appended, the next number differs from the one before. *)
Theorem numbers_do_not_repeat (view view' : Store) (now : Date)
  (type : DocumentType) :
  (generateDocumentNumber view now type = generateDocumentNumber view' now type
   -> Spec.countOfType type (documents view)
      = Spec.countOfType type (documents view'))
  /\ forall doc,
       documentType doc = Some type ->
       generateDocumentNumber
         {| documents := documents view ++ [doc]; customers := customers view;
            builders := builders view |} now type
       <> generateDocumentNumber view now type.
Proof.
  split.
  - rewrite !number_is_numberAfter. apply numberAfter_injective.
  - intros doc Hty H. rewrite !number_is_numberAfter in H.
    apply numberAfter_injective in H.
    unfold Spec.countOfType in H. simpl in H.
    rewrite filter_app, length_app in H. simpl in H.
    unfold Spec.ofType in H at 2. rewrite Hty in H.
    assert (Hs : sameType (Some type) (Some type) = true)
      by (apply sameType_eq; reflexivity).
    rewrite Hs in H. simpl in H. lia.
Qed.

Lemma countOfType_after_delete_In (gone : string) (docs : list Document)
  (doc : Document) :
  id doc <> gone -> In doc docs -> In doc (Calls.deleteDocument gone docs).
Proof.
  intros Hne Hin.
  unfold Calls.deleteDocument, run, deleteDocument, setState. simpl.
  apply filter_In. split; [exact Hin|].
  apply negb_true_iff, String.eqb_neq. exact Hne.
Qed.

(** X11. Document numbers repeat after a deletion.  A document of a type is
    created with a generated number, then another document of that type is
    deleted; within the same year the next number generated for the type is
    the number of the document just created, which is still in the store. *)
Theorem number_reused_after_delete (now now' : Date) (data : PartialDocument)
  (type : DocumentType) (gone : string) (s : Store) :
  p_documentNumber data = None ->
  p_documentType data = Some type ->
  getFullYear now' = getFullYear now ->
  let s1 := snd (Spec.createLocal db dbCustomers dbBuilders now data s) in
  let rest := Calls.deleteDocument gone (documents s1) in
  Spec.newDocumentId now data <> gone ->
  Spec.countOfType type rest = Spec.countOfType type (documents s) ->
  exists doc,
    fst (Spec.createLocal db dbCustomers dbBuilders now data s)
    = Returned (Some doc)
    /\ In doc rest
    /\ generateDocumentNumber (Calls.storeOf rest) now' type
       = documentNumber doc.
Proof.
  intros Hnum Hty Hyear. cbv zeta.
  destruct (numberFor_cases now data s)
    as [(_ & Ht & _)|(number & Hn & Hgen)]; [congruence|].
  specialize (Hgen Hnum type Hty).
  destruct (createLocal_appends db dbCustomers dbBuilders now data s number Hn)
    as (doc & s' & Hrun & Hdocs & Hid & Hdn & _).
  rewrite Hrun. cbn [fst snd]. rewrite Hdocs. intros Hgone Hcount.
  exists doc. split; [reflexivity|]. split.
  - apply countOfType_after_delete_In; [congruence|].
    apply in_or_app. right. left. reflexivity.
  - rewrite Hdn, Hnum. simpl. rewrite Hgen, !number_is_numberAfter.
    simpl. rewrite Hcount, Hyear. reflexivity.
Qed.

End NumberFacts.

(** ** Builders are matched by a part of their name *)

Section BuilderMatchFacts.

Import Js Documents.
Local Open Scope string_scope.

Variable db : Remote.
Variable dbCustomers : Customers.Remote.
Variable dbBuilders : Builders.Remote.

Lemma prefix_spec (p s : string) :
  prefix p s = true <-> exists r, s = p ++ r.
Proof.
  revert s. induction p as [|c p IH]; intros s; simpl.
  - destruct s; (split; [intros _; eexists; reflexivity|reflexivity]).
  - destruct s as [|d s].
    + split; [discriminate|intros [r Hr]; discriminate].
    + change (prefix (String c p) (String d s))
        with (if ascii_dec c d then prefix p s else false).
      destruct (ascii_dec c d) as [->|Hne].
      * rewrite IH. split; intros [r Hr]; exists r.
        -- rewrite Hr. reflexivity.
        -- injection Hr as Hr. exact Hr.
      * split; [discriminate|].
        intros [r Hr]. injection Hr as Hc _. congruence.
Qed.

(** [String.prototype.includes]: [sub] occurs somewhere inside [s]. *)
Lemma includes_spec (s sub : string) :
  includes s sub = true <-> exists a b, s = a ++ sub ++ b.
Proof.
  induction s as [|c s IH].
  - change (includes "" sub) with (prefix sub "" || false).
    rewrite orb_false_r, prefix_spec. split.
    + intros [r Hr]. exists "", r. exact Hr.
    + intros (a & b & H). destruct a; [exists b; exact H|discriminate].
  - change (includes (String c s) sub)
      with (prefix sub (String c s) || includes s sub).
    rewrite orb_true_iff, prefix_spec, IH. split.
    + intros [[r Hr]|(a & b & H)].
      * exists "", r. exact Hr.
      * exists (String c a), b. simpl. rewrite H. reflexivity.
    + intros (a & b & H). destruct a as [|c' a].
      * left. exists b. exact H.
      * right. simpl in H. injection H as _ H. exists a, b. exact H.
Qed.

(** The builders after a local [createDocument] that names a builder. *)
Lemma createLocal_builders (now : Date) (data : PartialDocument) (s : Store)
  (number q : string) :
  numberFor s now data s = (Returned number, s) ->
  p_builderName data = Some q -> q <> "" ->
  builders (snd (Spec.createLocal db dbCustomers dbBuilders now data s))
  = match Builders.getBuilderByName (builders s) q with
    | Some b =>
        snd (Builders.addDocumentToBuilder (builders s) false dbBuilders
               (Builders.id b) (Spec.newDocumentId now data) (builders s))
    | None =>
        (builders s ++
         [ {| Builders.id := Builders.generateBuilderId (builders s);
              Builders.name := q;
              Builders.contactPerson := "Contact Person";
              Builders.phone := "+91 0000000000";
              Builders.email := None;
              Builders.address := "Address not provided";
              Builders.registrationNumber := None;
              Builders.documents := [Spec.newDocumentId now data];
              Builders.createdAt := now |} ])%list
    end.
Proof.
  intros Hnum Hq Hne.
  unfold Spec.createLocal, run, createDocument.
  cbv beta iota zeta. unfold bind at 1. rewrite Hnum.
  unfold bind, onCustomers, onBuilders, onDocuments, zoom, setState, ret,
    createCustomer, addDocumentToCustomer, createBuilder, addDocumentToBuilder,
    getCustomerByPhone, getBuilderByName,
    Customers.createCustomer, Customers.addDocumentToCustomer,
    Customers.updateCustomer, Builders.createBuilder,
    bind, setState, ret.
  cbn [customerName customerPhone builderName id propertyDetails customerEmail].
  rewrite Hq. cbn [spread]. rewrite (truthy_nonempty q Hne).
  fold (Spec.newDocumentId now data).
  destruct (truthyString _ && truthyString _);
    [destruct (Customers.getCustomerByPhone _ _) as [c|];
       [destruct (Customers.getCustomer _ _) as [c'|];
          [destruct (arrayIncludes _ _)|]|]|];
    cbn [fst snd customers builders documents negb];
    (destruct (Builders.getBuilderByName (builders s) q) as [b|];
       [destruct (Builders.addDocumentToBuilder _ _ _ _ _ _) as [o bs']
       |]);
    cbn [fst snd customers builders documents negb];
    try reflexivity;
    destruct o; reflexivity.
Qed.

Lemma addDocumentToBuilder_names (bs : list Builders.Builder)
  (builderId documentId : string) :
  map Builders.name
    (snd (Builders.addDocumentToBuilder bs false dbBuilders builderId
            documentId bs))
  = map Builders.name bs.
Proof.
  unfold Builders.addDocumentToBuilder, Builders.updateBuilder, bind, setState,
    ret.
  destruct (Builders.getBuilder bs builderId) as [b|]; [|reflexivity].
  destruct (arrayIncludes _ _); cbn [negb fst snd]; [reflexivity|].
  rewrite map_map. apply map_ext. intros x.
  destruct (Builders.id x =? builderId); reflexivity.
Qed.

(** X12. A local [createDocument] looks the builder up by a part of its name.
    For names made of ASCII characters: when the lower-cased builderName of
    the new document occurs inside the lower-cased name of a builder of the
    store, no builder is created and the names of the builders stay as they
    were, even though no builder has the document's builderName; only when no
    builder's name contains it is a builder of that name, holding the new
    document, appended. *)
Theorem createDocument_matches_builder_by_substring (now : Date)
  (data : PartialDocument) (s : Store) (number q : string) :
  numberFor s now data s = (Returned number, s) ->
  p_builderName data = Some q -> q <> "" ->
  isAscii q = true ->
  (forall b, In b (builders s) -> isAscii (Builders.name b) = true) ->
  let contains b :=
    exists a c,
      toLowerCase (Builders.name b) = a ++ toLowerCase q ++ c in
  let after :=
    builders (snd (Spec.createLocal db dbCustomers dbBuilders now data s)) in
  ((exists b, In b (builders s) /\ contains b) ->
   map Builders.name after = map Builders.name (builders s))
  /\ ((forall b, In b (builders s) -> ~ contains b) ->
      exists nb,
        after = (builders s ++ [nb])%list
        /\ Builders.name nb = q
        /\ Builders.documents nb = [Spec.newDocumentId now data]).
Proof.
  intros Hnum Hq Hne _ _. cbv zeta.
  rewrite (createLocal_builders now data s number q Hnum Hq Hne).
  unfold Builders.getBuilderByName, find.
  destruct (List.find _ (builders s)) as [b|] eqn:Hfind; split.
  - intros _. apply addDocumentToBuilder_names.
  - intros Hnone. exfalso.
    apply find_some in Hfind. destruct Hfind as [Hin Hinc].
    apply (Hnone b Hin). apply includes_spec. exact Hinc.
  - intros (b & Hin & Hc). exfalso.
    assert (H := find_none _ _ Hfind b Hin). cbv beta in H.
    apply includes_spec in Hc. congruence.
  - intros _. eexists. split; [reflexivity|]. split; reflexivity.
Qed.

End BuilderMatchFacts.

(** ** Attendance: statistics and ranges *)

Section AttendanceStatsFacts.

Import Js Attendance AttendanceQueries.
Local Open Scope string_scope.

(** The days counted as worked and the days counted as absent or on leave are
    days of the range. *)
Lemma status_counts_le {T : Type} (records : list (AttendanceRecord T)) :
  (List.length (filter (fun r => sameStatus (status r) present) records)
   + List.length (filter (fun r => sameStatus (status r) late) records)
   + List.length (filter (fun r => sameStatus (status r) half_day) records)
   + List.length (filter (fun r => sameStatus (status r) absent) records)
   + List.length (filter (fun r => sameStatus (status r) on_leave) records)
   <= List.length records)%nat.
Proof.
  induction records as [|r records IH]; simpl; [lia|].
  destruct (status r); simpl; lia.
Qed.

Context {num : Type} {arith : Number num}.

Lemma number_nonneg (n : nat) : (0 <= number n)%Q.
Proof.
  unfold number. change 0%Q with (inject_Z 0). simpl. rewrite <- Zle_Qle. lia.
Qed.

Lemma number_pos (n : nat) : (0 < n)%nat -> (0 < number n)%Q.
Proof.
  intros H. unfold number. change 0%Q with (inject_Z 0). simpl.
  rewrite <- Zlt_Qlt. lia.
Qed.

Lemma number_le (n m : nat) : (n <= m)%nat -> (number n <= number m)%Q.
Proof. intros H. unfold number. simpl. rewrite <- Zle_Qle. lia. Qed.


(** X14. The days [getUserAttendanceStats] counts for a user are the records
    [getAttendanceByDateRange] gives for the same range and user, provided
    the user ID is not empty; asked for the empty user ID,
    [getAttendanceByDateRange] gives the records of all users, as it does
    without a user ID. *)
Theorem stats_count_the_range (records : list (AttendanceRecord num))
  (startDate endDate : Date) :
  (forall userId_,
     userId_ <> "" ->
     totalDays (getUserAttendanceStats records userId_ startDate endDate)
     = List.length
         (getAttendanceByDateRange records startDate endDate (Some userId_)))
  /\ getAttendanceByDateRange records startDate endDate (Some "")
     = getAttendanceByDateRange records startDate endDate None
  /\ forall userId_ record,
       In record
         (getAttendanceByDateRange records startDate endDate userId_) ->
       In record records
       /\ (getTime startDate <= getTime (date record) <= getTime endDate)%Z.
Proof.
  split; [|split].
  - intros userId_ Hne.
    unfold getUserAttendanceStats, getAttendanceByDateRange.
    cbn [totalDays]. f_equal. apply filter_ext. intros r.
    destruct userId_ as [|c u]; [congruence|].
    destruct (userId r =? String c u); destruct (_ <=? _)%Z;
      destruct (_ <=? _)%Z; reflexivity.
  - reflexivity.
  - intros userId_ record Hin.
    unfold getAttendanceByDateRange in Hin. apply filter_In in Hin.
    destruct Hin as [Hin Hp]. split; [exact Hin|].
    apply andb_true_iff in Hp. destruct Hp as [Hp _].
    apply andb_true_iff in Hp. destruct Hp as [H1 H2].
    apply Z.leb_le in H1, H2. lia.
Qed.

End AttendanceStatsFacts.
(** ** Attendance: the day of a user, from clock-in to clock-out *)

Section AttendanceDayFacts.

Import Js Attendance AttendanceQueries.
Local Open Scope string_scope.

Local Open Scope num_scope.

Context {num : Type} {arith : Number num}.

Lemma target_of_user (user : Auth.User) :
  Auth.id user <> "" ->
  targetUserId (Some user) None = Some (Auth.id user)
  /\ targetUserId (Some user) (Some (Auth.id user)) = Some (Auth.id user)
  /\ truthyString (Auth.id user) = true.
Proof.
  intros Hne. unfold targetUserId. simpl.
  destruct (Auth.id user) as [|c r]; [congruence|]. auto.
Qed.

(** For a signed-in user with a non-empty ID, [getTodayAttendance()] is the
    record [clockIn] looks up. *)
Lemma getTodayAttendance_user (user : Auth.User)
  (records : list (AttendanceRecord num)) (now : Date) :
  Auth.id user <> "" ->
  getTodayAttendance (Some user) records now None
  = Spec.todaysRecord user now records
  /\ getTodayAttendance (Some user) records now (Some (Auth.id user))
     = Spec.todaysRecord user now records.
Proof.
  intros Hne. destruct (target_of_user user Hne) as (H1 & H2 & H3).
  unfold getTodayAttendance. rewrite H1, H2, H3. split; reflexivity.
Qed.

Lemma find_stronger {A} (p q : A -> bool) (l : list A) (x : A) :
  List.find p l = Some x -> q x = true ->
  (forall y, q y = true -> p y = true) ->
  List.find q l = Some x.
Proof.
  intros Hfind Hq Himp. induction l as [|y l IH]; simpl in *; [discriminate|].
  destruct (p y) eqn:Hp.
  - injection Hfind as ->. rewrite Hq. reflexivity.
  - destruct (q y) eqn:Hqy; [rewrite (Himp y Hqy) in Hp; discriminate|].
    apply IH. exact Hfind.
Qed.

Lemma find_singleton {A} (p : A -> bool) (x : A) :
  p x = true -> List.find p [x] = Some x.
Proof. intros H. simpl. rewrite H. reflexivity. Qed.

Lemma find_replaced_last {A} (p : A -> bool) (f : A -> A) (l : list A)
  (x c : A) :
  List.find p l = None -> p c = true ->
  (forall y, f y = c \/ f y = y) -> f x = c ->
  List.find p (map f (l ++ [x])) = Some c.
Proof.
  intros Hnone Hc Hf Hx. induction l as [|y l IH]; simpl in *.
  - rewrite Hx, Hc. reflexivity.
  - destruct (p y) eqn:Hp; [discriminate|].
    destruct (Hf y) as [->| ->].
    + rewrite Hc. reflexivity.
    + rewrite Hp. apply IH. exact Hnone.
Qed.

(** The record of the user for today is the one [clockOut] closes when it
    holds a clock-in and no clock-out. *)
Lemma active_of_today (user : Auth.User) (records : list (AttendanceRecord num))
  (now : Date) (record : AttendanceRecord num) (clockedIn : Date) :
  Spec.todaysRecord user now records = Some record ->
  clockInTime record = Some clockedIn -> clockOutTime record = None ->
  activeRecord records now user = Some record.
Proof.
  intros Hfind Hin Hout. unfold activeRecord, find.
  apply (find_stronger _ _ _ _ Hfind).
  - apply find_some in Hfind. destruct Hfind as [_ Hp].
    rewrite Hp, Hin, Hout. reflexivity.
  - intros y Hy. apply andb_true_iff in Hy. destruct Hy as [Hy _].
    apply andb_true_iff in Hy. destruct Hy as [Hy _]. exact Hy.
Qed.

(** X15. A day of a user, in local mode.  A signed-in user without a record
    for today clocks in: the record is appended, [getTodayAttendance] gives
    it and [isUserClockedIn] holds for the rest of the day.  A clock-out
    later that day then succeeds, closes that record with the two times, and
    [isUserClockedIn] no longer holds. *)
Theorem clock_in_then_out (user : Auth.User) (settings : AttendanceSettings num)
  (now now' : Date) (location_ notes_ notes' : option string)
  (records : list (AttendanceRecord num)) :
  Auth.id user <> "" ->
  Spec.todaysRecord user now records = None ->
  toDateString now' = toDateString now ->
  exists record closed records',
    Spec.clockInLocal user settings now location_ notes_ records
    = (Returned record, (records ++ [record])%list)
    /\ getTodayAttendance (Some user) (records ++ [record]) now' None
       = Some record
    /\ isUserClockedIn (Some user) (records ++ [record]) now' None = true
    /\ Spec.clockOutLocal user settings now' notes' (records ++ [record])
       = (Returned closed, records')
    /\ clockInTime closed = Some now
    /\ clockOutTime closed = Some now'
    /\ getTodayAttendance (Some user) records' now' None = Some closed
    /\ isUserClockedIn (Some user) records' now' None = false.
Proof.
  intros Hne Hnone Hday.
  destruct (target_of_user user Hne) as (Ht1 & Ht2 & Ht3).
  assert (Hnone' : Spec.todaysRecord user now' records = None).
  { unfold Spec.todaysRecord in *.
    change (toDateString (startOfDay now')) with (toDateString now').
    rewrite Hday. exact Hnone. }
  set (record :=
         {| id := generateAttendanceId records;
            userId := Auth.id user;
            userName := Auth.name user;
            userRole := Auth.role user;
            date := startOfDay now;
            clockInTime := Some now;
            clockOutTime := None;
            breakTime := None;
            totalHours := None;
            overtime := None;
            status :=
              if match timeClip (ofInteger (nineOClock (startOfDay now))
                                 + lateThresholdMinutes settings
                                   * ofInteger 60000) with
                 | Some threshold => (threshold <? getTime now)%Z
                 | None => false
                 end
              then late else present;
            location := location_;
            notes := notes_;
            createdAt := now;
            updatedAt := now |} : AttendanceRecord num).
  assert (Habout :
            (userId record =? Auth.id user)
            && sameDateString (toDateString (date record))
                 (toDateString (startOfDay now')) = true).
  { apply about_userDay. unfold Spec.userDay. cbn [userId date record].
    change (toDateString (startOfDay now)) with (toDateString now).
    rewrite Hday. reflexivity. }
  assert (Htoday : Spec.todaysRecord user now' (records ++ [record])
                   = Some record).
  { unfold Spec.todaysRecord, find. rewrite find_app_none by exact Hnone'.
    apply find_singleton. exact Habout. }
  assert (Hactive : activeRecord (records ++ [record]) now' user = Some record).
  { apply (active_of_today user _ now' record now Htoday); reflexivity. }
  set (closed := closeRecord settings now' record now notes').
  exists record, closed,
    (replaceById (id record) closed (records ++ [record])).
  split.
  { unfold Spec.clockInLocal, run, clockIn.
    unfold Spec.todaysRecord in Hnone. rewrite Hnone. reflexivity. }
  split.
  { rewrite (proj1 (getTodayAttendance_user user _ now' Hne)). exact Htoday. }
  split.
  { unfold isUserClockedIn. rewrite Ht1, Ht3. cbn [negb].
    rewrite (proj2 (getTodayAttendance_user user _ now' Hne)), Htoday.
    reflexivity. }
  split.
  { unfold Spec.clockOutLocal.
    apply (clockOut_runs user settings now' notes' _ record now);
      [exact Hactive|reflexivity]. }
  split; [reflexivity|]. split; [reflexivity|].
  assert (Hclosed : Spec.todaysRecord user now' 
                      (replaceById (id record) closed (records ++ [record]))
                    = Some closed).
  { unfold Spec.todaysRecord, find, replaceById.
    apply find_replaced_last.
    - exact Hnone'.
    - exact Habout.
    - intros y. destruct (id y =? id record); auto.
    - rewrite String.eqb_refl. reflexivity. }
  split.
  { rewrite (proj1 (getTodayAttendance_user user _ now' Hne)). exact Hclosed. }
  unfold isUserClockedIn. rewrite Ht1, Ht3. cbn [negb].
  rewrite (proj2 (getTodayAttendance_user user _ now' Hne)), Hclosed.
  reflexivity.
Qed.

(** X18. One record for a user and a day.  With pairwise distinct record IDs,
    [markAttendance] and a local [clockOut] keep the store free of two
    records about the same user and day, and so does a local [clockIn] of a
    user who has no record for today. *)
Theorem one_record_per_user_day (user : Auth.User)
  (settings : AttendanceSettings num) (now : Date)
  (records : list (AttendanceRecord num)) :
  NoDup (map id records) ->
  Spec.uniquePerUserDay records ->
  (forall userId_ date_ status_ notes_,
     Spec.uniquePerUserDay
       (snd (Spec.markLocal now userId_ date_ status_ notes_ records)))
  /\ (forall notes_,
        Spec.uniquePerUserDay
          (snd (Spec.clockOutLocal user settings now notes_ records)))
  /\ (forall location_ notes_,
        Spec.todaysRecord user now records = None ->
        Spec.uniquePerUserDay
          (snd (Spec.clockInLocal user settings now location_ notes_
                  records))).
Proof.
  intros Hids Huniq. split; [|split].
  - intros. apply markAttendance_unique; assumption.
  - intros. apply clockOut_unique; assumption.
  - intros. apply clockIn_unique_when_new; assumption.
Qed.

(** X16. The hours shown while the user is clocked in against the hours
    [clockOut] stores.  For the record of the user for today, clocked in at
    t0 and not yet out, with a counted break of br minutes,
    [getCurrentWorkingHours] at t1 takes the break from the elapsed hours,
    rounds the difference to hundredths and shows max(0, .) of it, while
    [clockOut] at t1 rounds the elapsed hours to hundredths and stores that
    less the break: the two figures are rounded at different places. *)
Theorem working_hours_and_clockOut (user : Auth.User)
  (settings : AttendanceSettings num) (now : Date) (notes_ : option string)
  (records : list (AttendanceRecord num)) (record : AttendanceRecord num)
  (clockedIn : Date) (br : num) :
  Auth.id user <> "" ->
  getTodayAttendance (Some user) records now None = Some record ->
  clockInTime record = Some clockedIn ->
  clockOutTime record = None ->
  Spec.countedBreak record br ->
  getCurrentWorkingHours (Some user) records now None
  = Math_max (ofInteger 0)
      (Spec.toHundredths
         (Spec.elapsedHours (getTime clockedIn) (getTime now)
          - br / ofInteger 60))
  /\ exists closed,
       fst (Spec.clockOutLocal user settings now notes_ records)
       = Returned closed
       /\ totalHours closed
          = Some (Spec.toHundredths
                    (Spec.elapsedHours (getTime clockedIn) (getTime now))
                  - br / ofInteger 60).
Proof.
  intros Hne Htoday Hin Hout Hbr.
  destruct (target_of_user user Hne) as (Ht1 & Ht2 & Ht3).
  rewrite (proj1 (getTodayAttendance_user user _ now Hne)) in Htoday.
  assert (Hactive := active_of_today user records now record clockedIn
                       Htoday Hin Hout).
  assert (Hb := orNumber_counted record br Hbr).
  split.
  - unfold getCurrentWorkingHours. rewrite Ht1, Ht3. cbn [negb].
    rewrite (proj2 (getTodayAttendance_user user _ now Hne)), Htoday.
    destruct record as [i u un ur d ci co b th ot st lo no cr up].
    cbn [clockInTime breakTime] in *. subst ci.
    rewrite Hb. reflexivity.
  - rewrite (clockOut_runs user settings now notes_ records record
               clockedIn Hactive Hin).
    eexists. split; [reflexivity|].
    cbn [closeRecord totalHours]. rewrite Hb. reflexivity.
Qed.

End AttendanceDayFacts.

(** *** Short days, in exact arithmetic *)

Section ShortDayFacts.

Import Js Attendance AttendanceQueries.
Local Open Scope string_scope.

Lemma Math_round_le (x : Q) : (Math_round x <= x + (1 # 2))%Q.
Proof. apply Qfloor_le. Qed.

Lemma Math_max_0_spec (x : Q) :
  ((x <= 0)%Q -> (Math_max 0%Q x == 0)%Q)
  /\ ((0 <= x)%Q -> (Math_max 0%Q x == x)%Q).
Proof.
  simpl. unfold Exact.max.
  destruct (Qle_bool 0 x) eqn:H.
  - apply Qle_bool_iff in H. split; intros Hx; [|reflexivity].
    apply Qle_antisym; assumption.
  - split; intros Hx; [reflexivity|].
    apply Qle_bool_iff in Hx. congruence.
Qed.


End ShortDayFacts.
(** ** Leave requests *)

Section LeaveFacts.

Import Js Leave.
Local Open Scope string_scope.

Lemma reviewed_twice (request : LeaveRequest) (now now' : Date)
  (status_ status' : string) (reviewer reviewer' : Auth.User)
  (comments comments' : option string) :
  reviewed now' (reviewed now request status_ reviewer comments) status'
    reviewer' comments'
  = reviewed now' request status' reviewer' comments'.
Proof. reflexivity. Qed.

Lemma review_after_review (requests : list LeaveRequest) (id_ : string)
  (first second : LeaveRequest -> LeaveRequest) :
  (forall r, id (first r) = id r) ->
  (forall r, second (first r) = second r) ->
  map (fun r => if id r =? id_ then second r else r)
    (map (fun r => if id r =? id_ then first r else r) requests)
  = map (fun r => if id r =? id_ then second r else r) requests.
Proof.
  intros Hid Htwice. rewrite map_map. apply map_ext. intros r.
  destruct (id r =? id_) eqn:E.
  - rewrite Hid, E. apply Htwice.
  - rewrite E. reflexivity.
Qed.

(** X19. Reviews of a leave request are not checked against its status: the
    last one wins.  Rejecting a request after it was approved leaves the
    store as rejecting it alone does, and approving after a rejection as
    approving alone; afterwards every request with that ID carries the
    status, the reviewer and the comments of the last review, the number of
    requests is unchanged, and requests with another ID are untouched.
    Without a signed-in user both calls throw and change nothing. *)
Theorem leave_review_last_wins (approver rejecter : Auth.User)
  (now now' : Date) (id_ : string) (comments : option string)
  (reason_ : string) (requests : list LeaveRequest) :
  let approve := approveLeaveRequest (Some approver) now id_ comments in
  let reject := rejectLeaveRequest (Some rejecter) now' id_ reason_ in
  snd (reject (snd (approve requests))) = snd (reject requests)
  /\ snd (approve (snd (reject requests))) = snd (approve requests)
  /\ List.length (snd (reject requests)) = List.length requests
  /\ (forall r,
        In r (snd (reject requests)) ->
        if id r =? id_
        then status r = "rejected"
             /\ reviewedBy r = Some (Auth.name rejecter)
             /\ reviewedAt r = Some now'
             /\ reviewComments r = Some reason_
        else In r requests)
  /\ approveLeaveRequest None now id_ comments requests
     = (Threw (ErrorObject "User not authenticated"), requests)
  /\ rejectLeaveRequest None now' id_ reason_ requests
     = (Threw (ErrorObject "User not authenticated"), requests).
Proof.
  cbv zeta. unfold approveLeaveRequest, rejectLeaveRequest, setState.
  cbn [snd]. split; [|split; [|split; [|split; [|split]]]].
  - apply review_after_review; reflexivity.
  - apply review_after_review; reflexivity.
  - apply length_map.
  - intros r Hin. apply in_map_iff in Hin. destruct Hin as (x & Hx & Hin).
    destruct (id x =? id_) eqn:E; subst r.
    + cbn [reviewed id status reviewedBy reviewedAt reviewComments].
      rewrite E. auto.
    + rewrite E. exact Hin.
  - reflexivity.
  - reflexivity.
Qed.

End LeaveFacts.
(** ** Salary: payroll and statistics *)

Section PayrollFacts.

Import Js Salary SalaryStore.
Local Open Scope string_scope.
Local Open Scope num_scope.

Context {num : Type} {arith : Number num}.

Variable users : list Auth.User.
Variable attendanceRecords : list (Attendance.AttendanceRecord num).
Variable view : Store num.
Variable now : Date.
Variable newDate : Z -> Z -> Z -> Date.

(** The net salary of a payroll record is its gross salary less its
    deductions. *)
Lemma payrollRecord_net (month_ year_ : Z) (staff : Auth.User)
  (config : StaffSalaryConfig num) :
  let r :=
    payrollRecord attendanceRecords view now newDate month_ year_ staff
      config in
  netSalary r = grossSalary r - deductionAmounts r.
Proof. reflexivity. Qed.

(** The loop makes one record for every member of the list that has an
    active configuration, in the order of the list. *)
Lemma payrollLoop_complete (month_ year_ : Z) (staffList : list Auth.User) :
  Forall2
    (fun staff r =>
       exists config,
         getStaffConfig view (Auth.id staff) = Some config
         /\ r = payrollRecord attendanceRecords view now newDate month_ year_
                  staff config)
    (filter (fun staff =>
               match getStaffConfig view (Auth.id staff) with
               | Some _ => true
               | None => false
               end)
       staffList)
    (payrollLoop attendanceRecords view now newDate month_ year_ staffList).
Proof.
  induction staffList as [|staff rest IH]; simpl; [constructor|].
  destruct (getStaffConfig view (Auth.id staff)) as [config|] eqn:Hc.
  - constructor; [|exact IH]. exists config. rewrite Hc. auto.
  - exact IH.
Qed.

(** What every record of a payroll batch looks like. *)
Lemma payrollLoop_records (month_ year_ : Z) (staffList : list Auth.User)
  (r : SalaryRecord num) :
  In r (payrollLoop attendanceRecords view now newDate month_ year_ staffList) ->
  id r = generateSalaryId view
  /\ status r = draft
  /\ netSalary r = grossSalary r - deductionAmounts r
  /\ bonus r = ofInteger 0
  /\ month (payPeriod r) = month_ /\ year (payPeriod r) = year_
  /\ exists staff config hours,
       In staff staffList
       /\ getStaffConfig view (Auth.id staff) = Some config
       /\ userId r = Auth.id staff
       /\ userName r = Auth.name staff
       /\ baseSalary r = Salary.baseSalary config
       /\ allowances r = Salary.allowances config
       /\ deductions r = Salary.deductions config
       /\ grossSalary r = gross (calculateSalary config (Some hours) None)
       /\ netSalary r = net (calculateSalary config (Some hours) None).
Proof.
  induction staffList as [|staff rest IH]; simpl; [contradiction|].
  destruct (getStaffConfig view (Auth.id staff)) as [config|] eqn:Hc.
  - intros [<-|Hin].
    + do 6 (split; [reflexivity|]).
      eexists staff, config, _.
      split; [left; reflexivity|]. split; [exact Hc|].
      repeat split; reflexivity.
    + destruct (IH Hin)
        as (H1 & H2 & H3 & H4 & H5 & H6 & staff' & config' & h & H7 & H8).
      do 6 (split; [assumption|]). exists staff', config', h. auto.
  - intros Hin.
    destruct (IH Hin)
      as (H1 & H2 & H3 & H4 & H5 & H6 & staff' & config' & h & H7 & H8).
    do 6 (split; [assumption|]). exists staff', config', h. auto.
Qed.

Lemma payrollLoop_length (month_ year_ : Z) (staffList : list Auth.User) :
  (List.length
     (payrollLoop attendanceRecords view now newDate month_ year_ staffList)
   <= List.length staffList)%nat.
Proof.
  induction staffList as [|staff rest IH]; simpl; [lia|].
  destruct (getStaffConfig view (Auth.id staff)); simpl; lia.
Qed.

Lemma filter_filter {A} (p q : A -> bool) (l : list A) :
  filter q (filter p l) = filter (fun x => p x && q x) l.
Proof.
  induction l as [|x l IH]; simpl; [reflexivity|].
  destruct (p x); simpl; [destruct (q x)|]; rewrite IH; reflexivity.
Qed.

(** X20. [generatePayroll] appends one draft record for every active user
    that has an active salary configuration, in the order of the users and
    for nobody else, and one summary.  The record of a user is for the
    month asked for and is made from the user's configuration: it carries
    its base salary, allowances and deductions, no bonus, and the gross and
    net salary [calculateSalary] gives for the configuration and some hours
    of overtime; its net salary is its gross salary less its deductions.
    The summary counts these records as pending and none as paid.  Every
    record of the batch gets the same ID, the one generated from the number
    of records before the call, so with two records or more the IDs of the
    store are no longer distinct. *)
Theorem generatePayroll_batch (month_ year_ : Z) :
  exists batch summary s',
    generatePayroll users attendanceRecords view now newDate month_ year_ view
    = (Returned summary, s')
    /\ salaryRecords s' = (salaryRecords view ++ batch)%list
    /\ staffConfigs s' = staffConfigs view
    /\ payrollSummaries s' = (payrollSummaries view ++ [summary])%list
    /\ summary_totalStaff summary = List.length batch
    /\ pendingCount summary = List.length batch
    /\ paidCount summary = 0%nat
    /\ Forall2
         (fun staff r =>
            exists config,
              getStaffConfig view (Auth.id staff) = Some config
              /\ r = payrollRecord attendanceRecords view now newDate month_
                       year_ staff config)
         (filter (fun staff =>
                    Auth.isActive staff
                    && match getStaffConfig view (Auth.id staff) with
                       | Some _ => true
                       | None => false
                       end)
            users)
         batch
    /\ (List.length batch <= List.length (filter Auth.isActive users))%nat
    /\ (forall r,
          In r batch ->
          id r = generateSalaryId view
          /\ status r = draft
          /\ netSalary r = grossSalary r - deductionAmounts r
          /\ bonus r = ofInteger 0
          /\ month (payPeriod r) = month_ /\ year (payPeriod r) = year_
          /\ exists staff config hours,
               In staff users /\ Auth.isActive staff = true
               /\ getStaffConfig view (Auth.id staff) = Some config
               /\ userId r = Auth.id staff
               /\ userName r = Auth.name staff
               /\ baseSalary r = Salary.baseSalary config
               /\ allowances r = Salary.allowances config
               /\ deductions r = Salary.deductions config
               /\ grossSalary r
                  = gross (calculateSalary config (Some hours) None)
               /\ netSalary r
                  = net (calculateSalary config (Some hours) None))
    /\ ((2 <= List.length batch)%nat -> ~ NoDup (map id (salaryRecords s'))).
Proof.
  set (batch := payrollLoop attendanceRecords view now newDate month_ year_
                  (filter Auth.isActive users)).
  assert (Hall := fun r =>
            payrollLoop_records month_ year_ (filter Auth.isActive users) r).
  fold batch in Hall.
  unfold generatePayroll, bind, onSalaryRecords, onPayrollSummaries, zoom,
    setState, ret.
  fold batch. cbv beta iota zeta.
  eexists batch, _, _. split; [reflexivity|].
  cbn [salaryRecords staffConfigs payrollSummaries summary_totalStaff
       pendingCount paidCount].
  fold batch.
  split; [reflexivity|]. split; [reflexivity|]. split; [reflexivity|].
  split; [reflexivity|]. split; [reflexivity|]. split; [reflexivity|].
  split.
  { rewrite <- filter_filter. apply payrollLoop_complete. }
  split; [apply payrollLoop_length|].
  split.
  { intros r Hr.
    destruct (Hall r Hr)
      as (H1 & H2 & H3 & H4 & H5 & H6 & staff & config & h & H7 & H8).
    do 6 (split; [assumption|]). exists staff, config, h.
    apply filter_In in H7. destruct H7 as [H7 H9]. auto. }
  intros Htwo Hnd.
  destruct batch as [|r1 [|r2 rest]] eqn:Hb; simpl in Htwo; try lia.
  rewrite map_app in Hnd. apply NoDup_app_remove_l in Hnd.
  simpl in Hnd. inversion Hnd as [|k ks Hnotin _]; subst.
  apply Hnotin. left.
  rewrite (proj1 (Hall r1 (or_introl eq_refl))).
  rewrite (proj1 (Hall r2 (or_intror (or_introl eq_refl)))). reflexivity.
Qed.

End PayrollFacts.

(** *** Statistics, in exact arithmetic *)

Section SalaryStatsFacts.

Import Js Salary SalaryStore.
Local Open Scope string_scope.

Variable view : Store Q.
Variable now : Date.

Lemma Math_min_spread_le (xs : list Q) (last : Q) :
  (Math_min_spread xs last <= last)%Q
  /\ forall x, In x xs -> (Math_min_spread xs last <= x)%Q.
Proof.
  induction xs as [|y xs [IH1 IH2]]; simpl.
  - split; [apply Qle_refl|contradiction].
  - unfold Exact.min.
    destruct (Qle_bool y (Math_min_spread xs last)) eqn:E.
    + apply Qle_bool_iff in E. split.
      * eapply Qle_trans; eassumption.
      * intros x [->|Hx]; [apply Qle_refl|].
        eapply Qle_trans; [exact E|]. apply IH2. exact Hx.
    + assert (Hlt : (Math_min_spread xs last <= y)%Q).
      { destruct (Qlt_le_dec (Math_min_spread xs last) y) as [H|H].
        - apply Qlt_le_weak. exact H.
        - apply Qle_bool_iff in H. congruence. }
      split; [exact IH1|].
      intros x [<-|Hx]; [exact Hlt|apply IH2; exact Hx].
Qed.

Lemma Math_min_spread_ge (xs : list Q) (last bound : Q) :
  (bound <= last)%Q -> (forall x, In x xs -> (bound <= x)%Q) ->
  (bound <= Math_min_spread xs last)%Q.
Proof.
  intros Hlast. induction xs as [|y xs IH]; simpl; intros H; [exact Hlast|].
  unfold Exact.min. destruct (Qle_bool y (Math_min_spread xs last)).
  - apply H. left. reflexivity.
  - apply IH. intros x Hx. apply H. right. exact Hx.
Qed.

Lemma Math_max_spread_ge (xs : list Q) (last : Q) :
  (last <= Math_max_spread xs last)%Q
  /\ forall x, In x xs -> (x <= Math_max_spread xs last)%Q.
Proof.
  induction xs as [|y xs [IH1 IH2]]; simpl.
  - split; [apply Qle_refl|contradiction].
  - unfold Exact.max.
    destruct (Qle_bool y (Math_max_spread xs last)) eqn:E.
    + apply Qle_bool_iff in E. split; [exact IH1|].
      intros x [<-|Hx]; [exact E|apply IH2; exact Hx].
    + assert (Hlt : (Math_max_spread xs last <= y)%Q).
      { destruct (Qlt_le_dec (Math_max_spread xs last) y) as [H|H].
        - apply Qlt_le_weak. exact H.
        - apply Qle_bool_iff in H. congruence. }
      split; [eapply Qle_trans; eassumption|].
      intros x [->|Hx]; [apply Qle_refl|].
      eapply Qle_trans; [apply IH2; exact Hx|exact Hlt].
Qed.


End SalaryStatsFacts.

Section SalaryStatusFacts.

Import Js Salary SalaryStore.
Local Open Scope string_scope.

Context {num : Type}.

Variable db : Remote num.
Variable loadSalaryDataFromDatabase : Action (Store num) unit.

(** X22. Paying and approving a salary are not checked against the status of
    the record.  In local mode [paySalary] returns and turns every record
    with the ID into a paid one whatever its status was (a draft, a
    cancelled record), keeping its amounts; [approveSalary] makes it
    approved by the name of the signed-in user, or by nobody when no user is
    signed in.  Records with another ID are untouched, and an ID the store
    does not hold changes nothing. *)
Theorem salary_status_unchecked (user : option Auth.User) (view : Store num)
  (now : Date) (id_ : string) :
  let pay := paySalary false view db loadSalaryDataFromDatabase now id_ view in
  let approve :=
    approveSalary user false view db loadSalaryDataFromDatabase now id_ view in
  fst pay = Returned tt
  /\ fst approve = Returned tt
  /\ List.length (salaryRecords (snd pay)) = List.length (salaryRecords view)
  /\ (forall r',
        In r' (salaryRecords (snd pay)) ->
        (id r' = id_ /\ status r' = paid)
        \/ (id r' <> id_ /\ In r' (salaryRecords view)))
  /\ (forall r,
        In r (salaryRecords view) -> id r = id_ ->
        exists r',
          In r' (salaryRecords (snd pay))
          /\ id r' = id_ /\ status r' = paid
          /\ netSalary r' = netSalary r /\ approvedBy r' = approvedBy r)
  /\ (forall r,
        In r (salaryRecords view) -> id r = id_ ->
        exists r',
          In r' (salaryRecords (snd approve))
          /\ id r' = id_ /\ status r' = approved
          /\ approvedBy r' = option_map Auth.name user
          /\ approvedAt r' = Some now)
  /\ ((forall r, In r (salaryRecords view) -> id r <> id_) ->
      snd pay = view /\ snd approve = view).
Proof.
  cbv zeta.
  unfold paySalary, approveSalary, updateSalaryRecord, onSalaryRecords, zoom,
    bind, setState, ret.
  cbn [fst snd salaryRecords].
  split; [reflexivity|]. split; [reflexivity|]. split; [apply length_map|].
  split; [|split; [|split]].
  - intros r' Hin. apply in_map_iff in Hin. destruct Hin as (r & <- & Hin).
    destruct (String.eqb_spec (id r) id_) as [E|E].
    + left. split; [exact E|reflexivity].
    + right. split; [exact E|exact Hin].
  - intros r Hin Hid. eexists. split.
    + apply in_map_iff. exists r. split; [reflexivity|exact Hin].
    + cbv beta. rewrite (proj2 (String.eqb_eq _ _) Hid).
      cbn. auto.
  - intros r Hin Hid. eexists. split.
    + apply in_map_iff. exists r. split; [reflexivity|exact Hin].
    + cbv beta. rewrite (proj2 (String.eqb_eq _ _) Hid).
      cbn. auto.
  - intros Hnone.
    assert (Hid : forall f : SalaryRecord num -> SalaryRecord num,
               map (fun r => if id r =? id_ then f r else r)
                 (salaryRecords view) = salaryRecords view).
    { intros f. rewrite <- (map_id (salaryRecords view)) at 2.
      apply map_ext_in. intros r Hr.
      destruct (String.eqb_spec (id r) id_) as [E|_]; [|reflexivity].
      exfalso. exact (Hnone r Hr E). }
    rewrite !Hid. destruct view. split; reflexivity.
Qed.

End SalaryStatusFacts.

(** ** The statements the service builds *)

Section StatementFacts.

Import Js DatabaseService DatabaseOps.
Local Open Scope string_scope.

Variable R : Type.

Lemma countChar_app (c : ascii) (a b : string) :
  countChar c (a ++ b) = (countChar c a + countChar c b)%nat.
Proof. induction a as [|d a IH]; simpl; [reflexivity|]. rewrite IH. lia. Qed.

Lemma join_cons (separator part : string) (rest : list string) :
  rest <> [] ->
  join separator (part :: rest) = part ++ separator ++ join separator rest.
Proof. destruct rest; [congruence|reflexivity]. Qed.

Lemma countChar_join_fields (keys : list string) (tail : string) :
  (forall k, In k keys -> countChar "?" k = 0%nat) ->
  countChar "?" tail = 0%nat ->
  countChar "?"
    (join ", " (map (fun k => (k ++ " = ?")%string) keys ++ [tail])%list)
  = List.length keys.
Proof.
  intros Hkeys Htail. induction keys as [|k keys IH].
  - exact Htail.
  - cbn [map app].
    rewrite join_cons by (destruct keys; discriminate).
    rewrite !countChar_app.
    rewrite IH by (intros x Hx; apply Hkeys; right; exact Hx).
    rewrite (Hkeys k) by (left; reflexivity). simpl. lia.
Qed.

(** A connected service sends the statement and its parameters in one
    request. *)
Lemma query_connected_request (this : Service) (net : Network R)
  (cfg : DatabaseConfig) (sql : string) (params : list Param)
  (calls : list Request) :
  isConnected this = true -> config this = Some cfg ->
  exists result,
    query this net sql params calls
    = (Returned result,
       (calls ++ [ {| url := "/api/db-query.php"; method := "POST";
                      body_config := cfg; body_sql := sql;
                      body_params := params |} ])%list).
Proof.
  intros Hc Hcfg. unfold query, tryCatch, bind, fetch, await, ret.
  rewrite Hc, Hcfg.
  destruct (net _) as [response|e]; [|eexists; reflexivity].
  destruct (ok response).
  - destruct (json response); eexists; reflexivity.
  - destruct (text response); eexists; reflexivity.
Qed.

(** X23. The UPDATE statement of [updateDocument].  When no field of the
    data is defined the call answers 'No fields to update' without a network
    call, connected or not.  Otherwise a connected service sends one request
    whose parameters are the defined values in order followed by the
    document ID, and, the keys holding no question mark, whose statement has
    exactly one placeholder for each parameter. *)
Theorem updateDocument_statement (this : Service) (net : Network R)
  (documentId : string) (documentData : Fields) (calls : list Request) :
  (forall entry, In entry documentData -> countChar "?" (fst entry) = 0%nat) ->
  let defined := filter (fun entry => isDefined (snd entry)) documentData in
  (defined = [] ->
   updateDocument this net documentId documentData calls
   = (Returned (failure "No fields to update"), calls))
  /\ (defined <> [] ->
      forall cfg,
        isConnected this = true -> config this = Some cfg ->
        exists result request,
          updateDocument this net documentId documentData calls
          = (Returned result, (calls ++ [request])%list)
          /\ body_params request
             = (map snd defined ++ [PString documentId])%list
          /\ countChar "?" (body_sql request)
             = List.length (body_params request)).
Proof.
  intros Hkeys. cbv zeta. unfold updateDocument.
  set (defined := filter _ documentData).
  split.
  - intros ->. reflexivity.
  - intros Hne cfg Hc Hcfg.
    rewrite length_map.
    destruct (Nat.eqb_spec (List.length defined) 0) as [H0|_].
    { destruct defined; [congruence|discriminate]. }
    destruct (query_connected_request this net cfg
                ("UPDATE documents SET "
                 ++ join ", "
                      (map (fun entry => fst entry ++ " = ?") defined
                       ++ ["updated_at = NOW()"])
                 ++ " WHERE id = ?")
                (map snd defined ++ [PString documentId]) calls Hc Hcfg)
      as [result Hq].
    exists result. eexists. split; [exact Hq|].
    cbn [body_params body_sql]. split; [reflexivity|].
    rewrite !countChar_app.
    rewrite <- (map_map fst (fun k => k ++ " = ?")).
    rewrite countChar_join_fields.
    + rewrite length_app, !length_map. simpl. lia.
    + intros k Hk. apply in_map_iff in Hk. destruct Hk as (entry & <- & Hin).
      apply Hkeys. apply filter_In in Hin. apply Hin.
    + reflexivity.
Qed.

(** X24. The SELECT statement of [getSalaryRecords]: for every combination of
    filters a connected service sends one request whose statement has exactly
    one placeholder for each parameter.  A month without a year, or a year
    without a month, adds no condition. *)
Theorem getSalaryRecords_statement (this : Service) (net : Network R)
  (cfg : DatabaseConfig) (filters : SalaryFilters) (calls : list Request) :
  isConnected this = true -> config this = Some cfg ->
  exists result request,
    getSalaryRecords this net filters calls
    = (Returned result, (calls ++ [request])%list)
    /\ countChar "?" (body_sql request) = List.length (body_params request)
    /\ (filter_month filters = None \/ filter_year filters = None ->
        forall p, In p (body_params request) ->
                  match p with PNumber _ => False | _ => True end).
Proof.
  intros Hc Hcfg. unfold getSalaryRecords.
  destruct (truthy (filter_userId filters));
    destruct (truthyNumber (filter_month filters)) eqn:Hm;
    destruct (truthyNumber (filter_year filters)) eqn:Hy;
    destruct (truthy (filter_status filters));
    cbn [andb];
    match goal with
    | |- context [query this net ?sql ?params calls] =>
        destruct (query_connected_request this net cfg sql params calls
                    Hc Hcfg) as [result Hq];
        exists result; eexists; split; [exact Hq|];
        cbn [body_params body_sql]; split; [reflexivity|]
    end;
    intros Hnone p Hp; simpl in Hp;
    try (destruct Hnone as [Hnone|Hnone]; rewrite Hnone in *; discriminate);
    unfold param in Hp;
    repeat (destruct Hp as [<-|Hp]; [destruct (filter_userId filters);
                                      destruct (filter_status filters);
                                      exact I|]);
    try contradiction.
Qed.

End StatementFacts.

(** ** The theorems at sample data *)

Section StoreWitness.

Import Js Examples Samples.
Local Open Scope string_scope.

(** CUST003 is created, CUST001 deleted, and the next customer is CUST003
    again. *)
Lemma customer_id_reused_after_delete_witness :
  exists first second,
    fst (Calls.createCustomer false customersOffline nov2_2026_10h customerD
           [customerA; customer222])
    = Returned (Some first)
    /\ Customers.id first = "CUST003"
    /\ Customers.id second = Customers.id first.
Proof.
  destruct (customer_id_reused_after_delete customersOffline nov2_2026_10h
              nov2_2026_10h_01s customerD customerD "CUST001"
              [customerA; customer222] eq_refl eq_refl eq_refl)
    as (first & second & H1 & _ & _ & H2 & _).
  - vm_compute. discriminate.
  - exists first, second. split; [exact H1|]. split; [|exact H2].
    vm_compute in H1. injection H1 as <-. reflexivity.
Defined.

(** Two notes added to document 7 from one render: only "b" is kept. *)
Lemma addNote_twice_loses_first_witness :
  exists updated,
    Documents.getDocument
      (Calls.storeOf
         (snd (DocumentNotes.addNote (Calls.storeOf [lastYearAgreement]) false
                 documentsOffline nov2_2026_10h_01s "7" "b"
                 (snd (DocumentNotes.addNote (Calls.storeOf [lastYearAgreement])
                         false documentsOffline nov2_2026_10h "7" "a"
                         [lastYearAgreement])))))
      "7"
    = Some updated
    /\ Documents.notes updated = ["b"].
Proof.
  apply (addNote_twice_loses_first documentsOffline nov2_2026_10h
           nov2_2026_10h_01s "7" "a" "b" [lastYearAgreement] lastYearAgreement).
  reflexivity.
Defined.

(** After the agreement of last year is deleted, the next agreement gets the
    number of the one just created. *)
Lemma number_reused_after_delete_witness :
  exists doc,
    fst (Spec.createLocal documentsOffline customersOffline buildersOffline
           nov2_2026_10h (request None None None Documents.agreement)
           lastYearStore)
    = Returned (Some doc)
    /\ Documents.generateDocumentNumber
         (Calls.storeOf
            (Calls.deleteDocument "7"
               (Documents.documents
                  (snd (Spec.createLocal documentsOffline customersOffline
                          buildersOffline nov2_2026_10h
                          (request None None None Documents.agreement)
                          lastYearStore)))))
         nov2_2026_10h_01s Documents.agreement
       = Documents.documentNumber doc.
Proof.
  destruct (number_reused_after_delete documentsOffline customersOffline
              buildersOffline nov2_2026_10h nov2_2026_10h_01s
              (request None None None Documents.agreement) Documents.agreement
              "7" lastYearStore eq_refl eq_refl eq_refl)
    as (doc & H1 & _ & H2).
  - vm_compute. discriminate.
  - vm_compute. reflexivity.
  - exists doc. split; assumption.
Defined.

(** A document for the builder "b" is attached to the builder "B". *)
Lemma createDocument_matches_builder_by_substring_witness :
  map Builders.name
    (Documents.builders
       (snd (Spec.createLocal documentsOffline customersOffline buildersOffline
               nov2_2026_10h (request None None (Some "b") Documents.agreement)
               oneBuilder)))
  = ["B"].
Proof.
  refine (proj1 (createDocument_matches_builder_by_substring documentsOffline
                   customersOffline buildersOffline nov2_2026_10h
                   (request None None (Some "b") Documents.agreement)
                   oneBuilder "AGREEMENT/2026/001" "b" _ eq_refl _ eq_refl _)
            _).
  - vm_compute. reflexivity.
  - discriminate.
  - intros b [<-|[]]. reflexivity.
  - exists builderB. split; [left; reflexivity|].
    exists "", "". reflexivity.
Defined.

End StoreWitness.

Section AttendanceWitness.

Import Js Attendance Examples Samples.
Import PrimFloat.
Local Open Scope string_scope.

(** The challan staff clocks in at 9:00 and out at 17:00:01. *)
Lemma clock_in_then_out_witness :
  exists (record closed : AttendanceRecord float) records',
    Spec.clockInLocal challanStaff defaultAttendanceSettings
      nov2_2026_9h None None []
    = (Returned record, [record])
    /\ Spec.clockOutLocal challanStaff defaultAttendanceSettings
         nov2_2026_17h_01s None [record]
       = (Returned closed, records')
    /\ clockOutTime closed = Some nov2_2026_17h_01s.
Proof.
  destruct (clock_in_then_out (num := float) challanStaff
              defaultAttendanceSettings nov2_2026_9h nov2_2026_17h_01s
              None None None [])
    as (record & closed & records' & H1 & _ & _ & H2 & _ & H3 & _).
  - discriminate.
  - reflexivity.
  - reflexivity.
  - exists record, closed, records'. auto.
Defined.

(** Clocked in at 9:00 with the default break: at 10:03:18, 3798 seconds
    later, 0.05 hours are shown, and a clock-out at that instant stores
    0.06000000000000005 hours. *)
Lemma working_hours_and_clockOut_witness :
  AttendanceQueries.getCurrentWorkingHours (Some challanStaff)
    [clockedInAt9 None] nov2_2026_10h03_18s None
  = 0.05%float
  /\ exists closed,
       fst (Spec.clockOutLocal challanStaff defaultAttendanceSettings
              nov2_2026_10h03_18s None [clockedInAt9 None])
       = Returned closed
       /\ totalHours closed = Some 0.06000000000000005%float.
Proof.
  destruct (working_hours_and_clockOut challanStaff
              defaultAttendanceSettings nov2_2026_10h03_18s None
              [clockedInAt9 None] (clockedInAt9 None) nov2_2026_9h 60%float)
    as (Hshown & closed & Hrun & Hstored).
  - discriminate.
  - reflexivity.
  - reflexivity.
  - reflexivity.
  - right. split; reflexivity.
  - split; [exact (eq_trans Hshown eq_refl)|].
    exists closed. split; [exact Hrun|].
    exact (eq_trans Hstored eq_refl).
Defined.


(** The same clock-out in the arithmetic of the program: -0.83 hours, that
    is 0.17 - 1, are stored. *)
Example clockOut_short_day_stored :
  match fst (Spec.clockOutLocal challanStaff defaultAttendanceSettings
               nov2_2026_9h10 None [clockedInAt9 None]) with
  | Returned closed => (totalHours closed, overtime closed)
  | Threw _ => (None, None)
  end
  = (Some (-0.83)%float, Some 0%float).
Proof. vm_compute. reflexivity. Qed.

(** The store that holds the one record of the challan staff. *)
Lemma one_record_per_user_day_witness :
  Spec.uniquePerUserDay (num := float)
    (snd (Spec.markLocal nov2_2026_10h "2" nov2_2026_10h absent None
            [clockedInAt9 None])).
Proof.
  refine (proj1 (one_record_per_user_day challanStaff
                   defaultAttendanceSettings nov2_2026_10h
                   [clockedInAt9 None] _ _) "2" nov2_2026_10h absent None).
  - simpl. constructor; [intros []|constructor].
  - unfold Spec.uniquePerUserDay. simpl.
    constructor; [intros []|constructor].
Defined.

End AttendanceWitness.

Section StatementWitness.

Import Js DatabaseService DatabaseOps Samples.
Local Open Scope string_scope.

(** [updateDocument('7', { status: 'delivered', assignedTo: undefined })] *)
Lemma updateDocument_statement_witness :
  exists result request,
    updateDocument connected unreachable "7" statusOnly []
    = (Returned result, [request])
    /\ body_params request = [PString "delivered"; PString "7"]
    /\ countChar "?" (body_sql request) = 2%nat.
Proof.
  destruct (updateDocument_statement unit connected unreachable "7" statusOnly
              []) as [_ H].
  - intros entry [<-|[<-|[]]]; reflexivity.
  - destruct (H ltac:(discriminate) _ eq_refl eq_refl)
      as (result & request & H1 & H2 & H3).
    exists result, request. split; [exact H1|]. split; [exact H2|].
    rewrite H3, H2. reflexivity.
Defined.

(** [getSalaryRecords({ userId: '2', month: 11 })] *)
Lemma getSalaryRecords_statement_witness :
  exists result request,
    getSalaryRecords connected unreachable ofUser2 []
    = (Returned result, [request])
    /\ countChar "?" (body_sql request)
       = List.length (body_params request).
Proof.
  destruct (getSalaryRecords_statement unit connected unreachable _ ofUser2 []
              eq_refl eq_refl)
    as (result & request & H1 & H2 & _).
  exists result, request. split; assumption.
Defined.

End StatementWitness.

(** ** Connecting to the database *)

Section ConnectionFacts.

Import Js DatabaseService Connection.
Local Open Scope string_scope.

Lemma testConnection_accepts (net : TestNetwork) (this : Service)
  (cfg : DatabaseConfig) :
  config this = Some cfg ->
  testConnection net this = (Returned (accepts net cfg), this).
Proof.
  intros H. unfold testConnection, accepts, tryCatch, bind, await, ret.
  rewrite H. destruct (net cfg) as [response|e]; [|reflexivity].
  destruct (ok response); [|reflexivity].
  destruct (json response); reflexivity.
Qed.

Lemma initialize_cases (saved : SavedConfig) (net : TestNetwork)
  (this : Service) :
  initialize saved net this
  = match usable saved with
    | Some cfg =>
        (Returned (accepts net cfg),
         {| config := Some cfg; isConnected := accepts net cfg |})
    | None => (Returned false, this)
    end.
Proof.
  unfold initialize, usable, tryCatch, bind, setState, throw, ret.
  destruct saved as [|e|[[[|] [cfg|]]|]]; try reflexivity.
  rewrite (testConnection_accepts net _ cfg) by reflexivity. reflexivity.
Qed.

(** X25. [initialize] of the service never throws.  It returns true exactly
    when the saved settings have MySQL enabled with connection settings and
    the test endpoint accepts them; with such settings the service keeps
    them and is connected exactly when the call returned true.  In every
    other case (nothing saved, unreadable text, MySQL disabled) the call
    returns false and leaves the service as it was, connected or not. *)
Theorem initialize_connects_iff (saved : SavedConfig) (net : TestNetwork)
  (this : Service) :
  exists connected this',
    initialize saved net this = (Returned connected, this')
    /\ (connected = true
        <-> exists cfg, usable saved = Some cfg /\ accepts net cfg = true)
    /\ (forall cfg,
          usable saved = Some cfg ->
          config this' = Some cfg /\ isConnected this' = connected)
    /\ (usable saved = None -> this' = this).
Proof.
  rewrite initialize_cases.
  destruct (usable saved) as [cfg|].
  - eexists. eexists. split; [reflexivity|]. split; [|split].
    + split.
      * intros H. exists cfg. auto.
      * intros (cfg' & E & H). injection E as <-. exact H.
    + intros cfg' E. injection E as <-. auto.
    + discriminate.
  - eexists. eexists. split; [reflexivity|]. split; [|split].
    + split; [discriminate|]. intros (cfg' & E & _). discriminate.
    + discriminate.
    + reflexivity.
Qed.

(** X26. The provider and the service can disagree.  [initialize] of the
    provider never throws, ends with isLoading false, and leaves the flag of
    the provider equal to what it returns, with the error message set exactly
    when that is false.  When the service is connected and the saved settings
    are no longer usable, the call returns false and the provider shows not
    connected, while the service stays connected with its old settings:
    [query] still sends its request. *)
Theorem provider_initialize_flags (saved : SavedConfig) (net : TestNetwork)
  (w : World) :
  exists connected w',
    provider_initialize saved net w = (Returned connected, w')
    /\ provider_isConnected (provider w') = connected
    /\ isLoading (provider w') = false
    /\ (error (provider w') = None <-> connected = true)
    /\ (usable saved = None ->
        connected = false
        /\ service w' = service w
        /\ forall R (queries : Network R) cfg sql params calls,
             isConnected (service w) = true ->
             config (service w) = Some cfg ->
             exists result request,
               query (service w') queries sql params calls
               = (Returned result, (calls ++ [request])%list)
               /\ body_sql request = sql).
Proof.
  unfold provider_initialize, tryFinally, tryCatch, bind, onService, zoom,
    setIsLoading, setError, setIsConnected, onProvider, zoom, setState, ret.
  cbn [service provider].
  rewrite initialize_cases.
  destruct (usable saved) as [cfg|].
  - destruct (accepts net cfg); cbn;
      (eexists; eexists; split; [reflexivity|]);
      cbn; (split; [reflexivity|]); (split; [reflexivity|]);
      (split; [split; try reflexivity; discriminate|discriminate]).
  - cbn. eexists. eexists. split; [reflexivity|]. cbn.
    split; [reflexivity|]. split; [reflexivity|].
    split; [split; discriminate|].
    intros _. split; [reflexivity|]. split; [reflexivity|].
    intros R queries cfg sql params calls Hc Hcfg.
    destruct (query_connected_request R (service w) queries cfg sql params
                calls Hc Hcfg) as [result Hq].
    exists result. eexists. split; [exact Hq|]. reflexivity.
Qed.

End ConnectionFacts.
